(** * wa-chat-mcp: session orchestration layer

    A shallow embedding of the TypeScript sources of the bridge:
    - [mcp/mcp-session-manager.ts]  (client push-session registry),
    - [mcp/mcp-event-emitter.ts]    (event broadcaster, [sendEventToClient]),
    - [core/baileys-session-manager.ts] (per-tenant protocol sessions),
    - [media/media-handler.ts] and the Baileys-to-MCP adapter (event adapter),
    - [mcp/mcp-message-handler.ts]  (client action handler),
    - [mcp/http-stream-server.ts]   (the [GET /events] route),
    - [core/baileys.ts]             (initialising and disconnecting a tenant),
    - [index.ts]                    (session-init route, shutdown handler).

    JavaScript values that the code serialises are modelled by [json];
    exceptions by [completion]; the module-level [Map]s and the objects
    they alias by explicit stores; [new Date()] by a [now] argument. *)

From stdpp Require Import gmap strings list fin_maps pretty.
From Stdlib Require Import ZArith Lia Ascii.

Open Scope string_scope.
Open Scope list_scope.
Open Scope Z_scope.

(** ** JavaScript values, exceptions, strings *)

Module Js.

(** Values that cross [JSON.stringify]; numbers are the integers. *)
#[local] Unset Elimination Schemes.
Inductive json : Type :=
| JUndefined
| JNull
| JBool (b : bool)
| JNum (n : Z)
| JStr (s : string)
| JArr (items : list json)
| JObj (fields : list (string * json)).
#[local] Set Elimination Schemes.

(** A thrown value: an [Error] with its [message] and an optional
    [details] property (read by the action handler). *)
Record JsError : Type := mkError { err_message : string; err_details : json }.

Definition Error (msg : string) : JsError :=
  {| err_message := msg; err_details := JUndefined |}.

(** Outcome of a call: it returns or it throws. *)
Inductive completion (A : Type) : Type :=
| Normal (a : A)
| Throw (e : JsError).
Arguments Normal {A} a.
Arguments Throw {A} e.

(** JavaScript truthiness of the values the code tests with [if], [!], [||]. *)
Definition truthy (j : json) : bool :=
  match j with
  | JUndefined | JNull => false
  | JBool b => b
  | JNum n => negb (Z.eqb n 0)
  | JStr s => negb (String.eqb s EmptyString)
  | JArr _ | JObj _ => true
  end.

Definition nullish (j : json) : bool :=
  match j with
  | JUndefined | JNull => true
  | _ => false
  end.

Definition truthy_str (s : string) : bool := negb (String.eqb s EmptyString).

(** [String.prototype.includes]. *)
Fixpoint includes (needle hay : string) : bool :=
  String.prefix needle hay
  || match hay with
     | EmptyString => false
     | String _ rest => includes needle rest
     end.

Definition startsWith (p s : string) : bool := String.prefix p s.

Definition dquote : string := String "034"%char EmptyString.
Definition backslash : string := String "092"%char EmptyString.
Definition newline : string := String "010"%char EmptyString.

Definition hex_digit (n : N) : ascii :=
  match n with
  | 0%N => "0" | 1%N => "1" | 2%N => "2" | 3%N => "3" | 4%N => "4"
  | 5%N => "5" | 6%N => "6" | 7%N => "7" | 8%N => "8" | 9%N => "9"
  | 10%N => "a" | 11%N => "b" | 12%N => "c" | 13%N => "d" | 14%N => "e"
  | _ => "f"
  end%char.

(** [JSON.stringify] on a string: the quoting of ECMA-262 QuoteJSONString. *)
Definition escape_char (c : ascii) : string :=
  let n := N_of_ascii c in
  if (n =? 34)%N then backslash +:+ dquote
  else if (n =? 92)%N then backslash +:+ backslash
  else if (n =? 8)%N then backslash +:+ "b"
  else if (n =? 9)%N then backslash +:+ "t"
  else if (n =? 10)%N then backslash +:+ "n"
  else if (n =? 12)%N then backslash +:+ "f"
  else if (n =? 13)%N then backslash +:+ "r"
  else if (n <? 32)%N then
    backslash +:+ "u00" +:+
    String (hex_digit (n / 16)) (String (hex_digit (n mod 16)) EmptyString)
  else String c EmptyString.

Fixpoint escape (s : string) : string :=
  match s with
  | EmptyString => EmptyString
  | String c rest => escape_char c +:+ escape rest
  end.

Definition quote (s : string) : string := dquote +:+ escape s +:+ dquote.

Fixpoint join_comma (l : list string) : string :=
  match l with
  | [] => EmptyString
  | [x] => x
  | x :: rest => x +:+ "," +:+ join_comma rest
  end.

(** [JSON.stringify]: [None] stands for the result [undefined]; an
    undefined property is omitted and an undefined array item prints as
    [null]. *)
Fixpoint stringify (j : json) : option string :=
  match j with
  | JUndefined => None
  | JNull => Some "null"
  | JBool b => Some (if b then "true" else "false")
  | JNum n => Some (pretty n)
  | JStr s => Some (quote s)
  | JArr items =>
      let fix go (l : list json) : list string :=
        match l with
        | [] => []
        | x :: rest =>
            match stringify x with
            | Some s => s
            | None => "null"
            end :: go rest
        end in
      Some ("[" +:+ join_comma (go items) +:+ "]")
  | JObj fields =>
      let fix go (l : list (string * json)) : list string :=
        match l with
        | [] => []
        | kv :: rest =>
            match stringify (snd kv) with
            | Some s => (quote (fst kv) +:+ ":" +:+ s) :: go rest
            | None => go rest
            end
        end in
      Some ("{" +:+ join_comma (go fields) +:+ "}")
  end.

(** The text a template literal interpolates for [JSON.stringify(data)]. *)
Definition stringify_text (j : json) : string :=
  match stringify j with
  | Some s => s
  | None => "undefined"
  end.

(** Property assignment on an object literal: an existing key keeps its
    place, a new key goes last. *)
Fixpoint obj_set (k : string) (v : json) (fields : list (string * json))
  : list (string * json) :=
  match fields with
  | [] => [(k, v)]
  | (k', v') :: rest =>
      if String.eqb k k' then (k, v) :: rest else (k', v') :: obj_set k v rest
  end.

Fixpoint obj_get (k : string) (fields : list (string * json)) : json :=
  match fields with
  | [] => JUndefined
  | (k', v) :: rest => if String.eqb k k' then v else obj_get k rest
  end.

(** Property read [o.k] / [o?.k] on an arbitrary value. *)
Definition prop (k : string) (j : json) : json :=
  match j with
  | JObj fields => obj_get k fields
  | _ => JUndefined
  end.

(** [{...data}]: the own properties of an object, none for other values. *)
Definition spread (j : json) : list (string * json) :=
  match j with
  | JObj fields => fields
  | _ => []
  end.

Definition opt_str (o : option string) : json :=
  match o with
  | Some s => JStr s
  | None => JUndefined
  end.

End Js.
Import Js.

(** ** mcp/mcp-session-manager.ts: the registry of client push sessions *)

Module McpSessionManager.

(** The [http.ServerResponse] of an SSE stream, as far as the code looks at
    it: the [closed] and [destroyed] flags, what has been written, and whether
    the next [write] throws ([writeError = Some m] stands for a transport
    whose [write] raises [Error(m)]). *)
Record ServerResponse : Type := {
  closed : bool;
  destroyed : bool;
  writeError : option string;
  written : list string
}.

Definition write (c : ServerResponse) (chunk : string) : completion ServerResponse :=
  match writeError c with
  | Some m => Throw (Error m)
  | None =>
      Normal {| closed := closed c; destroyed := destroyed c;
                writeError := writeError c; written := written c ++ [chunk] |}
  end.

Record McpSession : Type := {
  id : string;
  connection : ServerResponse;
  lastSeen : Z
}.

(** The state shared by the registry and the broadcaster: the [sessions]
    map, the process console, and a history of the calls of
    [sendEventToClient] (session id, event type, payload), kept so that what
    a caller asked to send can be told from what reached a transport. *)
Record World : Type := {
  sessions : gmap string McpSession;
  console : list string;
  emitted : list (string * string * json)
}.

Definition set_sessions (m : gmap string McpSession) (w : World) : World :=
  {| sessions := m; console := console w; emitted := emitted w |}.

Definition console_log (line : string) (w : World) : World :=
  {| sessions := sessions w; console := console w ++ [line]; emitted := emitted w |}.

Definition record_emit (e : string * string * json) (w : World) : World :=
  {| sessions := sessions w; console := console w; emitted := emitted w ++ [e] |}.

Definition touch (now : Z) (s : McpSession) : McpSession :=
  {| id := id s; connection := connection s; lastSeen := now |}.

Definition set_connection (c : ServerResponse) (s : McpSession) : McpSession :=
  {| id := id s; connection := c; lastSeen := lastSeen s |}.

(** [getSession]: the lookup refreshes [lastSeen]. *)
Definition getSession (now : Z) (sessionId : string) (w : World)
  : World * option McpSession :=
  match sessions w !! sessionId with
  | Some session =>
      let session' := touch now session in
      (set_sessions (<[sessionId := session']> (sessions w)) w, Some session')
  | None => (w, None)
  end.

End McpSessionManager.

(** ** mcp/mcp-event-emitter.ts: the broadcaster *)

Module McpEventEmitter.
Import McpSessionManager.

Definition log (msg : string) (w : World) : World :=
  console_log ("[MCP Event Emitter] " +:+ msg) w.

(** The SSE frame built by [sendEventToClient]: the [event:] line is left out
    for an empty event type, the [data:] line is always there. *)
Definition eventString (eventType : string) (data : json) : string :=
  (if truthy_str eventType
   then "event: " +:+ eventType +:+ newline else EmptyString)
  +:+ "data: " +:+ stringify_text data +:+ newline +:+ newline.

(** [sendEventToClient].  The payload is a finite [json] tree, on which
    [JSON.stringify] does not throw; the one call of the [try] block that
    can is [write]. *)
Definition sendEventToClient (now : Z) (sessionId eventType : string)
    (data : json) (w : World) : World * completion bool :=
  let '(w1, found) :=
    getSession now sessionId (record_emit (sessionId, eventType, data) w) in
  match found with
  | None =>
      (log ("Session not found: " +:+ sessionId +:+ ". Cannot send event '"
            +:+ eventType +:+ "'.") w1, Normal false)
  | Some session =>
      if closed (connection session) || destroyed (connection session) then
        (log ("Connection for session " +:+ sessionId
              +:+ " is closed or destroyed. Cannot send event '"
              +:+ eventType +:+ "'.") w1, Normal false)
      else
        (* try { ... } catch (error) { ... } *)
        match write (connection session) (eventString eventType data) with
        | Normal c' =>
            (set_sessions (<[sessionId := set_connection c' session]> (sessions w1)) w1,
             Normal true)
        | Throw error =>
            (log ("Error sending event '" +:+ eventType +:+ "' to session "
                  +:+ sessionId +:+ ": " +:+ err_message error) w1, Normal false)
        end
  end.

(** What a client of [sessionId] has been sent so far. *)
Definition sent_to (sessionId : string) (w : World) : list string :=
  match sessions w !! sessionId with
  | Some s => written (connection s)
  | None => []
  end.

(** Whether a frame for [sessionId] reaches a transport: the session is
    registered, its stream is neither closed nor destroyed, and the write
    goes through. *)
Definition deliverable (sessionId : string) (w : World) : bool :=
  match sessions w !! sessionId with
  | Some s =>
      negb (closed (connection s) || destroyed (connection s))
      && bool_decide (writeError (connection s) = None)
  | None => false
  end.

End McpEventEmitter.

(** ** What the code reads of the protocol library's values *)

Module WA.

(** A 64-bit [Long] as the protobuf decoder hands it out. *)
Record Long : Type := { low : Z; high : Z; unsigned : bool }.

Definition toNumber (l : Long) : Z :=
  if unsigned l
  then (high l mod 2 ^ 32) * 2 ^ 32 + (low l mod 2 ^ 32)
  else high l * 2 ^ 32 + (low l mod 2 ^ 32).

Inductive Timestamp : Type :=
| TsNumber (n : Z)
| TsLong (l : Long).

Record WAMessageKey : Type := {
  id : json;
  remoteJid : json;
  participant : json;
  fromMe : json
}.

(** [message] is the decoded content object (or [null]/[undefined]); the
    code only reads properties of it, so it is kept as a [json] value. *)
Record WAMessage : Type := {
  key : WAMessageKey;
  message : json;
  messageTimestamp : option Timestamp
}.

(** The error object of a close event ([@hapi/boom]). *)
Record Boom : Type := {
  boom_message : string;
  statusCode : option Z
}.

Record LastDisconnect : Type := {
  error : option Boom;
  reason : json
}.

(** [Partial<ConnectionState>]. *)
Record ConnectionUpdate : Type := {
  connection : option string;
  lastDisconnect : option LastDisconnect;
  qr : option string
}.

Record MessagesUpsert : Type := {
  messages : option (list WAMessage);
  type : json
}.

(** The underlying web socket of a [BaileysSocket], read through
    [ws?.readyState] and [ws?.OPEN]. *)
Record WebSocket : Type := {
  readyState : option Z;
  OPEN : option Z
}.

(** A socket handle as the library exposes it: its web socket, and how its
    [logout()] and [end()] behave ([Some m]: the call fails with [Error(m)]). *)
Record BaileysSocket : Type := {
  ws : option WebSocket;
  logoutError : option string;
  endError : option string
}.

End WA.

(** ** A JavaScript [Map<string, V>]: keys in insertion order *)

Module JsMap.
Section Defs.
Context {V : Type}.

Fixpoint get (k : string) (m : list (string * V)) : option V :=
  match m with
  | [] => None
  | (k', v) :: rest => if String.eqb k k' then Some v else get k rest
  end.

Definition has (k : string) (m : list (string * V)) : bool :=
  match get k m with
  | Some _ => true
  | None => false
  end.

(** [set] on a present key keeps its position. *)
Fixpoint set (k : string) (v : V) (m : list (string * V)) : list (string * V) :=
  match m with
  | [] => [(k, v)]
  | (k', v') :: rest =>
      if String.eqb k k' then (k, v) :: rest else (k', v') :: set k v rest
  end.

Fixpoint delete (k : string) (m : list (string * V)) : list (string * V) :=
  match m with
  | [] => []
  | (k', v') :: rest =>
      if String.eqb k k' then delete k rest else (k', v') :: delete k rest
  end.
End Defs.
End JsMap.

(** ** core/baileys-session-manager.ts: protocol sessions per tenant

    The second of the two copies of the manager in the sources, the one with
    the retry bookkeeping.  An [async] function that its caller awaits runs
    here as one step, with the outcome of each awaited library call given as
    an argument; the one call nobody awaits, the removal a logout starts, is
    cut at its first [await] ([removals], [resume_removal]).  Console output
    of this module is left out. *)

Module BaileysSessionManager.

Record BaileysSession : Type := {
  mcpSessionId : string;
  socket : nat;
  stateDir : string;
  creationTime : Z;
  lastActivityTime : Z;
  qrCode : option string;
  socketOptions : json;
  retryCount : Z
}.

Definition set_lastActivityTime (t : Z) (s : BaileysSession) : BaileysSession :=
  {| mcpSessionId := mcpSessionId s; socket := socket s; stateDir := stateDir s;
     creationTime := creationTime s; lastActivityTime := t; qrCode := qrCode s;
     socketOptions := socketOptions s; retryCount := retryCount s |}.

Definition set_qrCode (q : option string) (s : BaileysSession) : BaileysSession :=
  {| mcpSessionId := mcpSessionId s; socket := socket s; stateDir := stateDir s;
     creationTime := creationTime s; lastActivityTime := lastActivityTime s;
     qrCode := q; socketOptions := socketOptions s; retryCount := retryCount s |}.

Definition set_retryCount (n : Z) (s : BaileysSession) : BaileysSession :=
  {| mcpSessionId := mcpSessionId s; socket := socket s; stateDir := stateDir s;
     creationTime := creationTime s; lastActivityTime := lastActivityTime s;
     qrCode := qrCode s; socketOptions := socketOptions s; retryCount := n |}.

(** The four [eventCallbacks] of a caller are identified by a number; what
    the manager does with them is the list of their invocations. *)
Inductive Callback : Type :=
| onQR (cb : nat) (qr : string)
| onConnected (cb : nat)
| onDisconnected (cb : nat) (reason : json) (mcpSessionId : string)
| onMessage (cb : nat) (msg : WA.WAMessage) (mcpSessionId : string).

(** Credentials on disk and the state [useMultiFileAuthState] returns. *)
Definition Creds : Type := nat.

Inductive AuthState : Type :=
| Restored (c : Creds)
| Fresh.

(** Calls into the library, the file system and the timer queue. *)
Inductive LibCall : Type :=
| useMultiFileAuthState (dir : string)
| makeWASocket (auth : AuthState) (options : json)
| logout (h : nat)
| end_ (h : nat)
| rm (dir : string)
| setTimeout (ms : Z).

(** One allocation of [getOrCreateBaileysSession]: the session object, the
    socket it wraps and the callbacks its event handlers closed over.  The
    session object is reachable from the map, from these handlers
    ([newBaileysSession]) and from pending timers ([currentSession]). *)
Record Cell : Type := {
  session : BaileysSession;
  sock : WA.BaileysSocket;
  eventCallbacks : nat
}.

Definition map_session (f : BaileysSession -> BaileysSession) (c : Cell) : Cell :=
  {| session := f (session c); sock := sock c; eventCallbacks := eventCallbacks c |}.

(** The closure [setTimeout] was given. *)
Record Timer : Type := {
  t_mcpSessionId : string;
  t_eventCallbacks : nat;
  t_currentSession : nat
}.

(** A call [removeBaileysSession(mcpSessionId, true)] that the close handler
    has made without awaiting it, suspended at its [await
    session.socket.logout()]: the session object it read from the map, and
    the outcome its [fs.rm] is going to have. *)
Record Removal : Type := {
  r_mcpSessionId : string;
  r_session : nat;
  r_rmError : option string
}.

(** The module state and what it acts on: the [baileysSessions] map (tenant
    to session object), the allocations [objs], the credential directories
    [fs] (a present key is an existing directory, with the credentials saved
    in it, if any), the pending [timers], the history of callback
    invocations [calls] and of library calls [lib], and the [removals] that
    have been started and not awaited. *)
Record State : Type := {
  baileysSessions : list (string * nat);
  objs : gmap nat Cell;
  fs : gmap string (option Creds);
  timers : list Timer;
  calls : list Callback;
  lib : list LibCall;
  next : nat;
  removals : list Removal
}.

Definition set_baileysSessions (m : list (string * nat)) (st : State) : State :=
  {| baileysSessions := m; objs := objs st; fs := fs st; timers := timers st;
     calls := calls st; lib := lib st; next := next st;
     removals := removals st |}.

Definition set_objs (o : gmap nat Cell) (st : State) : State :=
  {| baileysSessions := baileysSessions st; objs := o; fs := fs st;
     timers := timers st; calls := calls st; lib := lib st; next := next st;
     removals := removals st |}.

Definition set_fs (f : gmap string (option Creds)) (st : State) : State :=
  {| baileysSessions := baileysSessions st; objs := objs st; fs := f;
     timers := timers st; calls := calls st; lib := lib st; next := next st;
     removals := removals st |}.

Definition set_timers (t : list Timer) (st : State) : State :=
  {| baileysSessions := baileysSessions st; objs := objs st; fs := fs st;
     timers := t; calls := calls st; lib := lib st; next := next st;
     removals := removals st |}.

Definition call (c : Callback) (st : State) : State :=
  {| baileysSessions := baileysSessions st; objs := objs st; fs := fs st;
     timers := timers st; calls := calls st ++ [c]; lib := lib st;
     next := next st;
     removals := removals st |}.

Definition libcall (c : LibCall) (st : State) : State :=
  {| baileysSessions := baileysSessions st; objs := objs st; fs := fs st;
     timers := timers st; calls := calls st; lib := lib st ++ [c];
     next := next st;
     removals := removals st |}.

Definition set_next (n : nat) (st : State) : State :=
  {| baileysSessions := baileysSessions st; objs := objs st; fs := fs st;
     timers := timers st; calls := calls st; lib := lib st; next := n;
     removals := removals st |}.

Definition set_removals (r : list Removal) (st : State) : State :=
  {| baileysSessions := baileysSessions st; objs := objs st; fs := fs st;
     timers := timers st; calls := calls st; lib := lib st; next := next st;
     removals := r |}.

(** A field assignment through a reference to a session object. *)
Definition assign (ref : nat) (f : BaileysSession -> BaileysSession) (st : State)
  : State :=
  set_objs (alter (map_session f) ref (objs st)) st.

Definition initial : State :=
  {| baileysSessions := []; objs := ∅; fs := ∅; timers := []; calls := [];
     lib := []; next := 0%nat; removals := [] |}.

(** [path.join] on two segments that need no normalisation. *)
Definition path_join (a b : string) : string := a +:+ "/" +:+ b.

Definition MAX_RETRIES : Z := 3.
Definition RETRY_DELAY_MS : Z := 3000.

(** What the awaited calls of one creation do: [useMultiFileAuthState] and
    [makeWASocket] may fail, and the factory returns some socket. *)
Record Creation : Type := {
  authError : option string;
  socketError : option string;
  newSocket : WA.BaileysSocket
}.

(** [ws?.readyState !== ws?.OPEN]. *)
Definition ws_not_open (s : WA.BaileysSocket) : bool :=
  match WA.ws s with
  | None => false
  | Some w => negb (bool_decide (WA.readyState w = WA.OPEN w))
  end.


(** The test of the sweep on the entry of [id] among [entries]: idle for
    longer than [maxIdleTimeMs]. *)
Definition stale (now maxIdleTimeMs : Z) (entries : list (string * nat))
    (o : gmap nat Cell) (id : string) : bool :=
  match JsMap.get id entries with
  | Some ref =>
      match o !! ref with
      | Some c => now - lastActivityTime (session c) >? maxIdleTimeMs
      | None => false
      end
  | None => false
  end.

(** Two shapes of ['connection.update']: a QR code is issued; the
    connection is open. *)
Definition qr_issued (q : string) : WA.ConnectionUpdate :=
  {| WA.connection := None; WA.lastDisconnect := None; WA.qr := Some q |}.

Definition connection_open : WA.ConnectionUpdate :=
  {| WA.connection := Some "open"; WA.lastDisconnect := None; WA.qr := None |}.

Section Manager.
(** [process.cwd()] and the library constant [DisconnectReason.loggedOut]. *)
Variable cwd : string.
Variable loggedOut : Z.

Definition AUTH_STATE_BASE_DIR : string := path_join cwd ".baileys_auth_state".

(** [getOrCreateBaileysSession] returns the socket handle.  A reference
    held by the map is always allocated ([wf_map] below), so the branch that
    finds none is never taken in a run. *)
Definition getOrCreateBaileysSession (now : Z) (o : Creation)
    (mcpSessionId : string) (eventCallbacks : nat) (options : json)
    (st : State) : State * completion nat :=
  match JsMap.get mcpSessionId (baileysSessions st) with
  | Some ref =>
      match objs st !! ref with
      | Some existing =>
          let st1 := assign ref (set_lastActivityTime now) st in
          let st2 :=
            match qrCode (session existing) with
            | Some q =>
                if truthy_str q && ws_not_open (sock existing)
                then call (onQR eventCallbacks q) st1 else st1
            | None => st1
            end in
          (st2, Normal (socket (session existing)))
      | None => (st, Throw (Error "TypeError: existingSession is undefined"))
      end
  | None =>
      let stateDir := path_join AUTH_STATE_BASE_DIR ("session_" +:+ mcpSessionId) in
      let st1 := libcall (useMultiFileAuthState stateDir) st in
      match authError o with
      | Some m => (st1, Throw (Error m))
      | None =>
          let state :=
            match fs st1 !! stateDir with
            | Some (Some c) => Restored c
            | _ => Fresh
            end in
          let st2 :=
            match fs st1 !! stateDir with
            | Some _ => st1
            | None => set_fs (<[stateDir := None]> (fs st1)) st1
            end in
          let st3 := libcall (makeWASocket state options) st2 in
          match socketError o with
          | Some m => (st3, Throw (Error m))
          | None =>
              let h := next st3 in
              let newBaileysSession :=
                {| mcpSessionId := mcpSessionId; socket := h;
                   stateDir := stateDir; creationTime := now;
                   lastActivityTime := now; qrCode := None;
                   socketOptions := options; retryCount := 0 |} in
              let cell :=
                {| session := newBaileysSession; sock := newSocket o;
                   eventCallbacks := eventCallbacks |} in
              let st4 := set_next (S h) (set_objs (<[h := cell]> (objs st3)) st3) in
              (set_baileysSessions
                 (JsMap.set mcpSessionId h (baileysSessions st4)) st4,
               Normal h)
          end
      end
  end.

Definition getBaileysSocket (now : Z) (mcpSessionId : string) (st : State)
  : State * option nat :=
  match JsMap.get mcpSessionId (baileysSessions st) with
  | Some ref =>
      match objs st !! ref with
      | Some c => (assign ref (set_lastActivityTime now) st, Some (socket (session c)))
      | None => (st, None)
      end
  | None => (st, None)
  end.

(** [removeBaileysSession]: [rmError] is the outcome of [fs.rm]. *)
Definition removeBaileysSession (rmError : option string)
    (mcpSessionId : string) (deleteAuthState : bool) (st : State)
  : State * completion unit :=
  match JsMap.get mcpSessionId (baileysSessions st) with
  | Some ref =>
      match objs st !! ref with
      | Some c =>
          let h := socket (session c) in
          (* try { await session.socket.logout() } catch { session.socket.end(undefined) } *)
          let st1 := libcall (logout h) st in
          let closing :=
            match WA.logoutError (sock c) with
            | None => (st1, Normal tt)
            | Some _ =>
                let st1' := libcall (end_ h) st1 in
                match WA.endError (sock c) with
                | None => (st1', Normal tt)
                | Some m => (st1', Throw (Error m))
                end
            end in
          match closing with
          | (st2, Throw e) => (st2, Throw e)
          | (st2, Normal _) =>
              let st3 :=
                if deleteAuthState then
                  let st2' := libcall (rm (stateDir (session c))) st2 in
                  match rmError with
                  | None => set_fs (delete (stateDir (session c)) (fs st2')) st2'
                  | Some _ => st2'
                  end
                else st2 in
              (set_baileysSessions
                 (JsMap.delete mcpSessionId (baileysSessions st3)) st3,
               Normal tt)
          end
      | None => (st, Throw (Error "TypeError: session.socket is undefined"))
      end
  | None => (st, Normal tt)
  end.

Definition isLoggedOut (ld : option WA.LastDisconnect) : bool :=
  match ld with
  | Some d =>
      match WA.error d with
      | Some boomError =>
          match WA.statusCode boomError with
          | Some c => Z.eqb c loggedOut
          | None => false
          end
      | None => false
      end
  | None => false
  end.

Definition isRestartRequired (ld : option WA.LastDisconnect) : bool :=
  match ld with
  | Some d =>
      match WA.error d with
      | Some boomError =>
          includes "Stream Errored (restart required)" (WA.boom_message boomError)
          || match WA.statusCode boomError with
             | Some c => Z.eqb c 515
             | None => false
             end
      | None => false
      end
  | None => false
  end.

Definition reason_of (ld : option WA.LastDisconnect) : json :=
  match ld with
  | Some d => WA.reason d
  | None => JUndefined
  end.

(** The ['connection.update'] handler registered on socket [h].  On a
    logout it calls [removeBaileysSession(mcpSessionId, true)] and does not
    await it: of that call only the part before its first [await] runs inside
    the handler (the session is read from the map and its [logout()] is
    called); the rest is [resume_removal] below.  [rmError] is the outcome
    the [fs.rm] of that removal is going to have. *)
Definition on_connection_update (now : Z) (rmError : option string) (h : nat)
    (update : WA.ConnectionUpdate) (st : State) : State :=
  match objs st !! h with
  | None => st
  | Some closure =>
      let mcpSessionId := mcpSessionId (session closure) in
      let eventCallbacks := eventCallbacks closure in
      let st1 := assign h (set_lastActivityTime now) st in
      let st2 :=
        match WA.qr update with
        | Some q =>
            if truthy_str q
            then call (onQR eventCallbacks q) (assign h (set_qrCode (Some q)) st1)
            else st1
        | None => st1
        end in
      match WA.connection update with
      | Some conn =>
          if String.eqb conn "close" then
            let st3 :=
              call (onDisconnected eventCallbacks
                      (reason_of (WA.lastDisconnect update)) mcpSessionId) st2 in
            if isLoggedOut (WA.lastDisconnect update) then
              match JsMap.get mcpSessionId (baileysSessions st3) with
              | Some ref =>
                  match objs st3 !! ref with
                  | Some c =>
                      set_removals
                        (removals st3 ++
                           [{| r_mcpSessionId := mcpSessionId;
                               r_session := ref;
                               r_rmError := rmError |}])
                        (libcall (logout (socket (session c))) st3)
                  | None => st3
                  end
              | None => st3
              end
            else if isRestartRequired (WA.lastDisconnect update) then
              match JsMap.get mcpSessionId (baileysSessions st3) with
              | Some cur =>
                  match objs st3 !! cur with
                  | Some currentSession =>
                      if retryCount (session currentSession) <? MAX_RETRIES then
                        let st4 :=
                          assign cur
                            (set_retryCount (retryCount (session currentSession) + 1))
                            st3 in
                        let st5 :=
                          set_baileysSessions
                            (JsMap.set mcpSessionId cur (baileysSessions st4)) st4 in
                        set_timers
                          (timers st5 ++
                             [{| t_mcpSessionId := mcpSessionId;
                                 t_eventCallbacks := eventCallbacks;
                                 t_currentSession := cur |}])
                          (libcall (setTimeout RETRY_DELAY_MS) st5)
                      else st3
                  | None => st3
                  end
              | None => st3
              end
            else st3
          else if String.eqb conn "open" then
            let st3 :=
              match JsMap.get mcpSessionId (baileysSessions st2) with
              | Some cur =>
                  set_baileysSessions
                    (JsMap.set mcpSessionId cur (baileysSessions st2))
                    (assign cur (set_retryCount 0) st2)
              | None => st2
              end in
            let st4 := assign h (set_qrCode None) st3 in
            let st5 :=
              match JsMap.get mcpSessionId (baileysSessions st4) with
              | Some sessionToClearQR => assign sessionToClearQR (set_qrCode None) st4
              | None => st4
              end in
            call (onConnected eventCallbacks) st5
          else st2
      | None => st2
      end
  end.

(** The callback of the oldest pending [setTimeout] runs. *)
Definition fire_timer (now : Z) (o : Creation) (st : State) : State :=
  match timers st with
  | [] => st
  | t :: rest =>
      let st1 := set_timers rest st in
      let st2 :=
        set_baileysSessions
          (JsMap.delete (t_mcpSessionId t) (baileysSessions st1)) st1 in
      let options :=
        match objs st2 !! t_currentSession t with
        | Some c => socketOptions (session c)
        | None => JUndefined
        end in
      fst (getOrCreateBaileysSession now o (t_mcpSessionId t)
             (t_eventCallbacks t) options st2)
  end.

(** The rest of a removal that a close handler started ([n] is its place
    among the pending ones), run when its [logout()] has settled: the
    fallback [end()] if [logout()] failed, the deletion of the credential
    directory, the deletion of the map entry.  Like the other [async]
    functions it runs as one step.  Nobody awaits this call: when it rejects
    ([end()] throws) it stops there, with the entry and the directory in
    place; what the runtime does with a rejection that no code handles is
    outside this module. *)
Definition resume_removal (n : nat) (st : State) : State :=
  match removals st !! n with
  | None => st
  | Some r =>
      let st0 := set_removals (delete n (removals st)) st in
      match objs st0 !! r_session r with
      | None => st0
      | Some c =>
          let h := socket (session c) in
          let closing :=
            match WA.logoutError (sock c) with
            | None => (st0, Normal tt)
            | Some _ =>
                let st1 := libcall (end_ h) st0 in
                match WA.endError (sock c) with
                | None => (st1, Normal tt)
                | Some m => (st1, Throw (Error m))
                end
            end in
          match closing with
          | (st2, Throw _) => st2
          | (st2, Normal _) =>
              let st2' := libcall (rm (stateDir (session c))) st2 in
              let st3 :=
                match r_rmError r with
                | None => set_fs (delete (stateDir (session c)) (fs st2')) st2'
                | Some _ => st2'
                end in
              set_baileysSessions
                (JsMap.delete (r_mcpSessionId r) (baileysSessions st3)) st3
          end
      end
  end.

Definition wanted (msg : WA.WAMessage) : bool :=
  truthy (WA.message msg) && negb (truthy (WA.fromMe (WA.key msg))).

(** The ['messages.upsert'] handler registered on socket [h]. *)
Definition on_messages_upsert (h : nat) (m : WA.MessagesUpsert) (st : State)
  : State :=
  match objs st !! h with
  | None => st
  | Some closure =>
      match WA.messages m with
      | Some msgs =>
          if (0 <? length msgs)%nat then
            foldl (fun acc msg =>
                     if wanted msg
                     then call (onMessage (eventCallbacks closure) msg
                                  (mcpSessionId (session closure))) acc
                     else acc) st msgs
          else st
      | None => st
      end
  end.

(** ['creds.update'] runs [saveCreds], which writes into the state
    directory of the socket. *)
Definition on_creds_update (h : nat) (c : Creds) (st : State) : State :=
  match objs st !! h with
  | None => st
  | Some closure => set_fs (<[stateDir (session closure) := Some c]> (fs st)) st
  end.

(** The loop of [cleanupInactiveBaileysSessions] over the entries still to
    visit (an entry deleted before its turn is passed over, as by the live
    iterator of a [Map]); an exception of [removeBaileysSession] leaves the
    loop. *)
Fixpoint sweep (now maxIdleTimeMs : Z) (entries : list (string * nat))
    (st : State) : State * completion unit :=
  match entries with
  | [] => (st, Normal tt)
  | (mcpSessionId, ref) :: rest =>
      match JsMap.get mcpSessionId (baileysSessions st), objs st !! ref with
      | Some _, Some c =>
          if now - lastActivityTime (session c) >? maxIdleTimeMs then
            match removeBaileysSession None mcpSessionId false st with
            | (st1, Normal _) => sweep now maxIdleTimeMs rest st1
            | (st1, Throw e) => (st1, Throw e)
            end
          else sweep now maxIdleTimeMs rest st
      | _, _ => sweep now maxIdleTimeMs rest st
      end
  end.

(** What the session object behind reference [ref] holds. *)
Definition deref (ref : nat) (st : State) : option BaileysSession :=
  session <$> objs st !! ref.

Definition cleanupInactiveBaileysSessions (now maxIdleTimeMs : Z) (st : State)
  : State * completion unit :=
  sweep now maxIdleTimeMs (baileysSessions st) st.

(** Everything that can happen to the module: calls of its exported
    functions, events of a socket it created, a pending timer firing, and a
    removal started by a close handler running on. *)
Inductive Event : Type :=
| GetOrCreate (o : Creation) (mcpSessionId : string) (eventCallbacks : nat)
    (options : json)
| GetSocket (mcpSessionId : string)
| Remove (rmError : option string) (mcpSessionId : string) (deleteAuthState : bool)
| Cleanup (maxIdleTimeMs : Z)
| ConnectionUpdate (rmError : option string) (h : nat) (update : WA.ConnectionUpdate)
| MessagesUpsert (h : nat) (m : WA.MessagesUpsert)
| CredsUpdate (h : nat) (c : Creds)
| TimerFires (o : Creation)
| RemovalResumes (n : nat).

Definition step (now : Z) (e : Event) (st : State) : State :=
  match e with
  | GetOrCreate o mcpSessionId eventCallbacks options =>
      fst (getOrCreateBaileysSession now o mcpSessionId eventCallbacks options st)
  | GetSocket mcpSessionId => fst (getBaileysSocket now mcpSessionId st)
  | Remove rmError mcpSessionId deleteAuthState =>
      fst (removeBaileysSession rmError mcpSessionId deleteAuthState st)
  | Cleanup maxIdleTimeMs => fst (cleanupInactiveBaileysSessions now maxIdleTimeMs st)
  | ConnectionUpdate rmError h update => on_connection_update now rmError h update st
  | MessagesUpsert h m => on_messages_upsert h m st
  | CredsUpdate h c => on_creds_update h c st
  | TimerFires o => fire_timer now o st
  | RemovalResumes n => resume_removal n st
  end.

(** The states of a run: each event comes with the clock reading. *)
Definition run (events : list (Z * Event)) (st : State) : State :=
  foldl (fun acc e => step (fst e) (snd e) acc) st events.

(** The credential directory of a tenant. *)
Definition dir_of (mcpSessionId : string) : string :=
  path_join AUTH_STATE_BASE_DIR ("session_" +:+ mcpSessionId).

(** What holds of every state of a run: allocations are below [next], wrap
    their own socket, keep their credentials in the directory of their tenant
    and have a retry count between 0 and [MAX_RETRIES]; the map holds
    allocated sessions of the right tenant, each key once. *)
Record wf (st : State) : Prop := {
  wf_alloc : forall ref c,
    objs st !! ref = Some c ->
    (ref < next st)%nat
    /\ socket (session c) = ref
    /\ stateDir (session c) = dir_of (mcpSessionId (session c))
    /\ 0 <= retryCount (session c) <= MAX_RETRIES;
  wf_map : forall id ref,
    JsMap.get id (baileysSessions st) = Some ref ->
    exists c, objs st !! ref = Some c /\ mcpSessionId (session c) = id;
  wf_keys : NoDup (map fst (baileysSessions st))
}.

(** A step in which no retry count goes up: every session object afterwards
    is new or reset (count 0) or has the count it had. *)
Definition quiet (st st' : State) : Prop :=
  forall ref c',
    objs st' !! ref = Some c' ->
    retryCount (session c') = 0
    \/ exists c, objs st !! ref = Some c
                 /\ retryCount (session c') = retryCount (session c).

(** The classification of an event as a close that asks for a restart. *)
Definition restart_close (e : Event) : bool :=
  match e with
  | ConnectionUpdate _ _ update =>
      match WA.connection update with
      | Some conn =>
          String.eqb conn "close"
          && negb (isLoggedOut (WA.lastDisconnect update))
          && isRestartRequired (WA.lastDisconnect update)
      | None => false
      end
  | _ => false
  end.

End Manager.
End BaileysSessionManager.

(** ** media/media-handler.ts *)

Module MediaHandler.

(** What the awaited calls of one download do. *)
Inductive Download : Type :=
| Downloaded (buffer : list Z)
| NotABuffer
| DownloadFails (m : string).

Record MediaIO : Type := {
  tmpdir : string;
  uuid : string;
  download : Download;
  writeFileError : option string
}.

Record ProcessedMediaInfo : Type := {
  type : json;
  mimeType : json;
  data : option (list Z);
  filePath : option string;
  fileName : json;
  caption : json;
  error : option string
}.

Definition TEMP_MEDIA_DIR (io : MediaIO) : string :=
  tmpdir io +:+ "/" +:+ "mcp_baileys_media".

(** [a || b]. *)
Definition or_else (a b : json) : json := if truthy a then a else b.

(** [message.message?.k]. *)
Definition sub (k : string) (message : WA.WAMessage) : json :=
  prop k (WA.message message).

(** The media kind and the fields read from its sub-message: [messageType],
    [mediaKey], [url], [caption], [originalFileName]. *)
Definition media_fields (io : MediaIO) (message : WA.WAMessage)
  : option (string * json * json * json * json) :=
  let generated ext := JStr (uuid io +:+ ext) in
  if truthy (sub "imageMessage" message) then
    let m := sub "imageMessage" message in
    Some ("image", prop "mediaKey" m, prop "url" m, prop "caption" m,
          or_else (prop "fileName" m) (generated ".jpg"))
  else if truthy (sub "videoMessage" message) then
    let m := sub "videoMessage" message in
    Some ("video", prop "mediaKey" m, prop "url" m, prop "caption" m,
          or_else (prop "fileName" m) (generated ".mp4"))
  else if truthy (sub "audioMessage" message) then
    let m := sub "audioMessage" message in
    Some ("audio", prop "mediaKey" m, prop "url" m, JUndefined, generated ".ogg")
  else if truthy (sub "documentMessage" message) then
    let m := sub "documentMessage" message in
    Some ("document", prop "mediaKey" m, prop "url" m, prop "caption" m,
          or_else (prop "fileName" m) (generated ".bin"))
  else if truthy (sub "stickerMessage" message) then
    let m := sub "stickerMessage" message in
    Some ("sticker", prop "mediaKey" m, prop "url" m, JUndefined, generated ".webp")
  else None.

(** The body of the [try] block: download, then store or keep the buffer.
    [path.join] is taken on a file name that needs no normalisation; on a
    name that is not a string it throws. *)
Definition fetch_and_store (io : MediaIO) (storeTemporarily : bool)
    (messageType : string) (mimeType caption originalFileName : json)
  : completion ProcessedMediaInfo :=
  match download io with
  | DownloadFails m => Throw (Error m)
  | NotABuffer => Throw (Error "Downloaded media is not a Buffer as expected.")
  | Downloaded buffer =>
      if storeTemporarily then
        match originalFileName with
        | JStr name =>
            let tempFilePath := TEMP_MEDIA_DIR io +:+ "/" +:+ name in
            match writeFileError io with
            | Some m => Throw (Error m)
            | None =>
                Normal {| type := JStr messageType; mimeType := mimeType;
                          data := None; filePath := Some tempFilePath;
                          fileName := originalFileName; caption := caption;
                          error := None |}
            end
        | _ =>
            Throw (Error ("The " +:+ dquote +:+ "path" +:+ dquote
                          +:+ " argument must be of type string."))
        end
      else
        Normal {| type := JStr messageType; mimeType := mimeType;
                  data := Some buffer; filePath := None;
                  fileName := originalFileName; caption := caption;
                  error := None |}
  end.

Definition downloadAndProcessMedia (io : MediaIO) (message : WA.WAMessage)
    (storeTemporarily : bool) : option ProcessedMediaInfo :=
  match media_fields io message with
  | None => None
  | Some (messageType, mediaKey, url, caption, originalFileName) =>
      if negb (truthy mediaKey) || negb (truthy url) then
        Some {| type := or_else (JStr messageType) (JStr "unknown");
                mimeType := JStr EmptyString; data := None; filePath := None;
                fileName := JUndefined; caption := JUndefined;
                error := Some "Media key or URL missing from Baileys message." |}
      else
        let mimeType :=
          or_else (prop "mimetype" (sub (messageType +:+ "Message") message))
                  (JStr EmptyString) in
        match fetch_and_store io storeTemporarily messageType mimeType caption
                originalFileName with
        | Normal info => Some info
        | Throw e =>
            Some {| type := JStr messageType; mimeType := mimeType;
                    data := None; filePath := None;
                    fileName := originalFileName; caption := JUndefined;
                    error := Some ("Failed to download/process media: "
                                   +:+ err_message e) |}
        end
  end.

End MediaHandler.

(** ** The Baileys-to-MCP adapter *)

Module Adapter.
Import McpSessionManager.

Definition json_of_timestamp (t : option WA.Timestamp) : json :=
  match t with
  | None => JUndefined
  | Some (WA.TsNumber n) => JNum n
  | Some (WA.TsLong l) =>
      JObj [("low", JNum (WA.low l)); ("high", JNum (WA.high l));
            ("unsigned", JBool (WA.unsigned l))]
  end.

(** The raw message as it is put under [baileysMessage]. *)
Definition json_of_message (message : WA.WAMessage) : json :=
  JObj [("key", JObj [("id", WA.id (WA.key message));
                      ("remoteJid", WA.remoteJid (WA.key message));
                      ("participant", WA.participant (WA.key message));
                      ("fromMe", WA.fromMe (WA.key message))]);
        ("message", WA.message message);
        ("messageTimestamp", json_of_timestamp (WA.messageTimestamp message))].

(** [message.messageTimestamp ? (number or Long.toNumber()) : now in seconds]. *)
Definition timestamp (now : Z) (message : WA.WAMessage) : Z :=
  match WA.messageTimestamp message with
  | Some (WA.TsNumber n) => if Z.eqb n 0 then now / 1000 else n
  | Some (WA.TsLong l) => WA.toNumber l
  | None => now / 1000
  end.

(** [Object.keys]. *)
Definition index_keys (n : nat) : list string :=
  map (fun i : nat => pretty (Z.of_nat i)) (seq 0 n).

Definition keys (j : json) : list string :=
  match j with
  | JObj fields => map fst fields
  | JArr items => index_keys (length items)
  | JStr s => index_keys (String.length s)
  | _ => []
  end.

(** [Array.prototype.join(', ')] on strings. *)
Fixpoint join_comma_space (l : list string) : string :=
  match l with
  | [] => EmptyString
  | [x] => x
  | x :: rest => x +:+ ", " +:+ join_comma_space rest
  end.

(** [contacts?.map(c => ({displayName: c.displayName, vcard: c.vcard}))]. *)
Fixpoint map_contacts (items : list json) : completion (list json) :=
  match items with
  | [] => Normal []
  | c :: rest =>
      match c with
      | JUndefined | JNull =>
          Throw (Error "TypeError: Cannot read properties of undefined")
      | _ =>
          match map_contacts rest with
          | Normal l =>
              Normal (JObj [("displayName", prop "displayName" c);
                            ("vcard", prop "vcard" c)] :: l)
          | Throw e => Throw e
          end
      end
  end.

Definition contacts_of (contactsArrayMessage : json) : completion json :=
  match prop "contacts" contactsArrayMessage with
  | JUndefined | JNull => Normal JUndefined
  | JArr items =>
      match map_contacts items with
      | Normal l => Normal (JArr l)
      | Throw e => Throw e
      end
  | _ => Throw (Error "TypeError: contacts.map is not a function")
  end.

Definition is_media (message : WA.WAMessage) : bool :=
  truthy (MediaHandler.sub "imageMessage" message)
  || truthy (MediaHandler.sub "videoMessage" message)
  || truthy (MediaHandler.sub "audioMessage" message)
  || truthy (MediaHandler.sub "documentMessage" message)
  || truthy (MediaHandler.sub "stickerMessage" message).

(** The fields of [mcpMessagePayload] when it is handed to the broadcaster. *)
Definition payload_fields (now : Z) (io : MediaHandler.MediaIO)
    (message : WA.WAMessage) : completion (list (string * json)) :=
  let sub k := MediaHandler.sub k message in
  let p0 : list (string * json) :=
    [("id", WA.id (WA.key message));
     ("from", WA.remoteJid (WA.key message));
     ("participant", WA.participant (WA.key message));
     ("timestamp", JNum (timestamp now message));
     ("type", JStr "text");
     ("baileysMessage", json_of_message message)] in
  if truthy (sub "conversation") then
    Normal (obj_set "text" (sub "conversation") (obj_set "type" (JStr "text") p0))
  else if truthy (sub "extendedTextMessage") then
    Normal (obj_set "text" (prop "text" (sub "extendedTextMessage"))
              (obj_set "type" (JStr "text") p0))
  else if is_media message then
    let p1 := obj_set "type" (JStr "media") p0 in
    match MediaHandler.downloadAndProcessMedia io message true with
    | Some mediaInfo =>
        let media :=
          JObj [("type", MediaHandler.type mediaInfo);
                ("mimeType", MediaHandler.mimeType mediaInfo);
                ("caption", MediaHandler.caption mediaInfo);
                ("fileName", MediaHandler.fileName mediaInfo);
                ("_serverFilePath", opt_str (MediaHandler.filePath mediaInfo));
                ("error", opt_str (MediaHandler.error mediaInfo))] in
        let p2 := obj_set "media" media p1 in
        let p3 :=
          obj_set "type"
            (MediaHandler.or_else (MediaHandler.type mediaInfo) (JStr "media")) p2 in
        if truthy (MediaHandler.caption mediaInfo) && negb (truthy (obj_get "text" p3))
        then Normal (obj_set "text" (MediaHandler.caption mediaInfo) p3)
        else Normal p3
    | None =>
        Normal (obj_set "media" (JObj [("error", JStr "Failed to process media.")]) p1)
    end
  else if truthy (sub "reactionMessage") then
    Normal (obj_set "reaction"
              (JObj [("text", prop "text" (sub "reactionMessage"));
                     ("targetMessageId",
                      prop "id" (prop "key" (sub "reactionMessage")))])
              (obj_set "type" (JStr "reaction") p0))
  else if truthy (sub "locationMessage") then
    let m := sub "locationMessage" in
    Normal (obj_set "location"
              (JObj [("degreesLatitude", prop "degreesLatitude" m);
                     ("degreesLongitude", prop "degreesLongitude" m);
                     ("name", prop "name" m);
                     ("address", prop "address" m)])
              (obj_set "type" (JStr "location") p0))
  else if truthy (sub "contactMessage") then
    let m := sub "contactMessage" in
    Normal (obj_set "contact"
              (JObj [("displayName", prop "displayName" m);
                     ("vcard", prop "vcard" m)])
              (obj_set "type" (JStr "contact") p0))
  else if truthy (sub "contactsArrayMessage") then
    match contacts_of (sub "contactsArrayMessage") with
    | Normal contacts =>
        Normal (obj_set "contacts" contacts
                  (obj_set "type" (JStr "contacts_array") p0))
    | Throw e => Throw e
    end
  else
    let messageKeys :=
      if truthy (WA.message message)
      then join_comma_space (keys (WA.message message)) else "null" in
    Normal (obj_set "text"
              (JStr ("Received an unhandled message type. Content keys: "
                     +:+ messageKeys))
              (obj_set "type" (JStr "unknown") p0)).

Definition handleNewBaileysMessage (now : Z) (io : MediaHandler.MediaIO)
    (mcpSessionId : string) (message : WA.WAMessage) (w : World)
  : World * completion unit :=
  match payload_fields now io message with
  | Throw e => (w, Throw e)
  | Normal mcpMessagePayload =>
      match McpEventEmitter.sendEventToClient now mcpSessionId
              "baileys_new_message" (JObj mcpMessagePayload) w with
      | (w', Normal _) => (w', Normal tt)
      | (w', Throw e) => (w', Throw e)
      end
  end.

(** The tags of the envelope (those of [McpBaileysMessagePayload.type] in
    the project's type definitions), and the first populated sub-field that
    selects each. *)
Inductive Tag : Type :=
| text | image | video | audio | document | sticker
| reaction | location | contact | contacts_array | unknown.

Definition tag_name (t : Tag) : string :=
  match t with
  | text => "text" | image => "image" | video => "video" | audio => "audio"
  | document => "document" | sticker => "sticker" | reaction => "reaction"
  | location => "location" | contact => "contact"
  | contacts_array => "contacts_array" | unknown => "unknown"
  end.

Definition populated (k : string) (message : WA.WAMessage) : bool :=
  truthy (prop k (WA.message message)).

Definition classify (message : WA.WAMessage) : Tag :=
  if populated "conversation" message then text
  else if populated "extendedTextMessage" message then text
  else if populated "imageMessage" message then image
  else if populated "videoMessage" message then video
  else if populated "audioMessage" message then audio
  else if populated "documentMessage" message then document
  else if populated "stickerMessage" message then sticker
  else if populated "reactionMessage" message then reaction
  else if populated "locationMessage" message then location
  else if populated "contactMessage" message then contact
  else if populated "contactsArrayMessage" message then contacts_array
  else unknown.

(** How many properties of an object are named [k]. *)
Definition count_key (k : string) (fields : list (string * json)) : nat :=
  length (List.filter (fun kv => String.eqb k (fst kv)) fields).

End Adapter.

(** ** core/baileys.ts and mcp/mcp-message-handler.ts: client actions *)

Module McpMessageHandler.
Import McpSessionManager.

(** The two module states an action works on. *)
Record Sys : Type := {
  world : World;
  manager : BaileysSessionManager.State
}.

(** What the awaited calls of one action do: [socket.sendMessage] resolves
    with a message (or [undefined]) or rejects; [fetch] and [readFile] give
    bytes or fail; [Buffer.from(_, 'base64')] decodes. *)
Record ActionIO : Type := {
  sendMessage : completion json;
  fetch_ok : bool;
  fetch_statusText : string;
  fetch_body : completion (list Z);
  readFile : completion (list Z);
  base64 : string -> list Z
}.

(** [String(v)] / template interpolation of a value. *)
Fixpoint to_string (j : json) : string :=
  match j with
  | JUndefined => "undefined"
  | JNull => "null"
  | JBool b => if b then "true" else "false"
  | JNum n => pretty n
  | JStr s => s
  | JArr items =>
      let fix go (l : list json) : list string :=
        match l with
        | [] => []
        | x :: rest =>
            match x with
            | JUndefined | JNull => EmptyString
            | _ => to_string x
            end :: go rest
        end in
      join_comma (go items)
  | JObj _ => "[object Object]"
  end.

Definition emit (now : Z) (sessionId eventType : string) (data : json)
    (s : Sys) : Sys :=
  {| world := fst (McpEventEmitter.sendEventToClient now sessionId eventType data
                     (world s));
     manager := manager s |}.

(** [recipientJid.includes('@')] on whatever the payload holds. *)
Definition jid_includes_at (recipientJid : json) : completion bool :=
  match recipientJid with
  | JStr s => Normal (includes "@" s)
  | JArr items =>
      Normal (existsb (fun x => match x with
                                | JStr s => String.eqb s "@"
                                | _ => false
                                end) items)
  | _ => Throw (Error "TypeError: recipientJid.includes is not a function")
  end.

(** [v.key.id], which throws when [v.key] is [null] or [undefined]. *)
Definition key_id (v : json) : completion json :=
  if nullish (prop "key" v)
  then Throw (Error "TypeError: Cannot read properties of undefined (reading 'id')")
  else Normal (prop "id" (prop "key" v)).

(** [BaileysCore.sendTextMessage]: the sent message, or [undefined]. *)
Definition sendTextMessage (now : Z) (io : ActionIO) (mcpSessionId : string)
    (recipientJid : json) (text : string) (s : Sys) : Sys * json :=
  let '(m1, socket) :=
    BaileysSessionManager.getBaileysSocket now mcpSessionId (manager s) in
  let s1 := {| world := world s; manager := m1 |} in
  match socket with
  | None =>
      (emit now mcpSessionId "baileys_error"
         (JObj [("message",
                 JStr "Cannot send message: Baileys session not active or not found.");
                ("details",
                 JStr ("Attempted to send to " +:+ to_string recipientJid))]) s1,
       JUndefined)
  | Some _ =>
      let failed (e : JsError) :=
        (emit now mcpSessionId "baileys_error"
           (JObj [("message",
                   JStr ("Failed to send text message to "
                         +:+ to_string recipientJid +:+ ": " +:+ err_message e))])
           s1, JUndefined) in
      match jid_includes_at recipientJid with
      | Throw e => failed e
      | Normal false =>
          (emit now mcpSessionId "baileys_error"
             (JObj [("message",
                     JStr ("Invalid recipient JID format: "
                           +:+ to_string recipientJid))]) s1,
           JUndefined)
      | Normal true =>
          match sendMessage io with
          | Throw e => failed e
          | Normal sentMessage =>
              (* the log line reads sentMessage?.key.id *)
              if nullish sentMessage then (s1, sentMessage)
              else match key_id sentMessage with
                   | Throw e => failed e
                   | Normal _ => (s1, sentMessage)
                   end
          end
      end
  end.

(** [String.prototype.split] on a non-empty separator: [skip] counts the
    characters of a matched separator still to pass over. *)
Fixpoint split_go (sep : string) (skip : nat) (acc s : string) : list string :=
  match s with
  | EmptyString => [acc]
  | String c rest =>
      match skip with
      | S k => split_go sep k acc rest
      | O =>
          if String.prefix sep s
          then acc :: split_go sep (String.length sep - 1) EmptyString rest
          else split_go sep 0 (acc +:+ String c EmptyString) rest
      end
  end.

Definition split (sep s : string) : list string := split_go sep 0 EmptyString s.

(** The source of the media to send, after the checks of the handler. *)
Inductive MediaSource : Type :=
| SrcString (s : string)
| SrcBuffer (b : list Z).

Definition json_of_buffer (b : list Z) : json :=
  JObj [("type", JStr "Buffer"); ("data", JArr (map JNum b))].

(** [path.basename] of a path with [/] separators. *)
Fixpoint basename_go (acc s : string) : string :=
  match s with
  | EmptyString => acc
  | String c rest =>
      if Ascii.eqb c "/"%char then basename_go EmptyString rest
      else basename_go (acc +:+ String c EmptyString) rest
  end.

(** [MediaHandler.prepareMediaForSending]. *)
Definition prepareMediaForSending (io : ActionIO) (mediaSource : MediaSource)
    (messageType : string) (caption originalFileName mimetype : json)
  : completion json :=
  let loaded : completion (list Z * json) :=
    match mediaSource with
    | SrcString src =>
        if startsWith "http://" src || startsWith "https://" src then
          if fetch_ok io then
            match fetch_body io with
            | Normal b => Normal (b, originalFileName)
            | Throw e => Throw e
            end
          else Throw (Error ("Failed to fetch media from URL " +:+ src +:+ ": "
                             +:+ fetch_statusText io))
        else
          match readFile io with
          | Normal b =>
              Normal (b, if truthy originalFileName then originalFileName
                         else JStr (basename_go EmptyString src))
          | Throw e => Throw e
          end
    | SrcBuffer b => Normal (b, originalFileName)
    end in
  match loaded with
  | Throw e => Throw e
  | Normal (mediaBuffer, originalFileName) =>
      let content := [("caption", caption)] in
      let buf := json_of_buffer mediaBuffer in
      if String.eqb messageType "image" then
        let c := obj_set "image" buf content in
        Normal (JObj (if truthy mimetype then obj_set "mimetype" mimetype c else c))
      else if String.eqb messageType "video" then
        let c := obj_set "video" buf content in
        Normal (JObj (if truthy mimetype then obj_set "mimetype" mimetype c else c))
      else if String.eqb messageType "audio" then
        Normal (JObj (obj_set "mimetype"
                        (MediaHandler.or_else mimetype (JStr "audio/mp4"))
                        (obj_set "audio" buf content)))
      else if String.eqb messageType "document" then
        Normal (JObj (obj_set "fileName"
                        (MediaHandler.or_else originalFileName (JStr "file.bin"))
                        (obj_set "mimetype"
                           (MediaHandler.or_else mimetype
                              (JStr "application/octet-stream"))
                           (obj_set "document" buf content))))
      else if String.eqb messageType "sticker" then
        Normal (JObj (obj_set "sticker" buf content))
      else Throw (Error ("Unsupported media type for sending: " +:+ messageType))
  end.

Record McpClientAction : Type := {
  actionType : string;
  payload : json;
  requestId : json
}.

(** [sendResponse]: the reply carries the action type and the request id. *)
Definition sendResponse (now : Z) (mcpSessionId : string) (action : McpClientAction)
    (eventType : string) (data : json) (s : Sys) : Sys :=
  let responsePayload :=
    obj_set "_requestId" (requestId action)
      (obj_set "_originalActionType" (JStr (actionType action)) (spread data)) in
  emit now mcpSessionId eventType (JObj responsePayload) s.

Definition success_data (text : string) (baileysMessageId recipientJid : json)
  : json :=
  JObj [("message", JStr text);
        ("baileysMessageId", baileysMessageId);
        ("details", JObj [("recipientJid", recipientJid)])].

(** The [try] block of [handleMcpClientAction]. *)
Definition try_action (now : Z) (io : ActionIO) (mcpSessionId : string)
    (action : McpClientAction) (s : Sys) : Sys * completion unit :=
  let recipientJid := prop "recipientJid" (payload action) in
  if String.eqb (actionType action) "SEND_TEXT_MESSAGE" then
    match prop "text" (payload action) with
    | JStr text =>
        if negb (truthy recipientJid) then
          (s, Throw (Error
             "Invalid payload for SEND_TEXT_MESSAGE. Requires recipientJid and text."))
        else
          let '(s1, sentMsg) :=
            sendTextMessage now io mcpSessionId recipientJid text s in
          if truthy sentMsg then
            match key_id sentMsg with
            | Normal mid =>
                (sendResponse now mcpSessionId action "mcp_action_success"
                   (success_data "Text message sent successfully via Baileys."
                      mid recipientJid) s1, Normal tt)
            | Throw e => (s1, Throw e)
            end
          else
            (s1, Throw (Error
               "BaileysCore.sendTextMessage returned undefined. Sending failed."))
    | _ =>
        (s, Throw (Error
           "Invalid payload for SEND_TEXT_MESSAGE. Requires recipientJid and text."))
    end
  else if String.eqb (actionType action) "SEND_IMAGE_MESSAGE" then
    let mediaSource := prop "mediaSource" (payload action) in
    if negb (truthy recipientJid) || negb (truthy mediaSource) then
      (s, Throw (Error
         "Invalid payload for SEND_IMAGE_MESSAGE. Requires recipientJid and mediaSource."))
    else
      let source : completion MediaSource :=
        match mediaSource with
        | JStr src =>
            if startsWith "data:" src then
              match split ";base64," src with
              | [_; encoded] => Normal (SrcBuffer (base64 io encoded))
              | _ => Throw (Error "Invalid base64 data URI for mediaSource.")
              end
            else Normal (SrcString src)
        | _ =>
            Throw (Error
              "Unsupported mediaSource format. Must be URL, local path (server-side), or base64 data URI string.")
        end in
      match source with
      | Throw e => (s, Throw e)
      | Normal mediaBufferSource =>
          match prepareMediaForSending io mediaBufferSource "image"
                  (prop "caption" (payload action))
                  (prop "fileName" (payload action))
                  (prop "mimeType" (payload action)) with
          | Throw e => (s, Throw e)
          | Normal baileysMediaContent =>
              let '(m1, socket) :=
                BaileysSessionManager.getBaileysSocket now mcpSessionId (manager s) in
              let s1 := {| world := world s; manager := m1 |} in
              match socket with
              | None => (s1, Throw (Error "Baileys session not found or not active."))
              | Some _ =>
                  match sendMessage io with
                  | Throw e => (s1, Throw e)
                  | Normal sentImageMsg =>
                      if truthy sentImageMsg then
                        match key_id sentImageMsg with
                        | Normal mid =>
                            (sendResponse now mcpSessionId action "mcp_action_success"
                               (success_data
                                  "Image message sent successfully via Baileys."
                                  mid recipientJid) s1, Normal tt)
                        | Throw e => (s1, Throw e)
                        end
                      else
                        (s1, Throw (Error
                           "socket.sendMessage for image returned undefined. Sending failed."))
                  end
              end
          end
      end
  else
    (s, Throw (Error ("Unknown or unsupported actionType: " +:+ actionType action))).

Definition handleMcpClientAction (now : Z) (io : ActionIO) (mcpSessionId : string)
    (action : McpClientAction) (s : Sys) : Sys * completion unit :=
  match try_action now io mcpSessionId action s with
  | (s1, Normal _) => (s1, Normal tt)
  | (s1, Throw error) =>
      (sendResponse now mcpSessionId action "mcp_action_error"
         (JObj [("message",
                 JStr ("Error processing action '" +:+ actionType action +:+ "': "
                       +:+ err_message error));
                ("details",
                 MediaHandler.or_else (err_details error) (JObj []))]) s1,
       Normal tt)
  end.

(** The world after a run of calls of [sendEventToClient] for one client. *)
Definition emits (now : Z) (sessionId : string) (events : list (string * json))
    (w : World) : World :=
  foldl (fun acc e => fst (McpEventEmitter.sendEventToClient now sessionId
                             (fst e) (snd e) acc)) w events.

Definition baileys_error (data : json) : string * json := ("baileys_error", data).

End McpMessageHandler.

(** ** mcp/mcp-session-manager.ts: creating and removing push sessions

    [connection.end()] is recorded in [ended], session id by session id in
    call order; the [closed] flag of a stream is raised by the transport
    later, not by [end()] itself.  Console output of the registry is left
    out. *)

Module McpSessionRegistry.
Import McpSessionManager.

Record Registry : Type := {
  world : World;
  ended : list string
}.

Definition set_world (w : World) (r : Registry) : Registry :=
  {| world := w; ended := ended r |}.

Definition end_ (sessionId : string) (r : Registry) : Registry :=
  {| world := world r; ended := ended r ++ [sessionId] |}.

(** [createSession]: [uuid] is what [uuidv4()] returns. *)
Definition createSession (now : Z) (uuid : string) (connection : ServerResponse)
    (r : Registry) : Registry * string :=
  let sessionId := uuid in
  let newSession :=
    {| id := sessionId; connection := connection; lastSeen := now |} in
  (set_world (set_sessions (<[sessionId := newSession]> (sessions (world r)))
                (world r)) r,
   sessionId).

Definition removeSession (sessionId : string) (r : Registry) : Registry :=
  match sessions (world r) !! sessionId with
  | Some session =>
      let r1 := if negb (closed (connection session)) then end_ sessionId r else r in
      set_world (set_sessions (delete sessionId (sessions (world r1))) (world r1)) r1
  | None => r
  end.

(** [cleanupStaleSessions].  [order] is the order in which [sessions.forEach]
    visits the keys (the insertion order of the [Map], which [sessions] as a
    finite map does not keep); an entry removed before its turn is not
    visited. *)
Definition cleanupStaleSessions (now maxIdleTimeMs : Z) (order : list string)
    (r : Registry) : Registry :=
  foldl (fun acc sessionId =>
           match sessions (world acc) !! sessionId with
           | Some session =>
               if now - lastSeen session >? maxIdleTimeMs
               then removeSession sessionId acc else acc
           | None => acc
           end) r order.

(** Whether the entry of [sessionId] has been idle for longer than the
    threshold at [now]. *)
Definition stale (now maxIdleTimeMs : Z) (w : World) (sessionId : string) : bool :=
  match sessions w !! sessionId with
  | Some session => now - lastSeen session >? maxIdleTimeMs
  | None => false
  end.

(** Whether [sessionId] is registered with a stream that is not closed. *)
Definition streaming (w : World) (sessionId : string) : bool :=
  match sessions w !! sessionId with
  | Some session => negb (closed (connection session))
  | None => false
  end.

End McpSessionRegistry.

(** ** mcp/http-stream-server.ts: the [GET /events] route

    The branch of the request handler taken for a [GET] whose path starts
    with [/events]: [pathname] is [requestUrl.pathname], [res] the response
    of the request, [uuid] the id [createSession] draws, [now] the clock
    while the handler runs.  The response is held by the new registry entry,
    so what is written to it shows there; its status line and headers are not
    part of [ServerResponse].  The heartbeat timer and the [close]/[error]
    listeners the route installs are separate steps, not part of this one. *)

Module HttpStreamServer.
Import McpSessionManager McpSessionRegistry.

Definition session_established (sessionId : string) : string :=
  "event: session_established" +:+ newline +:+ "data: "
  +:+ stringify_text (JObj [("sessionId", JStr sessionId)]) +:+ newline +:+ newline.

Definition on_get_events (now : Z) (uuid pathname : string) (res : ServerResponse)
    (r : Registry) : Registry * completion unit :=
  let pathParts := McpMessageHandler.split "/" pathname in
  let r1 :=
    (* pathParts.length > 2 && pathParts[2] *)
    match pathParts !! 2%nat with
    | Some sessionId =>
        if truthy_str sessionId then
          let '(w1, existingSession) := getSession now sessionId (world r) in
          let r2 := set_world w1 r in
          match existingSession with
          | Some existingSession =>
              let r3 :=
                if negb (closed (connection existingSession))
                then end_ sessionId r2 else r2 in
              removeSession sessionId r3
          | None => r2
          end
        else r
    | None => r
    end in
  let '(r2, sessionId) := createSession now uuid res r1 in
  match write res (session_established sessionId) with
  | Normal res' =>
      (set_world
         (set_sessions (alter (set_connection res') sessionId (sessions (world r2)))
            (world r2)) r2,
       Normal tt)
  | Throw e => (r2, Throw e)
  end.

(** The session id a path asks for: its third part, when there is one and
    it is not empty. *)
Definition requested (pathname : string) : option string :=
  match McpMessageHandler.split "/" pathname !! 2%nat with
  | Some sessionId => if truthy_str sessionId then Some sessionId else None
  | None => None
  end.

(** The response after the first frame has been written to it. *)
Definition greeted (sessionId : string) (res : ServerResponse) : ServerResponse :=
  {| closed := closed res; destroyed := destroyed res;
     writeError := writeError res;
     written := written res ++ [session_established sessionId] |}.

End HttpStreamServer.

(** ** core/baileys.ts: initialising and disconnecting a tenant

    Every call of [initializeBaileysForMcpSession] builds a new set of four
    callbacks closed over its [mcpSessionId]; [owners] lists these ids, the
    position of an id being the number under which the manager knows the
    callbacks.  A callback logs and calls [sendEventToClient], which does not
    touch the manager: so a step of the manager is run first, and the
    callbacks it has invoked (the new entries of [calls]) are then run, in
    order, on the world.  Console output of this module is left out. *)

Module BaileysCore.
Import McpSessionManager BaileysSessionManager.

Record Core : Type := {
  world : World;
  manager : State;
  owners : list string
}.

(** [reason === DisconnectReason.loggedOut]. *)
Definition is_loggedOut (loggedOut : Z) (reason : json) : bool :=
  match reason with
  | JNum n => Z.eqb n loggedOut
  | _ => false
  end.

(** The event a callback sends; none for callbacks that are not this
    module's. *)
Definition relayed (loggedOut : Z) (owners : list string) (c : Callback)
  : option (string * string * json) :=
  match c with
  | onQR cb qr =>
      match owners !! cb with
      | Some mcpSessionId =>
          Some (mcpSessionId, "baileys_qr_update", JObj [("qr", JStr qr)])
      | None => None
      end
  | onConnected cb =>
      match owners !! cb with
      | Some mcpSessionId =>
          Some (mcpSessionId, "baileys_connected",
                JObj [("message", JStr "Baileys connection established.")])
      | None => None
      end
  | onDisconnected cb reason currentMcpSessionId =>
      match owners !! cb with
      | Some _ =>
          Some (currentMcpSessionId, "baileys_disconnected",
                JObj [("reason",
                       JStr (McpMessageHandler.to_string
                               (MediaHandler.or_else reason (JStr "Unknown"))));
                      ("loggedOut", JBool (is_loggedOut loggedOut reason))])
      | None => None
      end
  | onMessage cb message currentMcpSessionId =>
      match owners !! cb with
      | Some _ =>
          Some (currentMcpSessionId, "baileys_new_message",
                JObj [("message", Adapter.json_of_message message)])
      | None => None
      end
  end.

Definition run_callback (loggedOut now : Z) (owners : list string) (c : Callback)
    (w : World) : World :=
  match relayed loggedOut owners c with
  | Some (sessionId, eventType, data) =>
      fst (McpEventEmitter.sendEventToClient now sessionId eventType data w)
  | None => w
  end.

Definition dispatch (loggedOut now : Z) (owners : list string)
    (cs : list Callback) (w : World) : World :=
  foldl (fun acc c => run_callback loggedOut now owners c acc) w cs.

(** The callbacks invoked between two states of the manager. *)
Definition invoked (before after : State) : list Callback :=
  drop (length (calls before)) (calls after).

Section Core.
Variable cwd : string.
Variable loggedOut : Z.

(** An event of the manager (a library event on a socket, a timer), with the
    callbacks it invokes. *)
Definition manager_event (now : Z) (e : Event) (c : Core) : Core :=
  let m1 := step cwd loggedOut now e (manager c) in
  {| world := dispatch loggedOut now (owners c) (invoked (manager c) m1) (world c);
     manager := m1;
     owners := owners c |}.

Definition initializeBaileysForMcpSession (now : Z) (o : Creation)
    (mcpSessionId : string) (c : Core) : Core * completion unit :=
  let eventCallbacks := length (owners c) in
  let owners1 := owners c ++ [mcpSessionId] in
  let '(m1, result) :=
    getOrCreateBaileysSession cwd now o mcpSessionId eventCallbacks JUndefined
      (manager c) in
  let w1 := dispatch loggedOut now owners1 (invoked (manager c) m1) (world c) in
  match result with
  | Normal _ => ({| world := w1; manager := m1; owners := owners1 |}, Normal tt)
  | Throw error =>
      let errorMessage := err_message error in
      ({| world :=
            fst (McpEventEmitter.sendEventToClient now mcpSessionId "baileys_error"
                   (JObj [("message",
                           JStr ("Failed to initialize Baileys: " +:+ errorMessage));
                          ("isInitializationError", JBool true)]) w1);
          manager := m1; owners := owners1 |},
       Throw (Error ("Baileys initialization failed for MCP session "
                     +:+ mcpSessionId +:+ ": " +:+ errorMessage)))
  end.

End Core.

Definition disconnectBaileysForMcpSession (now : Z) (rmError : option string)
    (mcpSessionId : string) (deleteAuthState : bool) (c : Core) : Core :=
  let '(m1, result) :=
    removeBaileysSession rmError mcpSessionId deleteAuthState (manager c) in
  let send eventType data :=
    {| world := fst (McpEventEmitter.sendEventToClient now mcpSessionId eventType
                       data (world c));
       manager := m1; owners := owners c |} in
  match result with
  | Normal _ =>
      send "baileys_disconnected"
        (JObj [("reason", JStr "manual_logout");
               ("loggedOut", JBool deleteAuthState);
               ("message",
                JStr ("Baileys session for " +:+ mcpSessionId
                      +:+ " has been disconnected."))])
  | Throw error =>
      send "baileys_error"
        (JObj [("message",
                JStr ("Error disconnecting Baileys session " +:+ mcpSessionId
                      +:+ ": " +:+ err_message error))])
  end.

End BaileysCore.

(** ** index.ts: the session-init route and the shutdown handler *)

Module MainApp.
Import McpSessionManager BaileysSessionManager BaileysCore.

(** [POST /mcp/session/init]: [header] is [req.headers['x-session-id']];
    the result is the status code of the response. *)
Definition session_init (cwd : string) (loggedOut now : Z) (o : Creation)
    (header : option string) (c : Core) : Core * Z :=
  match header with
  | Some mcpSessionId =>
      if truthy_str mcpSessionId then
        let '(w1, mcpSession) := getSession now mcpSessionId (world c) in
        let c1 := {| world := w1; manager := manager c; owners := owners c |} in
        match mcpSession with
        | None => (c1, 404)
        | Some _ =>
            match initializeBaileysForMcpSession cwd loggedOut now o
                    mcpSessionId c1 with
            | (c2, Normal _) => (c2, 200)
            | (c2, Throw _) => (c2, 500)
            end
        end
      else (c, 400)
  | None => (c, 400)
  end.

(** The loop of the signal handler over [baileysSessions.keys()]: each
    tenant still in the map at its turn is disconnected, credentials kept;
    [clock] is the time at which the event of a tenant is sent. *)
Definition shutdown (clock : string -> Z) (c : Core) : Core :=
  foldl (fun acc mcpSessionId =>
           match JsMap.get mcpSessionId (baileysSessions (manager acc)) with
           | Some _ =>
               disconnectBaileysForMcpSession (clock mcpSessionId) None
                 mcpSessionId false acc
           | None => acc
           end) c (map fst (baileysSessions (manager c))).

(** Whether the socket of a tenant can be closed: [logout()] succeeds or,
    failing that, [end()] does. *)
Definition closes (st : State) (mcpSessionId : string) : bool :=
  match JsMap.get mcpSessionId (baileysSessions st) with
  | Some ref =>
      match objs st !! ref with
      | Some c =>
          match WA.logoutError (sock c), WA.endError (sock c) with
          | Some _, Some _ => false
          | _, _ => true
          end
      | None => false
      end
  | None => true
  end.

(** The addressee and the type of each event of a list. *)
Definition tags (events : list (string * string * json)) : list (string * string) :=
  map (fun e => (e.1.1, e.1.2)) events.

(** The event type a tenant's client is addressed on shutdown. *)
Definition farewell (st : State) (mcpSessionId : string) : string * string :=
  (mcpSessionId,
   if closes st mcpSessionId then "baileys_disconnected" else "baileys_error").

End MainApp.

(** ** Tenants of the protocol-session manager *)

Module Tenancy.
Import BaileysSessionManager.

(** Whether an event can be about tenant [id]: a call names its tenant, a
    socket event belongs to the tenant of the session object its handlers
    closed over, a timer to the tenant it was set for, a pending removal to
    the tenant it was started for; a sweep is about every tenant. *)
Definition about (e : Event) (st : State) (id : string) : bool :=
  match e with
  | GetOrCreate _ mcpSessionId _ _ | GetSocket mcpSessionId
  | Remove _ mcpSessionId _ => String.eqb id mcpSessionId
  | ConnectionUpdate _ h _ | MessagesUpsert h _ | CredsUpdate h _ =>
      match objs st !! h with
      | Some closure => String.eqb id (mcpSessionId (session closure))
      | None => false
      end
  | TimerFires _ =>
      match timers st with
      | t :: _ => String.eqb id (t_mcpSessionId t)
      | [] => false
      end
  | RemovalResumes n =>
      match removals st !! n with
      | Some r => String.eqb id (r_mcpSessionId r)
      | None => false
      end
  | Cleanup _ => true
  end.

(** The entry of tenant [id] and the session object [ref] are in [st'] as in
    [st]. *)
Definition untouched (id : string) (ref : nat) (st st' : State) : Prop :=
  JsMap.get id (baileysSessions st') = JsMap.get id (baileysSessions st)
  /\ objs st' !! ref = objs st !! ref.

End Tenancy.

(** ** Lines of an event stream *)

Module Framing.

(** Whether a string is free of line breaks (LF and CR end a line of an
    event stream). *)
Fixpoint no_break (s : string) : bool :=
  match s with
  | EmptyString => true
  | String c rest =>
      negb (Ascii.eqb c "010"%char) && negb (Ascii.eqb c "013"%char)
      && no_break rest
  end.

End Framing.

(** * Concrete runs *)

Module Scenarios.
Import BaileysSessionManager.

Definition cwd : string := "/app".
Definition loggedOut : Z := 401.

(** A socket that is still connecting and whose [logout] works. *)
Definition connecting : WA.BaileysSocket :=
  {| WA.ws := Some {| WA.readyState := Some 0; WA.OPEN := Some 1 |};
     WA.logoutError := None; WA.endError := None |}.

Definition created : Creation :=
  {| authError := None; socketError := None; newSocket := connecting |}.

Definition close_with (status : Z) : WA.ConnectionUpdate :=
  {| WA.connection := Some "close";
     WA.lastDisconnect :=
       Some {| WA.error :=
                 Some {| WA.boom_message := "Connection Failure";
                         WA.statusCode := Some status |};
               WA.reason := JUndefined |};
     WA.qr := None |}.

Definition restart_required : WA.ConnectionUpdate := close_with 515.

(** Tenant [t1] is initialised by a caller with callbacks [7]. *)
Definition t1_created : State :=
  fst (getOrCreateBaileysSession cwd 0 created "t1" 7%nat JUndefined initial).

Definition t1_cell : Cell :=
  {| session :=
       {| mcpSessionId := "t1"; socket := 0%nat;
          stateDir := "/app/.baileys_auth_state/session_t1";
          creationTime := 0; lastActivityTime := 0; qrCode := None;
          socketOptions := JUndefined; retryCount := 0 |};
     sock := connecting;
     eventCallbacks := 7%nat |}.

(** The socket the map holds for [t1] closes with "restart required". *)
Definition t1_closes (now : Z) (st : State) : State :=
  match JsMap.get "t1" (baileysSessions st) with
  | Some h => on_connection_update loggedOut now None h restart_required st
  | None => st
  end.

(** One retry round: the close above, then the 3 s timer fires and the
    re-creation succeeds. *)
Definition round (now : Z) (st : State) : State :=
  fire_timer cwd (now + RETRY_DELAY_MS) created (t1_closes now st).

Definition after_three_rounds : State :=
  round 30000 (round 20000 (round 10000 t1_created)).

Definition scheduled (st : State) : list LibCall :=
  List.filter (fun c => match c with setTimeout _ => true | _ => false end) (lib st).

Definition retryCount_of (id : string) (st : State) : option Z :=
  match JsMap.get id (baileysSessions st) with
  | Some ref => retryCount <$> (session <$> objs st !! ref)
  | None => None
  end.





(** Two QR codes are issued to [t1]; then the connection opens. *)
Definition t1_two_codes : State :=
  on_connection_update loggedOut 2000 None 0%nat (qr_issued "2@qr-two")
    (on_connection_update loggedOut 1000 None 0%nat (qr_issued "2@qr-one")
       t1_created).

Definition t1_opened : State :=
  on_connection_update loggedOut 4000 None 0%nat connection_open t1_two_codes.









(** Tenants [A] and [B], created at time 0; the socket of [A] can neither
    log out nor be ended. *)
Definition stubborn : WA.BaileysSocket :=
  {| WA.ws := None; WA.logoutError := Some "Connection Closed";
     WA.endError := Some "socket already destroyed" |}.

Definition two_tenants : State :=
  fst (getOrCreateBaileysSession cwd 0 created "B" 2%nat JUndefined
         (fst (getOrCreateBaileysSession cwd 0
                 {| authError := None; socketError := None; newSocket := stubborn |}
                 "A" 1%nat JUndefined initial))).

(** The sweep an hour later, with the default threshold of 30 minutes. *)
Definition swept : State * completion unit :=
  cleanupInactiveBaileysSessions 3600000 1800000 two_tenants.


(** Tenant [t2]: the web socket of its connection is already in its OPEN
    state while the device is still to be paired, and one code, then a
    second one, is issued; the connection never reports ['open']. *)
Definition handshaking : WA.BaileysSocket :=
  {| WA.ws := Some {| WA.readyState := Some 1; WA.OPEN := Some 1 |};
     WA.logoutError := None; WA.endError := None |}.

Definition t2_created : State :=
  fst (getOrCreateBaileysSession cwd 0
         {| authError := None; socketError := None; newSocket := handshaking |}
         "t2" 7%nat JUndefined initial).

Definition t2_one_code : State :=
  on_connection_update loggedOut 1000 None 0%nat (qr_issued "2@qr-one") t2_created.

Definition t2_two_codes : State :=
  on_connection_update loggedOut 2000 None 0%nat (qr_issued "2@qr-two") t2_one_code.

Definition t2_asked_again : State * completion nat :=
  getOrCreateBaileysSession cwd 1500 created "t2" 8%nat JUndefined t2_one_code.

Definition t2_late : State * completion nat :=
  getOrCreateBaileysSession cwd 3000 created "t2" 8%nat JUndefined t2_two_codes.

(** While the second code of [t1] is pending a second client asks for [t1],
    and after it a third one. *)
Definition t1_second_client : State * completion nat :=
  getOrCreateBaileysSession cwd 2500 created "t1" 8%nat JUndefined t1_two_codes.

Definition t1_third_client : State * completion nat :=
  getOrCreateBaileysSession cwd 3000 created "t1" 9%nat JUndefined
    (fst t1_second_client).

(** Tenants [A] and [B], created at time 0, and [C], created 50 minutes
    later; the [logout] of [A]'s socket fails, its [end] works.  The sweep
    runs after an hour with the default threshold. *)
Definition grumpy : WA.BaileysSocket :=
  {| WA.ws := None; WA.logoutError := Some "Connection Closed";
     WA.endError := None |}.

Definition three_tenants : State :=
  fst (getOrCreateBaileysSession cwd 3000000 created "C" 3%nat JUndefined
         (fst (getOrCreateBaileysSession cwd 0 created "B" 2%nat JUndefined
                 (fst (getOrCreateBaileysSession cwd 0
                         {| authError := None; socketError := None;
                            newSocket := grumpy |}
                         "A" 1%nat JUndefined initial))))).

Definition three_swept : State * completion unit :=
  cleanupInactiveBaileysSessions 3600000 1800000 three_tenants.

(** An image message arrives for client [c1], whose SSE stream is open. *)
Definition media_io : MediaHandler.MediaIO :=
  {| MediaHandler.tmpdir := "/tmp";
     MediaHandler.uuid := "0b7e9d4c-52a1-4c1e-9f0a-6d3c2b1a0f9e";
     MediaHandler.download := MediaHandler.Downloaded [255; 216; 255];
     MediaHandler.writeFileError := None |}.

Definition image_message : WA.WAMessage :=
  {| WA.key := {| WA.id := JStr "3EB0C5"; WA.remoteJid := JStr "491701@s.whatsapp.net";
                  WA.participant := JUndefined; WA.fromMe := JBool false |};
     WA.message :=
       JObj [("imageMessage",
              JObj [("url", JStr "https://mmg.whatsapp.net/d/f/a.enc");
                    ("mimetype", JStr "image/jpeg");
                    ("fileName", JStr "photo.jpg");
                    ("mediaKey", JArr [JNum 7; JNum 9])])];
     WA.messageTimestamp := Some (WA.TsNumber 1700000000) |}.

Definition open_stream : McpSessionManager.ServerResponse :=
  {| McpSessionManager.closed := false; McpSessionManager.destroyed := false;
     McpSessionManager.writeError := None; McpSessionManager.written := [] |}.

Definition one_client : McpSessionManager.World :=
  {| McpSessionManager.sessions :=
       {[ "c1" := {| McpSessionManager.id := "c1";
                     McpSessionManager.connection := open_stream;
                     McpSessionManager.lastSeen := 0 |} ]};
     McpSessionManager.console := [];
     McpSessionManager.emitted := [] |}.

Definition image_forwarded : McpSessionManager.World :=
  fst (Adapter.handleNewBaileysMessage 1700000001000 media_io "c1" image_message
         one_client).

(** The property the adapter's own comment keeps from the client, as it
    appears in a serialised payload. *)
Definition server_path_property : string :=
  dquote +:+ "_serverFilePath" +:+ dquote +:+ ":" +:+ dquote
  +:+ "/tmp/mcp_baileys_media/photo.jpg" +:+ dquote.

(** A client posts an action of an unknown type, with no SSE stream
    registered for its session id (index.ts lets such a request through). *)
Definition nobody : McpSessionManager.World :=
  {| McpSessionManager.sessions := ∅; McpSessionManager.console := [];
     McpSessionManager.emitted := [] |}.

Definition offline : McpMessageHandler.ActionIO :=
  {| McpMessageHandler.sendMessage := Throw (Error "Connection Closed");
     McpMessageHandler.fetch_ok := false;
     McpMessageHandler.fetch_statusText := "Not Found";
     McpMessageHandler.fetch_body := Throw (Error "fetch failed");
     McpMessageHandler.readFile := Throw (Error "ENOENT");
     McpMessageHandler.base64 := fun _ => [] |}.

Definition ping : McpMessageHandler.McpClientAction :=
  {| McpMessageHandler.actionType := "PING";
     McpMessageHandler.payload := JObj [];
     McpMessageHandler.requestId := JStr "r-1" |}.

Definition ping_handled : McpMessageHandler.Sys * completion unit :=
  McpMessageHandler.handleMcpClientAction 1000 offline "c1" ping
    {| McpMessageHandler.world := nobody;
       McpMessageHandler.manager := initial |}.

End Scenarios.

(** More runs, used to exercise the contracts below. *)

Module Runs.
Import BaileysSessionManager.

(** [t1] after one "restart required" close: retry count 1, one timer. *)
Definition t1_retrying : State := Scenarios.t1_closes 10000 Scenarios.t1_created.

Definition t1_retrying_cell : Cell :=
  map_session (fun s => set_retryCount 1 (set_lastActivityTime 10000 s))
    Scenarios.t1_cell.

(** A creation whose credential load fails. *)
Definition no_credentials : Creation :=
  {| authError := Some "EACCES: permission denied";
     socketError := None; newSocket := Scenarios.connecting |}.

(** A close that is neither a logout nor a restart request (428). *)
Definition connection_closed : WA.ConnectionUpdate := Scenarios.close_with 428.

(** Client [c1] has an open stream and a protocol session of its own; the
    library accepts the message it posts. *)
Definition c1_online : McpMessageHandler.Sys :=
  {| McpMessageHandler.world := Scenarios.one_client;
     McpMessageHandler.manager :=
       fst (getOrCreateBaileysSession Scenarios.cwd 0 Scenarios.created "c1" 7%nat
              JUndefined initial) |}.

Definition accepting : McpMessageHandler.ActionIO :=
  {| McpMessageHandler.sendMessage :=
       Normal (JObj [("key", JObj [("id", JStr "3EB0A1")])]);
     McpMessageHandler.fetch_ok := true;
     McpMessageHandler.fetch_statusText := "OK";
     McpMessageHandler.fetch_body := Normal [137; 80; 78; 71];
     McpMessageHandler.readFile := Normal [137; 80; 78; 71];
     McpMessageHandler.base64 := fun _ => [137; 80; 78; 71] |}.

Definition hello : McpMessageHandler.McpClientAction :=
  {| McpMessageHandler.actionType := "SEND_TEXT_MESSAGE";
     McpMessageHandler.payload :=
       JObj [("recipientJid", JStr "491701@s.whatsapp.net");
             ("text", JStr "hello")];
     McpMessageHandler.requestId := JStr "r-2" |}.

(** The same action with the recipient left out. *)
Definition hello_to_nobody : McpMessageHandler.McpClientAction :=
  {| McpMessageHandler.actionType := "SEND_TEXT_MESSAGE";
     McpMessageHandler.payload := JObj [("text", JStr "hello")];
     McpMessageHandler.requestId := JStr "r-3" |}.

Definition hello_reply : list (string * json) :=
  [("message", JStr "Text message sent successfully via Baileys.");
   ("baileysMessageId", JStr "3EB0A1");
   ("details", JObj [("recipientJid", JStr "491701@s.whatsapp.net")]);
   ("_originalActionType", JStr "SEND_TEXT_MESSAGE");
   ("_requestId", JStr "r-2")].

(** Client [c1] is registered, but its stream has been closed. *)
Definition closed_stream : McpSessionManager.ServerResponse :=
  {| McpSessionManager.closed := true; McpSessionManager.destroyed := false;
     McpSessionManager.writeError := None; McpSessionManager.written := [] |}.

Definition gone_client : McpSessionManager.World :=
  {| McpSessionManager.sessions :=
       {[ "c1" := {| McpSessionManager.id := "c1";
                     McpSessionManager.connection := closed_stream;
                     McpSessionManager.lastSeen := 0 |} ]};
     McpSessionManager.console := [];
     McpSessionManager.emitted := [] |}.

Definition one_registered : McpSessionRegistry.Registry :=
  {| McpSessionRegistry.world := Scenarios.one_client;
     McpSessionRegistry.ended := [] |}.

(** Client [c1] initialises a protocol session over its open stream, pairs
    (credentials [42]), and is then logged out by the server (status 401, no
    [reason] on the update): the close handler runs, then the removal it
    started. *)
Definition c1_connected : BaileysCore.Core :=
  {| BaileysCore.world := Scenarios.one_client;
     BaileysCore.manager := initial;
     BaileysCore.owners := [] |}.

Definition c1_initialised : BaileysCore.Core :=
  fst (BaileysCore.initializeBaileysForMcpSession Scenarios.cwd Scenarios.loggedOut
         0 Scenarios.created "c1" c1_connected).

Definition c1_paired : BaileysCore.Core :=
  BaileysCore.manager_event Scenarios.cwd Scenarios.loggedOut 1000
    (CredsUpdate 0%nat 42%nat) c1_initialised.

Definition c1_cell : Cell :=
  {| session :=
       {| mcpSessionId := "c1"; socket := 0%nat;
          stateDir := "/app/.baileys_auth_state/session_c1";
          creationTime := 0; lastActivityTime := 0; qrCode := None;
          socketOptions := JUndefined; retryCount := 0 |};
     sock := Scenarios.connecting;
     eventCallbacks := 0%nat |}.

Definition c1_logging_out : BaileysCore.Core :=
  BaileysCore.manager_event Scenarios.cwd Scenarios.loggedOut 5000
    (ConnectionUpdate None 0%nat (Scenarios.close_with 401)) c1_paired.

Definition c1_logged_out : BaileysCore.Core :=
  BaileysCore.manager_event Scenarios.cwd Scenarios.loggedOut 5001
    (RemovalResumes 0) c1_logging_out.

(** Tenants [A] (whose socket cannot be closed) and [B] at shutdown; no
    client stream is registered. *)
Definition two_tenant_core : BaileysCore.Core :=
  {| BaileysCore.world := Scenarios.nobody;
     BaileysCore.manager := Scenarios.two_tenants;
     BaileysCore.owners := [] |}.

End Runs.

(** * Properties *)

(** ** The broadcaster *)

Module McpEventEmitterFacts.
Import McpSessionManager McpEventEmitter.

Lemma sendEventToClient_returns now sessionId eventType data w :
  exists delivered,
    snd (sendEventToClient now sessionId eventType data w) = Normal delivered.
Proof.
  unfold sendEventToClient, getSession; simpl.
  destruct (sessions w !! sessionId) as [s|]; simpl; [|eauto].
  destruct (closed (connection s) || destroyed (connection s)); simpl; [eauto|].
  unfold write; simpl. destruct (writeError (connection s)); simpl; eauto.
Qed.

Lemma sendEventToClient_emitted now sessionId eventType data w :
  emitted (fst (sendEventToClient now sessionId eventType data w))
  = emitted w ++ [(sessionId, eventType, data)].
Proof.
  unfold sendEventToClient, getSession; simpl.
  destruct (sessions w !! sessionId) as [s|]; simpl; [|reflexivity].
  destruct (closed (connection s) || destroyed (connection s)); simpl; [reflexivity|].
  unfold write; simpl. destruct (writeError (connection s)); reflexivity.
Qed.

Lemma sendEventToClient_sent now sessionId eventType data w :
  sent_to sessionId (fst (sendEventToClient now sessionId eventType data w))
  = sent_to sessionId w
    ++ (if deliverable sessionId w then [eventString eventType data] else []).
Proof.
  unfold sendEventToClient, getSession, deliverable, sent_to; simpl.
  destruct (sessions w !! sessionId) as [s|] eqn:Hs; simpl.
  - destruct (closed (connection s) || destroyed (connection s)) eqn:Hc; simpl.
    + rewrite lookup_insert_eq; simpl. by rewrite app_nil_r.
    + unfold write; simpl.
      destruct (writeError (connection s)) eqn:Hw; simpl.
      * rewrite lookup_insert_eq; simpl. by rewrite app_nil_r.
      * by rewrite insert_insert_eq, lookup_insert_eq.
  - by rewrite Hs.
Qed.

Lemma sendEventToClient_deliverable now sessionId eventType data w :
  deliverable sessionId (fst (sendEventToClient now sessionId eventType data w))
  = deliverable sessionId w.
Proof.
  unfold sendEventToClient, getSession, deliverable; simpl.
  destruct (sessions w !! sessionId) as [s|] eqn:Hs; simpl.
  - destruct (closed (connection s) || destroyed (connection s)) eqn:Hc; simpl.
    + rewrite lookup_insert_eq; simpl. by rewrite Hc.
    + unfold write; simpl.
      destruct (writeError (connection s)) eqn:Hw; simpl.
      * rewrite lookup_insert_eq; simpl. by rewrite Hc, Hw.
      * rewrite insert_insert_eq, lookup_insert_eq; simpl. by rewrite Hc.
  - by rewrite Hs.
Qed.

(** C6. [sendEventToClient] always returns a boolean, never an exception:
    [false] with nothing written when the registry has no entry for the id or
    the stream is closed or destroyed; on an open stream it writes one chunk,
    the SSE frame of the event, and returns [true]: the line [event: <type>]
    (left out for an empty type), the line [data: <JSON.stringify(data)>] and
    an empty line; a [write] that throws is caught, logged, and reported as
    [false].  The entries of other sessions are not touched.  Two frames are
    spelled out: a [qr_update] with its code, and a [null] payload without an
    event type. *)
Theorem sendEventToClient_delivery (now : Z) (sessionId eventType : string)
    (data : json) (w : World) :
  let LF := String "010"%char EmptyString in
  let Q := String "034"%char EmptyString in
  let r := sendEventToClient now sessionId eventType data w in
  (exists delivered, snd r = Normal delivered)
  /\ delete sessionId (sessions (fst r)) = delete sessionId (sessions w)
  /\ match sessions w !! sessionId with
     | None =>
         snd r = Normal false /\ sessions (fst r) = sessions w
     | Some s =>
         if closed (connection s) || destroyed (connection s) then
           snd r = Normal false
           /\ sent_to sessionId (fst r) = written (connection s)
         else
           match writeError (connection s) with
           | None =>
               snd r = Normal true
               /\ sent_to sessionId (fst r)
                  = written (connection s)
                    ++ [(if String.eqb eventType EmptyString then EmptyString
                         else "event: " +:+ eventType +:+ LF)
                        +:+ "data: "
                        +:+ match stringify data with
                            | Some text => text
                            | None => "undefined"
                            end
                        +:+ LF +:+ LF]
           | Some m =>
               snd r = Normal false
               /\ sent_to sessionId (fst r) = written (connection s)
               /\ console (fst r)
                  = console w
                    ++ ["[MCP Event Emitter] Error sending event '" +:+ eventType
                        +:+ "' to session " +:+ sessionId +:+ ": " +:+ m]
           end
     end
  /\ sendEventToClient now "c1" "qr_update" (JObj [("qr", JStr "2@qr-one")])
       Scenarios.one_client
     = ({| sessions :=
             {[ "c1" :=
                  {| id := "c1";
                     connection :=
                       {| closed := false; destroyed := false; writeError := None;
                          written :=
                            ["event: qr_update" +:+ LF +:+ "data: {" +:+ Q +:+ "qr"
                             +:+ Q +:+ ":" +:+ Q +:+ "2@qr-one" +:+ Q +:+ "}"
                             +:+ LF +:+ LF] |};
                     lastSeen := now |} ]};
           console := [];
           emitted := [("c1", "qr_update", JObj [("qr", JStr "2@qr-one")])] |},
        Normal true)
  /\ sent_to "c1" (fst (sendEventToClient now "c1" EmptyString JNull
                          Scenarios.one_client))
     = ["data: null" +:+ LF +:+ LF].
Proof.
  intros LF Q r. split; [apply sendEventToClient_returns|]. split; [|split].
  - subst r. unfold sendEventToClient, getSession; simpl.
    destruct (sessions w !! sessionId) as [s|]; simpl; [|reflexivity].
    destruct (closed (connection s) || destroyed (connection s)); simpl.
    + apply delete_insert_eq.
    + unfold write; simpl. destruct (writeError (connection s)); simpl.
      * apply delete_insert_eq.
      * by rewrite !delete_insert_eq.
  - pose proof (sendEventToClient_sent now sessionId eventType data w) as Hsent.
    fold r in Hsent. unfold deliverable, sent_to in Hsent.
    subst r. revert Hsent. unfold sendEventToClient, getSession, sent_to; simpl.
    destruct (sessions w !! sessionId) as [s|] eqn:Hs; simpl; [|done].
    destruct (closed (connection s) || destroyed (connection s)) eqn:Hc; simpl.
    + rewrite lookup_insert_eq; simpl. done.
    + unfold write; simpl. destruct (writeError (connection s)) eqn:Hw; simpl.
      * rewrite lookup_insert_eq; simpl. done.
      * rewrite insert_insert_eq, lookup_insert_eq; simpl. intros _.
        split; [done|]. unfold eventString, stringify_text, truthy_str, newline.
        by destruct (String.eqb eventType EmptyString).
  - split; vm_compute; reflexivity.
Qed.

End McpEventEmitterFacts.

(** ** The ordered map *)

Module JsMapFacts.
Section Facts.
Context {V : Type}.
Implicit Types (m : list (string * V)) (k : string) (v : V).

Lemma get_set_eq k v m : JsMap.get k (JsMap.set k v m) = Some v.
Proof.
  induction m as [|[k' v'] m IH]; simpl.
  - by rewrite String.eqb_refl.
  - destruct (String.eqb k k') eqn:E; simpl; rewrite ?String.eqb_refl, ?E; auto.
Qed.

Lemma get_set_ne k k' v m :
  k <> k' -> JsMap.get k' (JsMap.set k v m) = JsMap.get k' m.
Proof.
  intros Hne. induction m as [|[k0 v0] m IH]; simpl.
  - destruct (String.eqb k' k) eqn:E; [|done].
    apply String.eqb_eq in E. congruence.
  - destruct (String.eqb k k0) eqn:E; simpl.
    + apply String.eqb_eq in E; subst k0.
      destruct (String.eqb k' k) eqn:E'; [|done].
      apply String.eqb_eq in E'. congruence.
    + by rewrite IH.
Qed.

Lemma get_delete_eq k m : JsMap.get k (JsMap.delete k m) = None.
Proof.
  induction m as [|[k' v'] m IH]; simpl; [done|].
  destruct (String.eqb k k') eqn:E; simpl; [done|]. by rewrite E.
Qed.

Lemma get_delete_ne k k' m :
  k <> k' -> JsMap.get k' (JsMap.delete k m) = JsMap.get k' m.
Proof.
  intros Hne. induction m as [|[k0 v0] m IH]; simpl; [done|].
  destruct (String.eqb k k0) eqn:E; simpl.
  - apply String.eqb_eq in E; subst k0.
    destruct (String.eqb k' k) eqn:E'; [|done].
    apply String.eqb_eq in E'. congruence.
  - by rewrite IH.
Qed.

Lemma get_set_id k v m : JsMap.get k m = Some v -> JsMap.set k v m = m.
Proof.
  induction m as [|[k' v'] m IH]; simpl; [done|].
  destruct (String.eqb k k') eqn:E.
  - apply String.eqb_eq in E; subst k'. by intros [= ->].
  - intros H. by rewrite IH.
Qed.

Lemma get_not_key k m : k ∉ map fst m -> JsMap.get k m = None.
Proof.
  induction m as [|[k' v'] m IH]; simpl; [done|].
  intros Hn. destruct (String.eqb k k') eqn:E.
  - apply String.eqb_eq in E; subst k'. exfalso. apply Hn. by left.
  - apply IH. intros Hin. apply Hn. by right.
Qed.
Lemma keys_set k v m k' :
  k' ∈ map fst (JsMap.set k v m) <-> k' = k \/ k' ∈ map fst m.
Proof.
  induction m as [|[k0 v0] m IH]; simpl.
  - rewrite list_elem_of_singleton. split; [auto|]. intros [?|H]; [done|].
    by apply not_elem_of_nil in H.
  - destruct (String.eqb k k0) eqn:E; simpl.
    + apply String.eqb_eq in E; subst k0. rewrite !elem_of_cons. tauto.
    + rewrite !elem_of_cons, IH. tauto.
Qed.

Lemma keys_delete k m k' :
  k' ∈ map fst (JsMap.delete k m) -> k' ∈ map fst m.
Proof.
  induction m as [|[k0 v0] m IH]; simpl; [done|].
  destruct (String.eqb k k0); simpl; rewrite ?elem_of_cons; intuition.
Qed.

Lemma NoDup_set k v m :
  NoDup (map fst m) -> NoDup (map fst (JsMap.set k v m)).
Proof.
  induction m as [|[k0 v0] m IH]; simpl; intros Hnd.
  - apply NoDup_singleton.
  - apply NoDup_cons in Hnd as [Hfresh Hnd].
    destruct (String.eqb k k0) eqn:E; simpl.
    + apply String.eqb_eq in E; subst k0. by apply NoDup_cons.
    + apply NoDup_cons. split; [|by apply IH].
      rewrite keys_set. intros [->|H]; [|done].
      by rewrite String.eqb_refl in E.
Qed.

Lemma NoDup_delete k m :
  NoDup (map fst m) -> NoDup (map fst (JsMap.delete k m)).
Proof.
  induction m as [|[k0 v0] m IH]; simpl; intros Hnd; [done|].
  apply NoDup_cons in Hnd as [Hfresh Hnd].
  destruct (String.eqb k k0); simpl; [by apply IH|].
  apply NoDup_cons. split; [|by apply IH].
  intros H. by apply keys_delete in H.
Qed.

End Facts.
End JsMapFacts.

(** ** The protocol-session manager *)

Module BaileysSessionManagerFacts.
Import BaileysSessionManager.

Lemma truthy_not_nullish j : truthy j = true -> j <> JNull /\ j <> JUndefined.
Proof. destruct j; simpl; intros H; split; congruence. Qed.

Lemma foldl_forward (cb : nat) (id : string) (msgs : list WA.WAMessage) (acc : State) :
  calls (foldl (fun a msg => if wanted msg then call (onMessage cb msg id) a else a)
           acc msgs)
  = calls acc ++ map (fun msg => onMessage cb msg id) (List.filter wanted msgs).
Proof.
  revert acc. induction msgs as [|msg msgs IH]; intros acc; simpl.
  - by rewrite app_nil_r.
  - rewrite IH. destruct (wanted msg); simpl; [|done].
    by rewrite <- app_assoc.
Qed.

(** C10. The ['messages.upsert'] handler calls [onMessage] exactly for the
    messages of the batch whose content is truthy (so neither [null] nor
    [undefined]) and whose [key.fromMe] is falsy, in batch order; a self-sent
    or content-less message is never forwarded. *)
Theorem on_messages_upsert_forwards (h : nat) (m : WA.MessagesUpsert) (st : State) :
  let batch := default [] (WA.messages m) in
  let forwarded :=
    match objs st !! h with
    | Some _ =>
        List.filter (fun msg => truthy (WA.message msg)
                                && negb (truthy (WA.fromMe (WA.key msg)))) batch
    | None => []
    end in
  (exists cb id,
      calls (on_messages_upsert h m st)
      = calls st ++ map (fun msg => onMessage cb msg id) forwarded)
  /\ Forall (fun msg => In msg batch
                        /\ WA.message msg <> JNull
                        /\ WA.message msg <> JUndefined
                        /\ truthy (WA.fromMe (WA.key msg)) = false) forwarded.
Proof.
  intros batch forwarded. split.
  - unfold on_messages_upsert. subst forwarded batch.
    destruct (objs st !! h) as [closure|]; simpl.
    + exists (eventCallbacks closure), (mcpSessionId (session closure)).
      destruct (WA.messages m) as [msgs|]; simpl; [|by rewrite app_nil_r].
      destruct msgs as [|msg msgs]; [by rewrite app_nil_r|].
      change (0 <? length (msg :: msgs))%nat with true. cbv iota.
      apply foldl_forward.
    + exists 0%nat, EmptyString. by rewrite app_nil_r.
  - subst forwarded. destruct (objs st !! h); [|constructor].
    apply Forall_forall. intros msg Hin.
    apply list_elem_of_In, filter_In in Hin. destruct Hin as [Hin Hw].
    apply andb_true_iff in Hw. destruct Hw as [Hm Hf].
    apply truthy_not_nullish in Hm. apply negb_true_iff in Hf. tauto.
Qed.

Lemma getOrCreate_existing cwd now o id cb opts st ref c :
  JsMap.get id (baileysSessions st) = Some ref ->
  objs st !! ref = Some c ->
  getOrCreateBaileysSession cwd now o id cb opts st
  = (let st1 := assign ref (set_lastActivityTime now) st in
     match qrCode (session c) with
     | Some q =>
         if truthy_str q && ws_not_open (sock c)
         then call (onQR cb q) st1 else st1
     | None => st1
     end, Normal (socket (session c))).
Proof.
  intros Hget Hobj. unfold getOrCreateBaileysSession. by rewrite Hget, Hobj.
Qed.

(** A call that returns leaves an entry for the tenant whose session object
    wraps the returned socket. *)
Lemma getOrCreate_returns_entry cwd now o id cb opts st st1 h :
  getOrCreateBaileysSession cwd now o id cb opts st = (st1, Normal h) ->
  exists ref c,
    JsMap.get id (baileysSessions st1) = Some ref
    /\ objs st1 !! ref = Some c
    /\ socket (session c) = h.
Proof.
  unfold getOrCreateBaileysSession.
  destruct (JsMap.get id (baileysSessions st)) as [ref|] eqn:Hget.
  - destruct (objs st !! ref) as [c|] eqn:Hobj; [|intros [= _ ?]; discriminate].
    intros [= <- <-]. exists ref, (map_session (set_lastActivityTime now) c).
    assert (Hassign : objs (assign ref (set_lastActivityTime now) st) !! ref
                      = Some (map_session (set_lastActivityTime now) c)).
    { unfold assign; simpl. by rewrite lookup_alter_eq, Hobj. }
    destruct (qrCode (session c)) as [q|];
      [destruct (truthy_str q && ws_not_open (sock c))|]; simpl; auto.
  - destruct (authError o); [intros [= _ ?]; discriminate|].
    destruct (socketError o); [intros [= _ ?]; discriminate|].
    intros [= <- <-]. eexists _, _. simpl.
    rewrite JsMapFacts.get_set_eq. split; [reflexivity|].
    split; [apply lookup_insert_eq|]. simpl.
    destruct (fs st !! _); reflexivity.
Qed.

(** The test before the replay, in terms of what is stored and of the web
    socket. *)
Lemma replay_condition (q : string) (s : WA.BaileysSocket) :
  truthy_str q && ws_not_open s
  = match WA.ws s with
    | Some w => bool_decide (q <> EmptyString /\ WA.readyState w <> WA.OPEN w)
    | None => false
    end.
Proof.
  unfold ws_not_open, truthy_str.
  destruct (WA.ws s) as [w|]; [|by rewrite andb_false_r].
  destruct (String.eqb_spec q EmptyString) as [->|Hq]; cbn [negb andb].
  - symmetry. apply bool_decide_eq_false. by intros [? _].
  - destruct (decide (WA.readyState w = WA.OPEN w)) as [He|He].
    + rewrite (bool_decide_eq_true_2 _ He). cbn [negb].
      symmetry. apply bool_decide_eq_false. by intros [_ ?].
    + rewrite (bool_decide_eq_false_2 _ He). cbn [negb].
      symmetry. by apply bool_decide_eq_true.
Qed.

(** C2 (as the code has it). When a call of [getOrCreateBaileysSession] for
    a tenant has returned a socket, the next call for the same tenant returns
    that same socket and makes no library call at all (no credential load, no
    factory invocation, nothing allocated; map, disk and timers as they
    were): it sets [lastActivityTime] of the entry to the time of the call,
    every other field of the session object staying as it was, and it replays
    the pending QR code to the caller's [onQR] exactly when that code is a
    non-empty string and the socket has a web socket whose [readyState]
    differs from its [OPEN].  Whether the connection has reported ['open'] is
    not what decides. *)
Theorem getOrCreate_twice (cwd : string) (now1 now2 : Z) (o1 o2 : Creation)
    (id : string) (cb1 cb2 : nat) (opts1 opts2 : json) (st st1 : State) (h : nat) :
  getOrCreateBaileysSession cwd now1 o1 id cb1 opts1 st = (st1, Normal h) ->
  exists ref c,
    JsMap.get id (baileysSessions st1) = Some ref
    /\ objs st1 !! ref = Some c
    /\ socket (session c) = h
    /\ let r := getOrCreateBaileysSession cwd now2 o2 id cb2 opts2 st1 in
       snd r = Normal h
       /\ lib (fst r) = lib st1
       /\ next (fst r) = next st1
       /\ baileysSessions (fst r) = baileysSessions st1
       /\ fs (fst r) = fs st1
       /\ timers (fst r) = timers st1
       /\ objs (fst r) !! ref
          = Some {| session :=
                      {| mcpSessionId := mcpSessionId (session c);
                         socket := h;
                         stateDir := stateDir (session c);
                         creationTime := creationTime (session c);
                         lastActivityTime := now2;
                         qrCode := qrCode (session c);
                         socketOptions := socketOptions (session c);
                         retryCount := retryCount (session c) |};
                    sock := sock c;
                    eventCallbacks := eventCallbacks c |}
       /\ (forall other, other <> ref -> objs (fst r) !! other = objs st1 !! other)
       /\ calls (fst r)
          = calls st1
            ++ match qrCode (session c), WA.ws (sock c) with
               | Some q, Some w =>
                   if bool_decide (q <> EmptyString
                                   /\ WA.readyState w <> WA.OPEN w)
                   then [onQR cb2 q] else []
               | _, _ => []
               end.
Proof.
  intros Hfirst.
  destruct (getOrCreate_returns_entry _ _ _ _ _ _ _ _ _ Hfirst)
    as (ref & c & Hget & Hobj & Hsock).
  exists ref, c. split; [done|]. split; [done|]. split; [done|].
  intros r. subst r. rewrite (getOrCreate_existing _ _ _ _ _ _ _ _ _ Hget Hobj).
  cbn [fst snd]. split; [by rewrite Hsock|].
  assert (Hcell : objs (assign ref (set_lastActivityTime now2) st1) !! ref
                  = Some {| session :=
                              {| mcpSessionId := mcpSessionId (session c);
                                 socket := h;
                                 stateDir := stateDir (session c);
                                 creationTime := creationTime (session c);
                                 lastActivityTime := now2;
                                 qrCode := qrCode (session c);
                                 socketOptions := socketOptions (session c);
                                 retryCount := retryCount (session c) |};
                            sock := sock c;
                            eventCallbacks := eventCallbacks c |}).
  { unfold assign; simpl. rewrite lookup_alter_eq, Hobj. simpl.
    unfold map_session, set_lastActivityTime. by rewrite Hsock. }
  assert (Hothers : forall other, other <> ref ->
             objs (assign ref (set_lastActivityTime now2) st1) !! other
             = objs st1 !! other).
  { intros other Hne. unfold assign; simpl. by rewrite lookup_alter_ne. }
  destruct (qrCode (session c)) as [q|].
  - rewrite replay_condition. destruct (WA.ws (sock c)) as [w|].
    + destruct (bool_decide _); simpl; rewrite ?app_nil_r; auto 10.
    + simpl; rewrite ?app_nil_r; auto 10.
  - simpl; rewrite ?app_nil_r; auto 10.
Qed.

(** C2 (what the claim says and the code does not): a code is pending for
    [t2] and its connection has not reported ['open'] (no [onConnected] so
    far), but its web socket is in its OPEN state: a second call for [t2]
    returns the same socket and replays nothing. *)
Lemma pending_qr_not_replayed :
  (qrCode <$> deref 0 Scenarios.t2_one_code) = Some (Some "2@qr-one")
  /\ calls Scenarios.t2_one_code = [onQR 7%nat "2@qr-one"]
  /\ snd Scenarios.t2_asked_again = Normal 0%nat
  /\ calls (fst Scenarios.t2_asked_again) = calls Scenarios.t2_one_code.
Proof. vm_compute. repeat split; reflexivity. Qed.

Lemma qr_issued_spec lo now rm h q st c :
  objs st !! h = Some c ->
  let st' := on_connection_update lo now rm h (qr_issued q) st in
  objs st' !! h
  = Some (map_session
            (fun s => if truthy_str q
                      then set_qrCode (Some q) (set_lastActivityTime now s)
                      else set_lastActivityTime now s) c)
  /\ baileysSessions st' = baileysSessions st
  /\ calls st'
     = calls st ++ (if truthy_str q then [onQR (eventCallbacks c) q] else []).
Proof.
  intros Hobj st'. subst st'. unfold on_connection_update. rewrite Hobj. simpl.
  destruct (truthy_str q); simpl.
  - by rewrite !lookup_alter_eq, Hobj.
  - by rewrite lookup_alter_eq, Hobj, app_nil_r.
Qed.

Lemma connection_open_spec lo now rm h st c :
  objs st !! h = Some c ->
  JsMap.get (mcpSessionId (session c)) (baileysSessions st) = Some h ->
  let st' := on_connection_update lo now rm h connection_open st in
  (exists c', objs st' !! h = Some c'
              /\ qrCode (session c') = None
              /\ retryCount (session c') = 0
              /\ socket (session c') = socket (session c)
              /\ mcpSessionId (session c') = mcpSessionId (session c))
  /\ JsMap.get (mcpSessionId (session c)) (baileysSessions st') = Some h
  /\ calls st' = calls st ++ [onConnected (eventCallbacks c)].
Proof.
  intros Hobj Hget st'. subst st'. unfold on_connection_update.
  rewrite Hobj. simpl. rewrite Hget. simpl.
  rewrite JsMapFacts.get_set_eq. simpl.
  rewrite !lookup_alter_eq, Hobj. simpl.
  split; [eexists; split; [reflexivity|]; simpl; auto|].
  by rewrite JsMapFacts.get_set_eq.
Qed.

(** C4 (as the code has it). On the socket the map holds for a tenant,
    each issued QR code overwrites the stored one: after [Q1] then [Q2] the
    entry holds [Q2], and a client that subscribes late (a further
    [getOrCreateBaileysSession]) is replayed [Q2] and never [Q1], but only
    when the socket has a web socket whose [readyState] differs from its
    [OPEN]; otherwise it is replayed nothing.  The ['open'] update clears the
    stored code, after which a late subscriber is replayed nothing, whatever
    the web socket says. *)
Theorem qr_freshness (cwd : string) (lo now1 now2 now3 now4 now5 : Z)
    (rm : option string) (o : Creation) (h : nat) (c : Cell) (Q1 Q2 : string)
    (cb' : nat) (opts : json) (st : State) :
  objs st !! h = Some c ->
  JsMap.get (mcpSessionId (session c)) (baileysSessions st) = Some h ->
  Q2 <> EmptyString ->
  let id := mcpSessionId (session c) in
  let st1 := on_connection_update lo now1 rm h (qr_issued Q1) st in
  let st2 := on_connection_update lo now2 rm h (qr_issued Q2) st1 in
  let late := getOrCreateBaileysSession cwd now3 o id cb' opts st2 in
  let st3 := on_connection_update lo now4 rm h connection_open st2 in
  let late' := getOrCreateBaileysSession cwd now5 o id cb' opts st3 in
  (qrCode <$> deref h st1)
  = Some (if String.eqb Q1 EmptyString then qrCode (session c) else Some Q1)
  /\ (qrCode <$> deref h st2) = Some (Some Q2)
  /\ calls (fst late)
     = calls st2
       ++ match WA.ws (sock c) with
          | Some w =>
              if bool_decide (WA.readyState w <> WA.OPEN w)
              then [onQR cb' Q2] else []
          | None => []
          end
  /\ snd late = Normal (socket (session c))
  /\ lib (fst late) = lib st2
  /\ (qrCode <$> deref h st3) = Some None
  /\ calls (fst late') = calls st3
  /\ snd late' = Normal (socket (session c))
  /\ lib (fst late') = lib st3.
Proof.
  intros Hobj Hget HQ2' id st1 st2 late st3 late'.
  assert (HQ2 : truthy_str Q2 = true).
  { unfold truthy_str. by destruct (String.eqb_spec Q2 EmptyString). }
  destruct (qr_issued_spec lo now1 rm h Q1 st c Hobj) as (Hobj1 & Hmap1 & _).
  fold st1 in Hobj1, Hmap1.
  destruct (qr_issued_spec lo now2 rm h Q2 st1 _ Hobj1) as (Hobj2 & Hmap2 & _).
  fold st2 in Hobj2, Hmap2. rewrite HQ2 in Hobj2.
  assert (Hget2 : JsMap.get id (baileysSessions st2) = Some h)
    by (by rewrite Hmap2, Hmap1).
  split. { unfold deref. rewrite Hobj1. simpl. unfold truthy_str.
           by destruct (String.eqb Q1 EmptyString). }
  split. { unfold deref. by rewrite Hobj2. }
  subst late. rewrite (getOrCreate_existing _ _ _ _ _ _ _ _ _ Hget2 Hobj2).
  cbn [fst snd map_session session sock qrCode set_qrCode socket].
  rewrite replay_condition.
  split.
  { destruct (WA.ws (sock c)) as [w|]; [|by rewrite app_nil_r].
    destruct (decide (WA.readyState w = WA.OPEN w)) as [He|He].
    - rewrite bool_decide_eq_false_2 by (by intros [_ ?]).
      rewrite bool_decide_eq_false_2 by (by intros ?). by rewrite app_nil_r.
    - rewrite bool_decide_eq_true_2 by done.
      by rewrite bool_decide_eq_true_2 by done. }
  split. { by destruct (truthy_str Q1). }
  split. { destruct (WA.ws (sock c)) as [w|]; [|done]. by destruct (bool_decide _). }
  assert (Hid : mcpSessionId
                  (session (map_session
                     (fun s => set_qrCode (Some Q2) (set_lastActivityTime now2 s))
                     (map_session
                        (fun s => if truthy_str Q1
                                  then set_qrCode (Some Q1) (set_lastActivityTime now1 s)
                                  else set_lastActivityTime now1 s) c))) = id).
  { simpl. by destruct (truthy_str Q1). }
  pose proof (connection_open_spec lo now4 rm h st2 _ Hobj2) as Hopen.
  rewrite Hid in Hopen. specialize (Hopen Hget2). fold st3 in Hopen.
  destruct Hopen as ((c3 & Hobj3 & Hqr3 & _ & Hsock3 & _) & Hget3 & _).
  split. { unfold deref. rewrite Hobj3. simpl. by rewrite Hqr3. }
  subst late'. rewrite (getOrCreate_existing _ _ _ _ _ _ _ _ _ Hget3 Hobj3).
  rewrite Hqr3. cbn [fst snd]. rewrite Hsock3. simpl.
  repeat split; by destruct (truthy_str Q1).
Qed.

(** C4 (what the claim says and the code does not): [t2] has been issued
    two codes and is not connected yet, the second code is the stored one,
    but its web socket is in its OPEN state: the client that subscribes late
    is handed the socket and is replayed no code at all. *)
Lemma late_subscriber_gets_no_code :
  (qrCode <$> deref 0 Scenarios.t2_two_codes) = Some (Some "2@qr-two")
  /\ calls Scenarios.t2_two_codes = [onQR 7%nat "2@qr-one"; onQR 7%nat "2@qr-two"]
  /\ snd Scenarios.t2_late = Normal 0%nat
  /\ calls (fst Scenarios.t2_late) = calls Scenarios.t2_two_codes.
Proof. vm_compute. repeat split; reflexivity. Qed.

Lemma lookup_assign r f st r' :
  objs (assign r f st) !! r'
  = if decide (r = r') then map_session f <$> objs st !! r' else objs st !! r'.
Proof.
  unfold assign; simpl. destruct (decide (r = r')) as [->|Hne].
  - apply lookup_alter_eq.
  - by apply lookup_alter_ne.
Qed.


Lemma removeBaileysSession_spec rmError id del st ref c :
  JsMap.get id (baileysSessions st) = Some ref ->
  objs st !! ref = Some c ->
  WA.logoutError (sock c) = None \/ WA.endError (sock c) = None ->
  let r := removeBaileysSession rmError id del st in
  snd r = Normal tt
  /\ baileysSessions (fst r) = JsMap.delete id (baileysSessions st)
  /\ objs (fst r) = objs st
  /\ timers (fst r) = timers st
  /\ calls (fst r) = calls st
  /\ next (fst r) = next st
  /\ fs (fst r)
     = (if del then
          match rmError with
          | None => delete (stateDir (session c)) (fs st)
          | Some _ => fs st
          end
        else fs st).
Proof.
  intros Hget Hobj Hok r. subst r. unfold removeBaileysSession.
  rewrite Hget, Hobj.
  destruct (WA.logoutError (sock c)) eqn:Hlo.
  - destruct Hok as [?|Hend]; [done|]. rewrite Hend.
    destruct del; [destruct rmError|]; simpl; auto 10.
  - destruct del; [destruct rmError|]; simpl; auto 10.
Qed.


(** What a removal that runs on leaves alone. *)
Lemma resume_removal_frame n st :
  let st' := resume_removal n st in
  objs st' = objs st
  /\ next st' = next st
  /\ timers st' = timers st
  /\ calls st' = calls st
  /\ (baileysSessions st' = baileysSessions st
      \/ exists r, removals st !! n = Some r
                   /\ baileysSessions st'
                      = JsMap.delete (r_mcpSessionId r) (baileysSessions st)).
Proof.
  intros st'. subst st'. unfold resume_removal.
  destruct (removals st !! n) as [r|] eqn:Hr; [|auto 10].
  cbn [objs set_removals].
  destruct (objs st !! r_session r) as [c|]; [|auto 10].
  destruct (WA.logoutError (sock c)); [destruct (WA.endError (sock c))|];
    try (simpl; auto 10);
    (destruct (r_rmError r); simpl; repeat split; try done; right; eauto).
Qed.




Lemma sweep_spec now maxIdle entries st :
  NoDup (map fst entries) ->
  (forall id ref, JsMap.get id entries = Some ref ->
                  JsMap.get id (baileysSessions st) = Some ref) ->
  (forall id ref c, JsMap.get id entries = Some ref -> objs st !! ref = Some c ->
                    WA.logoutError (sock c) = None \/ WA.endError (sock c) = None) ->
  exists st',
    sweep now maxIdle entries st = (st', Normal tt)
    /\ objs st' = objs st
    /\ forall id,
         JsMap.get id (baileysSessions st')
         = if stale now maxIdle entries (objs st) id then None
           else JsMap.get id (baileysSessions st).
Proof.
  revert st. induction entries as [|[id0 ref0] rest IH]; intros st Hnd Hin Hok.
  - exists st. by repeat split.
  - apply NoDup_cons in Hnd as [Hfresh Hnd].
    pose proof (JsMapFacts.get_not_key id0 rest Hfresh) as Hrest0.
    assert (Hhead : JsMap.get id0 ((id0, ref0) :: rest) = Some ref0)
      by (simpl; by rewrite String.eqb_refl).
    assert (Htail : forall id ref, JsMap.get id rest = Some ref ->
                      id <> id0
                      /\ JsMap.get id ((id0, ref0) :: rest) = Some ref).
    { intros id ref Hg. assert (id <> id0) by congruence. split; [done|].
      simpl. destruct (String.eqb id id0) eqn:E; [|done].
      apply String.eqb_eq in E. congruence. }
    assert (Hskip : forall st1,
              objs st1 = objs st ->
              (forall id, id <> id0 ->
                 JsMap.get id (baileysSessions st1) = JsMap.get id (baileysSessions st)) ->
              forall keep : bool,
              JsMap.get id0 (baileysSessions st1)
              = (if keep then JsMap.get id0 (baileysSessions st) else None) ->
              stale now maxIdle ((id0, ref0) :: rest) (objs st) id0 = negb keep ->
              exists st',
                sweep now maxIdle rest st1 = (st', Normal tt)
                /\ objs st' = objs st
                /\ forall id,
                     JsMap.get id (baileysSessions st')
                     = if stale now maxIdle ((id0, ref0) :: rest) (objs st) id
                       then None else JsMap.get id (baileysSessions st)).
    { intros st1 Hobjs Hother keep Hid0 Hstale0.
      destruct (IH st1 Hnd) as (st' & Hsweep & Hobjs' & Hfinal).
      - intros id ref Hg. destruct (Htail id ref Hg) as [Hne Hg'].
        rewrite Hother by done. by apply Hin.
      - intros id ref c Hg Hc. destruct (Htail id ref Hg) as [_ Hg'].
        rewrite Hobjs in Hc. by eapply Hok.
      - exists st'. split; [done|]. split; [congruence|].
        intros id. rewrite Hfinal, Hobjs.
        destruct (decide (id = id0)) as [->|Hne].
        + unfold stale at 1. rewrite Hrest0, Hid0, Hstale0.
          by destruct keep.
        + rewrite Hother by done. unfold stale; simpl.
          destruct (String.eqb id id0) eqn:E; [|done].
          apply String.eqb_eq in E. congruence. }
    cbn [sweep]. rewrite (Hin _ _ Hhead).
    destruct (objs st !! ref0) as [c|] eqn:Hc.
    + destruct (now - lastActivityTime (session c) >? maxIdle) eqn:Hidle.
      * destruct (removeBaileysSession_spec None id0 false st ref0 c
                    (Hin _ _ Hhead) Hc (Hok _ _ _ Hhead Hc))
          as (Hret & Hmap & Hobjs & _).
        destruct (removeBaileysSession None id0 false st) as [st1 res].
        simpl in Hret, Hmap, Hobjs. subst res.
        apply (Hskip st1 Hobjs) with (keep := false).
        -- intros id Hne. rewrite Hmap. by apply JsMapFacts.get_delete_ne.
        -- rewrite Hmap. apply JsMapFacts.get_delete_eq.
        -- unfold stale. by rewrite Hhead, Hc.
      * apply (Hskip st eq_refl) with (keep := true); [done|done|].
        unfold stale. by rewrite Hhead, Hc.
    + apply (Hskip st eq_refl) with (keep := true); [done|done|].
      unfold stale. by rewrite Hhead, Hc.
Qed.

(** X5. The isolation the sweep does provide: when no swept socket fails both
    its [logout] and the fallback [end], the sweep runs to its end and exactly
    the entries idle for longer than the threshold are removed, whether or
    not a [logout] failed on the way. *)
Theorem sweep_isolation (now maxIdleTimeMs : Z) (st : State) :
  NoDup (map fst (baileysSessions st)) ->
  (forall id ref c,
      JsMap.get id (baileysSessions st) = Some ref -> objs st !! ref = Some c ->
      WA.logoutError (sock c) = None \/ WA.endError (sock c) = None) ->
  let r := cleanupInactiveBaileysSessions now maxIdleTimeMs st in
  snd r = Normal tt
  /\ forall id,
       JsMap.get id (baileysSessions (fst r))
       = if stale now maxIdleTimeMs (baileysSessions st) (objs st) id then None
         else JsMap.get id (baileysSessions st).
Proof.
  intros Hnd Hok r. subst r. unfold cleanupInactiveBaileysSessions.
  destruct (sweep_spec now maxIdleTimeMs (baileysSessions st) st Hnd)
    as (st' & Hsweep & _ & Hfinal); [done|done|].
  rewrite Hsweep. by split.
Qed.

(** C9 (what the code does). [A] and [B] are both idle; the [logout] of
    [A] fails and so does the fallback [end], whose exception leaves
    [removeBaileysSession] and, uncaught, the loop of the sweep; [B] is never
    visited and stays in the map. *)
Lemma sweep_aborts_on_failure :
  stale 3600000 1800000 (baileysSessions Scenarios.two_tenants)
    (objs Scenarios.two_tenants) "B" = true
  /\ snd Scenarios.swept = Throw (Error "socket already destroyed")
  /\ JsMap.has "A" (baileysSessions (fst Scenarios.swept)) = true
  /\ JsMap.has "B" (baileysSessions (fst Scenarios.swept)) = true.
Proof. vm_compute. repeat split; reflexivity. Qed.

Lemma getOrCreate_twice_witness :
  Scenarios.t1_second_client = (fst Scenarios.t1_second_client, Normal 0%nat)
  /\ (qrCode <$> deref 0 (fst Scenarios.t1_second_client)) = Some (Some "2@qr-two")
  /\ snd Scenarios.t1_third_client = Normal 0%nat
  /\ lib (fst Scenarios.t1_third_client) = lib (fst Scenarios.t1_second_client)
  /\ (lastActivityTime <$> deref 0 (fst Scenarios.t1_third_client)) = Some 3000
  /\ calls (fst Scenarios.t1_third_client)
     = calls (fst Scenarios.t1_second_client) ++ [onQR 9%nat "2@qr-two"].
Proof.
  assert (H : getOrCreateBaileysSession Scenarios.cwd 2500 Scenarios.created "t1"
                8%nat JUndefined Scenarios.t1_two_codes
              = (fst Scenarios.t1_second_client, Normal 0%nat))
    by (vm_compute; reflexivity).
  assert (Hget0 : JsMap.get "t1" (baileysSessions (fst Scenarios.t1_second_client))
                  = Some 0%nat) by (vm_compute; reflexivity).
  assert (Hobj0 : objs (fst Scenarios.t1_second_client) !! 0%nat
                  = Some {| session :=
                              {| mcpSessionId := "t1"; socket := 0%nat;
                                 stateDir := "/app/.baileys_auth_state/session_t1";
                                 creationTime := 0; lastActivityTime := 2500;
                                 qrCode := Some "2@qr-two";
                                 socketOptions := JUndefined; retryCount := 0 |};
                            sock := Scenarios.connecting;
                            eventCallbacks := 7%nat |})
    by (vm_compute; reflexivity).
  destruct (getOrCreate_twice Scenarios.cwd 2500 3000 Scenarios.created
              Scenarios.created "t1" 8%nat 9%nat JUndefined JUndefined
              Scenarios.t1_two_codes (fst Scenarios.t1_second_client) 0%nat H)
    as (ref & c & Hget & Hobj & _ & Hret & Hlib & _ & _ & _ & _ & Hcell & _ & Hcalls).
  rewrite Hget0 in Hget. injection Hget as <-.
  rewrite Hobj0 in Hobj. injection Hobj as <-.
  split; [exact H|]. split; [unfold deref; by rewrite Hobj0|].
  split; [exact Hret|]. split; [exact Hlib|].
  split; [unfold deref, Scenarios.t1_third_client; by rewrite Hcell|].
  exact Hcalls.
Defined.

Lemma qr_freshness_witness :
  objs Scenarios.t1_created !! 0%nat = Some Scenarios.t1_cell
  /\ JsMap.get "t1" (baileysSessions Scenarios.t1_created) = Some 0%nat
  /\ "2@qr-two" <> EmptyString
  /\ (qrCode <$> deref 0 Scenarios.t1_two_codes) = Some (Some "2@qr-two")
  /\ calls (fst (getOrCreateBaileysSession Scenarios.cwd 3000 Scenarios.created
                   "t1" 8%nat JUndefined Scenarios.t1_two_codes))
     = calls Scenarios.t1_two_codes ++ [onQR 8%nat "2@qr-two"]
  /\ calls (fst (getOrCreateBaileysSession Scenarios.cwd 5000 Scenarios.created
                   "t1" 8%nat JUndefined Scenarios.t1_opened))
     = calls Scenarios.t1_opened.
Proof.
  assert (H1 : objs Scenarios.t1_created !! 0%nat = Some Scenarios.t1_cell)
    by (vm_compute; reflexivity).
  assert (H2 : JsMap.get (mcpSessionId (session Scenarios.t1_cell))
                 (baileysSessions Scenarios.t1_created) = Some 0%nat)
    by (vm_compute; reflexivity).
  assert (H3 : "2@qr-two" <> EmptyString) by discriminate.
  destruct (qr_freshness Scenarios.cwd Scenarios.loggedOut 1000 2000 3000 4000
              5000 None Scenarios.created 0%nat Scenarios.t1_cell "2@qr-one"
              "2@qr-two" 8%nat JUndefined Scenarios.t1_created H1 H2 H3)
    as (_ & Hqr & Hlate & _ & _ & _ & Hlate' & _).
  split; [exact H1|]. split; [exact H2|]. split; [exact H3|].
  split; [exact Hqr|]. split; [exact Hlate | exact Hlate'].
Defined.


Lemma sweep_isolation_witness :
  baileysSessions Scenarios.three_tenants = [("A", 0%nat); ("B", 1%nat); ("C", 2%nat)]
  /\ (WA.logoutError <$> (sock <$> objs Scenarios.three_tenants !! 0%nat))
     = Some (Some "Connection Closed")
  /\ snd Scenarios.three_swept = Normal tt
  /\ JsMap.get "A" (baileysSessions (fst Scenarios.three_swept)) = None
  /\ JsMap.get "B" (baileysSessions (fst Scenarios.three_swept)) = None
  /\ JsMap.get "C" (baileysSessions (fst Scenarios.three_swept)) = Some 2%nat.
Proof.
  assert (Hmap : baileysSessions Scenarios.three_tenants
                 = [("A", 0%nat); ("B", 1%nat); ("C", 2%nat)])
    by (vm_compute; reflexivity).
  assert (Hnd : NoDup (map fst (baileysSessions Scenarios.three_tenants))).
  { rewrite Hmap. simpl. repeat (apply NoDup_cons; split);
      [| |apply not_elem_of_nil|apply NoDup_nil_2];
      rewrite ?elem_of_cons, elem_of_nil; intros H; decompose [or] H;
      try discriminate; done. }
  assert (HA : objs Scenarios.three_tenants !! 0%nat
               = Some {| session :=
                           {| mcpSessionId := "A"; socket := 0%nat;
                              stateDir := "/app/.baileys_auth_state/session_A";
                              creationTime := 0; lastActivityTime := 0;
                              qrCode := None; socketOptions := JUndefined;
                              retryCount := 0 |};
                         sock := Scenarios.grumpy; eventCallbacks := 1%nat |})
    by (vm_compute; reflexivity).
  assert (HB : sock <$> objs Scenarios.three_tenants !! 1%nat
               = Some Scenarios.connecting) by (vm_compute; reflexivity).
  assert (HC : sock <$> objs Scenarios.three_tenants !! 2%nat
               = Some Scenarios.connecting) by (vm_compute; reflexivity).
  assert (Hok : forall id ref c,
             JsMap.get id (baileysSessions Scenarios.three_tenants) = Some ref ->
             objs Scenarios.three_tenants !! ref = Some c ->
             WA.logoutError (sock c) = None \/ WA.endError (sock c) = None).
  { intros id ref c Hget Hobj. rewrite Hmap in Hget. simpl in Hget.
    destruct (String.eqb id "A").
    { injection Hget as <-. rewrite HA in Hobj. injection Hobj as <-.
      right. reflexivity. }
    destruct (String.eqb id "B").
    { injection Hget as <-. rewrite Hobj in HB. injection HB as ->.
      left. reflexivity. }
    destruct (String.eqb id "C"); [|discriminate Hget].
    injection Hget as <-. rewrite Hobj in HC. injection HC as ->.
    left. reflexivity. }
  destruct (sweep_isolation 3600000 1800000 Scenarios.three_tenants Hnd Hok)
    as [Hret Hfinal].
  split; [exact Hmap|]. split; [by rewrite HA|]. split; [exact Hret|].
  split; [|split]; unfold Scenarios.three_swept; rewrite Hfinal;
    vm_compute; reflexivity.
Defined.

(** *** Invariants of a run *)

Section Invariants.
Variable cwd : string.
Variable lo : Z.

Lemma wf_same st st' :
  objs st' = objs st -> next st' = next st ->
  baileysSessions st' = baileysSessions st ->
  wf cwd st -> wf cwd st'.
Proof.
  intros Ho Hn Hm [Ha Hmap Hk]. split; rewrite ?Ho, ?Hn, ?Hm; done.
Qed.

Lemma wf_assign r f st :
  (forall s, mcpSessionId (f s) = mcpSessionId s) ->
  (forall s, socket (f s) = socket s) ->
  (forall s, stateDir (f s) = stateDir s) ->
  (forall s, 0 <= retryCount s <= MAX_RETRIES ->
             0 <= retryCount (f s) <= MAX_RETRIES) ->
  wf cwd st -> wf cwd (assign r f st).
Proof.
  intros Hid Hsock Hdir Hretry [Ha Hmap Hk]. split.
  - intros ref c Hc. rewrite lookup_assign in Hc.
    destruct (decide (r = ref)) as [->|Hne]; [|by apply Ha].
    destruct (objs st !! ref) as [c0|] eqn:Hc0; [|done].
    injection Hc as <-. destruct (Ha ref c0 Hc0) as (? & ? & ? & ?).
    simpl. rewrite Hid, Hsock, Hdir. auto.
  - intros id ref Hget. destruct (Hmap id ref Hget) as (c0 & Hc0 & Hid0).
    rewrite lookup_assign, Hc0.
    destruct (decide (r = ref)); simpl; eexists; split; try reflexivity;
      simpl; by rewrite ?Hid.
  - done.
Qed.

Lemma wf_touch r t st : wf cwd st -> wf cwd (assign r (set_lastActivityTime t) st).
Proof. by apply wf_assign. Qed.

Lemma wf_set_qrCode r q st : wf cwd st -> wf cwd (assign r (set_qrCode q) st).
Proof. by apply wf_assign. Qed.

Lemma wf_set_retryCount r n st :
  0 <= n <= MAX_RETRIES -> wf cwd st -> wf cwd (assign r (set_retryCount n) st).
Proof. intros Hn. by apply wf_assign. Qed.

Lemma wf_delete id st :
  wf cwd st -> wf cwd (set_baileysSessions (JsMap.delete id (baileysSessions st)) st).
Proof.
  intros [Ha Hmap Hk]. split; simpl.
  - done.
  - intros id' ref Hget. destruct (decide (id = id')) as [->|Hne].
    + by rewrite JsMapFacts.get_delete_eq in Hget.
    + rewrite JsMapFacts.get_delete_ne in Hget by done. by apply Hmap.
  - by apply JsMapFacts.NoDup_delete.
Qed.

Lemma wf_reset id ref st :
  JsMap.get id (baileysSessions st) = Some ref ->
  wf cwd st ->
  wf cwd (set_baileysSessions (JsMap.set id ref (baileysSessions st)) st).
Proof.
  intros Hget Hwf. rewrite JsMapFacts.get_set_id by done. by destruct st.
Qed.

Lemma wf_getOrCreate now o id cb opts st :
  wf cwd st -> wf cwd (fst (getOrCreateBaileysSession cwd now o id cb opts st)).
Proof.
  intros Hwf. unfold getOrCreateBaileysSession.
  destruct (JsMap.get id (baileysSessions st)) as [ref|] eqn:Hget.
  - destruct (objs st !! ref) as [c|]; [|done]. simpl.
    pose proof (wf_touch ref now st Hwf) as Hwf1.
    destruct (qrCode (session c)) as [q|]; [|done].
    destruct (truthy_str q && ws_not_open (sock c)); [|done].
    by apply (wf_same (assign ref (set_lastActivityTime now) st)).
  - set (dir := path_join (AUTH_STATE_BASE_DIR cwd) ("session_" +:+ id)).
    destruct (authError o); [by apply (wf_same st)|].
    destruct (socketError o).
    { simpl. destruct (fs st !! dir); by apply (wf_same st). }
    destruct Hwf as [Ha Hmap Hk].
    assert (Hfresh : forall ref c, objs st !! ref = Some c -> next st <> ref).
    { intros ref c Hc. destruct (Ha ref c Hc) as (? & _). lia. }
    simpl. destruct (fs st !! dir) as [[cr|]|]; simpl;
      (split; simpl; [| |by apply JsMapFacts.NoDup_set]).
    all: try (intros ref c Hc; destruct (decide (next st = ref)) as [<-|Hne];
              [ rewrite lookup_insert_eq in Hc; injection Hc as <-; simpl;
                unfold MAX_RETRIES; repeat split; try done; lia
              | rewrite lookup_insert_ne in Hc by done;
                destruct (Ha ref c Hc) as (? & ? & ? & ?);
                repeat split; auto; lia ]).
    all: intros id' ref Hg; destruct (decide (id = id')) as [<-|Hne];
      [ rewrite JsMapFacts.get_set_eq in Hg; injection Hg as <-;
        rewrite lookup_insert_eq; by eexists
      | rewrite JsMapFacts.get_set_ne in Hg by done;
        destruct (Hmap id' ref Hg) as (c & Hc & Hid);
        exists c; split; [|done];
        rewrite lookup_insert_ne; [done|by eapply Hfresh] ].
Qed.

Lemma wf_getBaileysSocket now id st :
  wf cwd st -> wf cwd (fst (getBaileysSocket now id st)).
Proof.
  intros Hwf. unfold getBaileysSocket.
  destruct (JsMap.get id (baileysSessions st)) as [ref|]; [|done].
  destruct (objs st !! ref); [|done]. by apply wf_touch.
Qed.

Lemma wf_remove rmError id del st :
  wf cwd st -> wf cwd (fst (removeBaileysSession rmError id del st)).
Proof.
  intros Hwf. unfold removeBaileysSession.
  destruct (JsMap.get id (baileysSessions st)) as [ref|]; [|done].
  destruct (objs st !! ref) as [c|]; [|done].
  destruct (WA.logoutError (sock c)); [destruct (WA.endError (sock c))|];
    try (by apply (wf_same st));
    (destruct del; [destruct rmError|]; simpl;
     (eapply wf_same; [| | |apply (wf_delete id st Hwf)]; done)).
Qed.

Lemma wf_sweep now maxIdle entries st :
  wf cwd st -> wf cwd (fst (sweep now maxIdle entries st)).
Proof.
  revert st. induction entries as [|[id ref] rest IH]; intros st Hwf; [done|].
  cbn [sweep].
  destruct (JsMap.get id (baileysSessions st)); [|by apply IH].
  destruct (objs st !! ref) as [c|]; [|by apply IH].
  destruct (now - lastActivityTime (session c) >? maxIdle); [|by apply IH].
  pose proof (wf_remove None id false st Hwf) as Hwf1.
  destruct (removeBaileysSession None id false st) as [st1 [u|e]]; [|done].
  by apply IH.
Qed.

Lemma wf_on_connection_update now rmError h update st :
  wf cwd st -> wf cwd (on_connection_update lo now rmError h update st).
Proof.
  intros Hwf. unfold on_connection_update.
  destruct (objs st !! h) as [closure|]; [|done].
  set (st1 := assign h (set_lastActivityTime now) st).
  assert (Hwf1 : wf cwd st1) by (by apply wf_touch).
  match goal with
  | |- context [match WA.qr update with Some _ => _ | None => _ end] =>
      set (st2 := match WA.qr update with Some _ => _ | None => _ end)
  end.
  assert (Hwf2 : wf cwd st2).
  { subst st2. destruct (WA.qr update) as [q|]; [|done].
    destruct (truthy_str q); [|done].
    eapply wf_same; [| | |apply (wf_set_qrCode h (Some q) st1 Hwf1)]; done. }
  clearbody st2. clear Hwf1 st1.
  destruct (WA.connection update) as [conn|]; [|done].
  destruct (String.eqb conn "close").
  - match goal with
    | |- context [call ?c st2] => set (st3 := call c st2)
    end.
    assert (Hwf3 : wf cwd st3) by (by apply (wf_same st2)).
    clearbody st3.
    destruct (isLoggedOut lo (WA.lastDisconnect update)).
    { destruct (JsMap.get _ (baileysSessions st3)) as [ref|]; [|done].
      destruct (objs st3 !! ref); [|done]. by apply (wf_same st3). }
    destruct (isRestartRequired (WA.lastDisconnect update)); [|done].
    destruct (JsMap.get (mcpSessionId (session closure)) (baileysSessions st3))
      as [cur|] eqn:Hcur; [|done].
    destruct (objs st3 !! cur) as [currentSession|] eqn:Hobj; [|done].
    destruct (retryCount (session currentSession) <? MAX_RETRIES) eqn:Hlt; [|done].
    apply Z.ltb_lt in Hlt.
    destruct (wf_alloc _ _ Hwf3 cur currentSession Hobj) as (_ & _ & _ & Hr).
    eapply wf_same; [| | |
      apply (wf_reset (mcpSessionId (session closure)) cur
               (assign cur (set_retryCount (retryCount (session currentSession) + 1))
                  st3))]; try done.
    apply wf_set_retryCount; [lia|done].
  - destruct (String.eqb conn "open"); [|done].
    match goal with
    | |- context [assign h (set_qrCode None) ?x] => set (st3 := x)
    end.
    assert (Hwf3 : wf cwd st3).
    { subst st3.
      destruct (JsMap.get (mcpSessionId (session closure)) (baileysSessions st2))
        as [cur|] eqn:Hcur; [|done].
      apply (wf_reset _ cur (assign cur (set_retryCount 0) st2)); [done|].
      apply wf_set_retryCount; [unfold MAX_RETRIES; lia|done]. }
    clearbody st3.
    pose proof (wf_set_qrCode h None st3 Hwf3) as Hwf4.
    set (st4 := assign h (set_qrCode None) st3) in *. clearbody st4.
    destruct (JsMap.get (mcpSessionId (session closure)) (baileysSessions st4))
      as [r|].
    + apply (wf_same (assign r (set_qrCode None) st4)); try done.
      by apply wf_set_qrCode.
    + by apply (wf_same st4).
Qed.

Lemma upsert_frame (cb : nat) (id : string) (msgs : list WA.WAMessage) (acc : State) :
  let st' := foldl (fun a msg => if wanted msg
                                 then call (onMessage cb msg id) a else a)
               acc msgs in
  objs st' = objs acc /\ next st' = next acc
  /\ baileysSessions st' = baileysSessions acc.
Proof.
  revert acc. induction msgs as [|msg msgs IH]; intros acc; simpl; [done|].
  destruct (IH (if wanted msg then call (onMessage cb msg id) acc else acc))
    as (Ho & Hn & Hm).
  simpl in Ho, Hn, Hm. rewrite Ho, Hn, Hm. by destruct (wanted msg).
Qed.

Lemma on_messages_upsert_frame h m st :
  objs (on_messages_upsert h m st) = objs st
  /\ next (on_messages_upsert h m st) = next st
  /\ baileysSessions (on_messages_upsert h m st) = baileysSessions st.
Proof.
  unfold on_messages_upsert. destruct (objs st !! h) as [closure|]; [|done].
  destruct (WA.messages m) as [msgs|]; [|done].
  destruct (0 <? length msgs)%nat; [|done]. apply upsert_frame.
Qed.

Lemma wf_fire_timer now o st : wf cwd st -> wf cwd (fire_timer cwd now o st).
Proof.
  intros Hwf. unfold fire_timer. destruct (timers st) as [|t rest]; [done|].
  apply wf_getOrCreate.
  apply (wf_delete (t_mcpSessionId t) (set_timers rest st)).
  by apply (wf_same st).
Qed.

Lemma wf_initial : wf cwd initial.
Proof.
  split; simpl.
  - intros ref c H. by rewrite lookup_empty in H.
  - intros id ref H. discriminate H.
  - constructor.
Qed.

(** Every event keeps the invariant. *)
Lemma wf_resume_removal n st : wf cwd st -> wf cwd (resume_removal n st).
Proof.
  intros Hwf.
  destruct (resume_removal_frame n st) as (Ho & Hn & _ & _ & [Hm|(r & _ & Hm)]).
  - by apply (wf_same st).
  - eapply wf_same; [| | |apply (wf_delete (r_mcpSessionId r) st Hwf)]; done.
Qed.

Lemma wf_step now e st : wf cwd st -> wf cwd (step cwd lo now e st).
Proof.
  intros Hwf.
  destruct e as [o id cb opts|id|rmError id del|maxIdle|rmError h update|h m|h c|o|n];
    simpl.
  - by apply wf_getOrCreate.
  - by apply wf_getBaileysSocket.
  - by apply wf_remove.
  - by apply wf_sweep.
  - by apply wf_on_connection_update.
  - destruct (on_messages_upsert_frame h m st) as (? & ? & ?).
    by apply (wf_same st).
  - unfold on_creds_update. destruct (objs st !! h); [|done].
    by apply (wf_same st).
  - by apply wf_fire_timer.
  - by apply wf_resume_removal.
Qed.

Lemma wf_run events st : wf cwd st -> wf cwd (run cwd lo events st).
Proof.
  revert st. induction events as [|[now e] events IH]; intros st Hwf; [done|].
  apply IH. by apply wf_step.
Qed.

(** In every state of a run from the empty module state, every retry count
    is between 0 and [MAX_RETRIES]. *)
Lemma retryCount_bounds events ref c :
  objs (run cwd lo events initial) !! ref = Some c ->
  0 <= retryCount (session c) <= MAX_RETRIES.
Proof.
  intros Hc. by destruct (wf_alloc _ _ (wf_run events initial wf_initial) ref c Hc)
              as (_ & _ & _ & ?).
Qed.

Lemma quiet_refl st : quiet st st.
Proof. intros ref c Hc. right. by exists c. Qed.

Lemma quiet_trans a b c : quiet a b -> quiet b c -> quiet a c.
Proof.
  intros Hab Hbc ref c' Hc'. destruct (Hbc ref c' Hc') as [?|(cb & Hcb & Heq)]; [by left|].
  rewrite Heq. by apply Hab.
Qed.

Lemma quiet_same st st' : objs st' = objs st -> quiet st st'.
Proof. intros Ho ref c Hc. right. exists c. by rewrite <- Ho. Qed.

Lemma quiet_assign r f st :
  (forall s, retryCount (f s) = retryCount s \/ retryCount (f s) = 0) ->
  quiet st (assign r f st).
Proof.
  intros Hf ref c' Hc'. rewrite lookup_assign in Hc'.
  destruct (decide (r = ref)) as [->|Hne]; [|right; by exists c'].
  destruct (objs st !! ref) as [c0|]; [|done]. injection Hc' as <-. simpl.
  destruct (Hf (session c0)) as [Heq|Hz]; [right; by exists c0|by left].
Qed.

Lemma quiet_insert h cell st st' :
  objs st' = <[h := cell]> (objs st) ->
  retryCount (session cell) = 0 ->
  quiet st st'.
Proof.
  intros Ho Hz ref c' Hc'. rewrite Ho in Hc'.
  destruct (decide (h = ref)) as [->|Hne].
  - rewrite lookup_insert_eq in Hc'. injection Hc' as <-. by left.
  - rewrite lookup_insert_ne in Hc' by done. right. by exists c'.
Qed.

Lemma quiet_getOrCreate now o id cb opts st :
  quiet st (fst (getOrCreateBaileysSession cwd now o id cb opts st)).
Proof.
  unfold getOrCreateBaileysSession.
  destruct (JsMap.get id (baileysSessions st)) as [ref|].
  - destruct (objs st !! ref) as [c|]; [|apply quiet_refl]. simpl.
    apply (quiet_trans _ (assign ref (set_lastActivityTime now) st));
      [apply quiet_assign; by left|].
    apply quiet_same.
    destruct (qrCode (session c)) as [q|]; [|done].
    by destruct (truthy_str q && ws_not_open (sock c)).
  - destruct (authError o); [by apply quiet_same|].
    destruct (socketError o).
    { apply quiet_same. simpl. by destruct (fs st !! _). }
    simpl. destruct (fs st !! _) as [[cr|]|]; simpl;
      (eapply quiet_insert; [reflexivity|reflexivity]).
Qed.

Lemma removeBaileysSession_objs rmError id del st :
  objs (fst (removeBaileysSession rmError id del st)) = objs st.
Proof.
  unfold removeBaileysSession.
  destruct (JsMap.get id (baileysSessions st)) as [ref|]; [|done].
  destruct (objs st !! ref) as [c|]; [|done].
  destruct (WA.logoutError (sock c)); [destruct (WA.endError (sock c))|];
    try done; by (destruct del; [destruct rmError|]).
Qed.

Lemma sweep_objs now maxIdle entries st :
  objs (fst (sweep now maxIdle entries st)) = objs st.
Proof.
  revert st. induction entries as [|[id ref] rest IH]; intros st; [done|].
  cbn [sweep].
  destruct (JsMap.get id (baileysSessions st)); [|apply IH].
  destruct (objs st !! ref) as [c|]; [|apply IH].
  destruct (now - lastActivityTime (session c) >? maxIdle); [|apply IH].
  pose proof (removeBaileysSession_objs None id false st) as Ho.
  destruct (removeBaileysSession None id false st) as [st1 [u|e]]; [|done].
  simpl in Ho. by rewrite IH.
Qed.

(** X2. The retry count of a session object goes up only in a close that is
    classified as "restart required": every other event leaves each count as
    it was or at 0. *)
Lemma retryCount_up_only_on_restart now e st :
  restart_close lo e = false -> quiet st (step cwd lo now e st).
Proof.
  intros Hno.
  destruct e as [o id cb opts|id|rmError id del|maxIdle|rmError h update|h m|h c|o|n];
    simpl.
  - apply quiet_getOrCreate.
  - unfold getBaileysSocket.
    destruct (JsMap.get id (baileysSessions st)) as [ref|];
      [|apply quiet_refl].
    destruct (objs st !! ref); [|apply quiet_refl].
    apply quiet_assign. by left.
  - apply quiet_same, removeBaileysSession_objs.
  - apply quiet_same, sweep_objs.
  - unfold on_connection_update.
    destruct (objs st !! h) as [closure|]; [|apply quiet_refl].
    set (st1 := assign h (set_lastActivityTime now) st).
    assert (Hq1 : quiet st st1) by (apply quiet_assign; by left).
    match goal with
    | |- context [match WA.qr update with Some _ => _ | None => _ end] =>
        set (st2 := match WA.qr update with Some _ => _ | None => _ end)
    end.
    assert (Hq2 : quiet st st2).
    { subst st2. destruct (WA.qr update) as [q|]; [|done].
      destruct (truthy_str q); [|done].
      apply (quiet_trans _ st1); [done|].
      apply (quiet_trans _ (assign h (set_qrCode (Some q)) st1));
        [apply quiet_assign; by left | by apply quiet_same]. }
    clearbody st2. clear Hq1 st1.
    simpl in Hno. destruct (WA.connection update) as [conn|]; [|done].
    destruct (String.eqb conn "close").
    + apply (quiet_trans _ st2); [done|].
      destruct (isLoggedOut lo (WA.lastDisconnect update)).
      * apply quiet_same.
        destruct (JsMap.get _ _) as [ref|]; [|done].
        by destruct (objs _ !! ref).
      * simpl in Hno. rewrite Hno. by apply quiet_same.
    + destruct (String.eqb conn "open"); [|done].
      apply (quiet_trans _ st2); [done|].
      match goal with
      | |- context [assign h (set_qrCode None) ?x] => set (st3 := x)
      end.
      assert (Hq3 : quiet st2 st3).
      { subst st3.
        destruct (JsMap.get (mcpSessionId (session closure)) (baileysSessions st2))
          as [cur|]; [|apply quiet_refl].
        apply (quiet_trans _ (assign cur (set_retryCount 0) st2));
          [apply quiet_assign; by right | by apply quiet_same]. }
      clearbody st3. apply (quiet_trans _ st3); [done|].
      apply (quiet_trans _ (assign h (set_qrCode None) st3));
        [apply quiet_assign; by left|].
      set (st4 := assign h (set_qrCode None) st3). clearbody st4.
      destruct (JsMap.get (mcpSessionId (session closure)) (baileysSessions st4))
        as [r|]; [|by apply quiet_same].
      apply (quiet_trans _ (assign r (set_qrCode None) st4));
        [apply quiet_assign; by left | by apply quiet_same].
  - apply quiet_same. by destruct (on_messages_upsert_frame h m st).
  - unfold on_creds_update. destruct (objs st !! h); [|apply quiet_refl].
    by apply quiet_same.
  - unfold fire_timer. destruct (timers st) as [|t rest]; [apply quiet_refl|].
    eapply quiet_trans; [|apply quiet_getOrCreate]. by apply quiet_same.
  - apply quiet_same. by destruct (resume_removal_frame n st).
Qed.

(** X3. The ['open'] update sets the retry count of the tenant's entry to 0. *)
Lemma open_resets_retryCount now rmError h closure cur c st :
  objs st !! h = Some closure ->
  JsMap.get (mcpSessionId (session closure)) (baileysSessions st) = Some cur ->
  objs st !! cur = Some c ->
  (retryCount <$>
     deref cur (on_connection_update lo now rmError h connection_open st))
  = Some 0.
Proof.
  intros Hclo Hget Hobj. unfold on_connection_update. rewrite Hclo. simpl.
  rewrite Hget. simpl. rewrite JsMapFacts.get_set_eq.
  unfold deref. simpl.
  destruct (decide (h = cur)) as [->|Hne].
  - by rewrite !lookup_alter_eq, Hobj.
  - rewrite lookup_alter_eq, lookup_alter_ne by done.
    rewrite lookup_alter_eq, lookup_alter_ne by done.
    by rewrite Hobj.
Qed.

End Invariants.

(** X4. Whatever the retry count was: when a retry timer fires and the
    re-creation succeeds, the tenant is back in the map with a new session
    object whose retry count is 0. *)
Lemma timer_resets_retryCount cwd now o t rest st :
  timers st = t :: rest ->
  authError o = None ->
  socketError o = None ->
  let st' := fire_timer cwd now o st in
  JsMap.get (t_mcpSessionId t) (baileysSessions st') = Some (next st)
  /\ (retryCount <$> deref (next st) st') = Some 0.
Proof.
  intros Ht Hauth Hsock st'. subst st'. unfold fire_timer. rewrite Ht.
  unfold getOrCreateBaileysSession. cbn [baileysSessions set_baileysSessions].
  rewrite JsMapFacts.get_delete_eq, Hauth, Hsock. simpl.
  rewrite JsMapFacts.get_set_eq. unfold deref. simpl.
  destruct (fs st !! _) as [[cr|]|]; simpl; by rewrite lookup_insert_eq.
Qed.

(** C1 (what the code does). After each of three consecutive
    "restart required" closes the timer re-creates the session with
    [retryCount: 0]; so after the third re-creation tenant [t1] is in the
    map again with [retryCount] 0 and three timers have been scheduled, and
    a fourth such close schedules a fourth re-creation: the bound
    [MAX_RETRIES] is never reached. *)
Theorem retry_bound_not_enforced :
  JsMap.has "t1" (baileysSessions Scenarios.after_three_rounds) = true
  /\ Scenarios.retryCount_of "t1" Scenarios.after_three_rounds = Some 0
  /\ length (Scenarios.scheduled Scenarios.after_three_rounds) = 3%nat
  /\ timers Scenarios.after_three_rounds = []
  /\ length (timers (Scenarios.t1_closes 40000 Scenarios.after_three_rounds)) = 1%nat
  /\ length (Scenarios.scheduled
               (Scenarios.t1_closes 40000 Scenarios.after_three_rounds)) = 4%nat.
Proof. vm_compute. repeat split; reflexivity. Qed.

End BaileysSessionManagerFacts.

(** ** The event adapter *)

Module AdapterFacts.
Import Adapter.

Ltac case_populated k :=
  let E := fresh "E" in
  destruct (truthy (prop k (WA.message _))) eqn:E; cbn [andb orb negb].

Ltac media_cases :=
  unfold MediaHandler.fetch_and_store;
  repeat match goal with
         | |- context [if negb ?a || negb ?b then _ else _] =>
             destruct (negb a || negb b)
         | |- context [match MediaHandler.download ?io with _ => _ end] =>
             destruct (MediaHandler.download io)
         | |- context [match MediaHandler.writeFileError ?io with _ => _ end] =>
             destruct (MediaHandler.writeFileError io)
         | |- context [match MediaHandler.or_else ?a ?b with _ => _ end] =>
             destruct (MediaHandler.or_else a b)
         | |- context [if truthy ?c && negb _ then _ else _] =>
             destruct (truthy c)
         end;
  cbn; repeat split; try reflexivity.

(** C7 (as the code has it). When the adapter builds an envelope, its
    [type] is the tag of the first populated sub-field, in the order
    conversation, extendedTextMessage (both [text]), imageMessage,
    videoMessage, audioMessage, documentMessage, stickerMessage (each tagged
    with its own media kind), reactionMessage, locationMessage,
    contactMessage, contactsArrayMessage, and [unknown] otherwise; there is
    one [type] property; the [unknown] envelope carries the list of the
    content's keys in its [text].  The only messages for which no envelope
    is built are contacts arrays whose [contacts] cannot be mapped. *)
Theorem payload_tag (now : Z) (io : MediaHandler.MediaIO) (message : WA.WAMessage) :
  match payload_fields now io message with
  | Normal p =>
      obj_get "type" p = JStr (tag_name (classify message))
      /\ count_key "type" p = 1%nat
      /\ match classify message with
         | unknown =>
             obj_get "text" p
             = JStr ("Received an unhandled message type. Content keys: "
                     +:+ (if truthy (WA.message message)
                          then join_comma_space (keys (WA.message message))
                          else "null"))
         | _ => True
         end
  | Throw _ => classify message = contacts_array
  end.
Proof.
  unfold payload_fields, classify, populated, is_media,
    MediaHandler.downloadAndProcessMedia, MediaHandler.media_fields,
    MediaHandler.sub.
  case_populated "conversation"; [cbn; auto|].
  case_populated "extendedTextMessage"; [cbn; auto|].
  case_populated "imageMessage"; [media_cases|].
  case_populated "videoMessage"; [media_cases|].
  case_populated "audioMessage"; [media_cases|].
  case_populated "documentMessage"; [media_cases|].
  case_populated "stickerMessage"; [media_cases|].
  case_populated "reactionMessage"; [cbn; auto|].
  case_populated "locationMessage"; [cbn; auto|].
  case_populated "contactMessage"; [cbn; auto|].
  case_populated "contactsArrayMessage".
  - destruct (contacts_of _); cbn; auto.
  - cbn. auto.
Qed.

(** C7, as stated, fails: for an image message the envelope is tagged
    [image], which is none of text, media, reaction, location, contact,
    contacts_array, unknown. *)
Lemma image_message_tag :
  exists p,
    payload_fields 1700000001000 Scenarios.media_io Scenarios.image_message
    = Normal p
    /\ obj_get "type" p = JStr "image"
    /\ ~ In "image" ["text"; "media"; "reaction"; "location"; "contact";
                     "contacts_array"; "unknown"].
Proof.
  eexists. split; [vm_compute; reflexivity|]. split; [reflexivity|].
  simpl. intros H. repeat destruct H as [H|H]; try discriminate H. exact H.
Qed.

(** In the media branch the payload's [media] object carries the
    [filePath] of the processed media under [_serverFilePath]. *)
Lemma media_carries_server_path now io message info p :
  populated "conversation" message = false ->
  populated "extendedTextMessage" message = false ->
  is_media message = true ->
  MediaHandler.downloadAndProcessMedia io message true = Some info ->
  payload_fields now io message = Normal p ->
  prop "_serverFilePath" (obj_get "media" p)
  = opt_str (MediaHandler.filePath info).
Proof.
  unfold populated, payload_fields, MediaHandler.sub.
  intros -> -> -> ->.
  match goal with
  | |- context [if ?b then _ else _] => destruct b
  end; intros [= <-]; reflexivity.
Qed.

(** C8 (what the code does). For the image message forwarded to client
    [c1], the one frame written to the client's stream contains the
    [_serverFilePath] property with the path of the temporary file on the
    server. *)
Theorem server_path_reaches_client :
  exists frame,
    McpEventEmitter.sent_to "c1" Scenarios.image_forwarded = [frame]
    /\ includes Scenarios.server_path_property frame = true.
Proof. eexists. split; vm_compute; reflexivity. Qed.

End AdapterFacts.

(** ** The action handler *)

Module McpMessageHandlerFacts.
Import McpSessionManager McpEventEmitter McpMessageHandler McpEventEmitterFacts.

Lemma obj_get_set_eq k v fields : obj_get k (obj_set k v fields) = v.
Proof.
  induction fields as [|[k' v'] fields IH]; simpl.
  - by rewrite String.eqb_refl.
  - destruct (String.eqb k k') eqn:E; simpl; rewrite ?String.eqb_refl, ?E; auto.
Qed.

Lemma obj_get_set_ne k k' v fields :
  k <> k' -> obj_get k' (obj_set k v fields) = obj_get k' fields.
Proof.
  intros Hne. induction fields as [|[k0 v0] fields IH]; simpl.
  - destruct (String.eqb k' k) eqn:E; [|done].
    apply String.eqb_eq in E. congruence.
  - destruct (String.eqb k k0) eqn:E; simpl.
    + apply String.eqb_eq in E; subst k0.
      destruct (String.eqb k' k) eqn:E'; [|done].
      apply String.eqb_eq in E'. congruence.
    + by rewrite IH.
Qed.

Lemma emits_app now id l1 l2 w :
  emits now id (l1 ++ l2) w = emits now id l2 (emits now id l1 w).
Proof. unfold emits. apply foldl_app. Qed.

Lemma emits_spec now id events w :
  emitted (emits now id events w)
  = emitted w ++ map (fun e => (id, fst e, snd e)) events
  /\ sent_to id (emits now id events w)
     = sent_to id w
       ++ (if deliverable id w
           then map (fun e => eventString (fst e) (snd e)) events else [])
  /\ deliverable id (emits now id events w) = deliverable id w.
Proof.
  revert w. induction events as [|[ev data] events IH]; intros w.
  - simpl. destruct (deliverable id w); by rewrite !app_nil_r.
  - change (emits now id ((ev, data) :: events) w)
      with (emits now id events (fst (sendEventToClient now id ev data w))).
    destruct (IH (fst (sendEventToClient now id ev data w))) as (He & Hs & Hd).
    rewrite He, Hs, Hd, sendEventToClient_emitted, sendEventToClient_sent,
      sendEventToClient_deliverable.
    simpl. rewrite <- !app_assoc.
    by destruct (deliverable id w).
Qed.

Lemma sendTextMessage_emits now io id jid text s :
  exists pre,
    world (fst (sendTextMessage now io id jid text s))
    = emits now id (map baileys_error pre) (world s).
Proof.
  unfold sendTextMessage.
  destruct (BaileysSessionManager.getBaileysSocket now id (manager s))
    as [m1 socket].
  destruct socket as [h|]; [|by eexists [_]].
  destruct (jid_includes_at jid) as [[]|]; [| by eexists [_] | by eexists [_]].
  destruct (sendMessage io) as [sent|]; [|by eexists [_]].
  destruct (nullish sent); [by exists []|].
  destruct (key_id sent); [by exists [] | by eexists [_]].
Qed.

Lemma sendResponse_world now id action ev data s :
  world (sendResponse now id action ev data s)
  = emits now id
      [(ev, JObj (obj_set "_requestId" (requestId action)
                    (obj_set "_originalActionType" (JStr (actionType action))
                       (spread data))))]
      (world s).
Proof. reflexivity. Qed.

Lemma response_tags action data :
  let p := obj_set "_requestId" (requestId action)
             (obj_set "_originalActionType" (JStr (actionType action))
                (spread data)) in
  obj_get "_originalActionType" p = JStr (actionType action)
  /\ obj_get "_requestId" p = requestId action.
Proof.
  intros p. subst p. split.
  - rewrite obj_get_set_ne by done. apply obj_get_set_eq.
  - apply obj_get_set_eq.
Qed.

(** What [try_action] has emitted when it returns or throws. *)
Lemma try_action_emits now io id action s :
  exists pre,
    match try_action now io id action s with
    | (s1, Normal _) =>
        exists data,
          world s1
          = emits now id
              (map baileys_error pre ++ [("mcp_action_success", JObj data)])
              (world s)
          /\ obj_get "_originalActionType" data = JStr (actionType action)
          /\ obj_get "_requestId" data = requestId action
    | (s1, Throw _) => world s1 = emits now id (map baileys_error pre) (world s)
    end.
Proof.
  assert (Hsuccess : forall pre s1 text mid jid,
            world s1 = emits now id (map baileys_error pre) (world s) ->
            exists data,
              world (sendResponse now id action "mcp_action_success"
                       (success_data text mid jid) s1)
              = emits now id
                  (map baileys_error pre ++ [("mcp_action_success", JObj data)])
                  (world s)
              /\ obj_get "_originalActionType" data = JStr (actionType action)
              /\ obj_get "_requestId" data = requestId action).
  { intros pre s1 text mid jid Hw. eexists. split.
    - rewrite sendResponse_world, Hw, emits_app. reflexivity.
    - apply response_tags. }
  unfold try_action.
  destruct (String.eqb (actionType action) "SEND_TEXT_MESSAGE").
  - destruct (prop "text" (payload action)); try (by exists []).
    destruct (negb (truthy (prop "recipientJid" (payload action))));
      [by exists []|].
    destruct (sendTextMessage_emits now io id
                (prop "recipientJid" (payload action)) s0 s) as [pre Hpre].
    destruct (sendTextMessage now io id (prop "recipientJid" (payload action)) s0 s)
      as [s1 sentMsg]. simpl in Hpre. exists pre.
    destruct (truthy sentMsg); [|done].
    destruct (key_id sentMsg); [|done]. by apply Hsuccess.
  - destruct (String.eqb (actionType action) "SEND_IMAGE_MESSAGE");
      [|by exists []].
    destruct (negb (truthy (prop "recipientJid" (payload action)))
              || negb (truthy (prop "mediaSource" (payload action))));
      [by exists []|].
    exists [].
    match goal with
    | |- context [match ?src with Normal _ => _ | Throw _ => _ end] =>
        destruct src as [mediaBufferSource|]; [|done]
    end.
    destruct (prepareMediaForSending io mediaBufferSource "image" _ _ _); [|done].
    destruct (BaileysSessionManager.getBaileysSocket now id (manager s))
      as [m1 socket].
    destruct socket; [|done].
    destruct (sendMessage io) as [sentImageMsg|]; [|done].
    destruct (truthy sentImageMsg); [|done].
    destruct (key_id sentImageMsg); [|done]. by apply (Hsuccess []).
Qed.

(** C5 (as the code has it). Whatever the action is (unknown type,
    invalid payload, failed send included), the handler returns without an
    exception and hands the broadcaster, after at most some [baileys_error]
    events, exactly one terminal event for the client: [mcp_action_success] or
    [mcp_action_error], whose payload carries [_originalActionType] and
    [_requestId] of the action.  These events are written to the client's
    stream exactly when the client's session is registered with an open
    stream whose write goes through; otherwise nothing is written. *)
Theorem handleMcpClientAction_terminal (now : Z) (io : ActionIO) (id : string)
    (action : McpClientAction) (s : Sys) :
  let r := handleMcpClientAction now io id action s in
  snd r = Normal tt
  /\ exists pre ev data,
       emitted (world (fst r))
       = emitted (world s)
         ++ map (fun d => (id, "baileys_error", d)) pre ++ [(id, ev, JObj data)]
       /\ (ev = "mcp_action_success" \/ ev = "mcp_action_error")
       /\ obj_get "_originalActionType" data = JStr (actionType action)
       /\ obj_get "_requestId" data = requestId action
       /\ sent_to id (world (fst r))
          = sent_to id (world s)
            ++ (if deliverable id (world s)
                then map (eventString "baileys_error") pre
                     ++ [eventString ev (JObj data)]
                else []).
Proof.
  intros r. subst r. unfold handleMcpClientAction.
  destruct (try_action_emits now io id action s) as [pre Hpre].
  assert (Hfinish : forall w' ev data,
            w' = emits now id (map baileys_error pre ++ [(ev, JObj data)]) (world s) ->
            emitted w'
            = emitted (world s)
              ++ map (fun d => (id, "baileys_error", d)) pre ++ [(id, ev, JObj data)]
            /\ sent_to id w'
               = sent_to id (world s)
                 ++ (if deliverable id (world s)
                     then map (eventString "baileys_error") pre
                          ++ [eventString ev (JObj data)]
                     else [])).
  { intros w' ev data ->.
    destruct (emits_spec now id (map baileys_error pre ++ [(ev, JObj data)])
                (world s)) as (He & Hs & _).
    rewrite He, Hs, !map_app, !map_map. simpl. done. }
  destruct (try_action now io id action s) as [s1 [u|error]].
  - split; [done|]. destruct Hpre as (data & Hw & Ht & Hr).
    exists pre, "mcp_action_success", data.
    destruct (Hfinish _ _ _ Hw) as [He Hs]. auto 10.
  - split; [done|].
    set (reply := JObj [("message",
                         JStr ("Error processing action '"
                               +:+ actionType action +:+ "': "
                               +:+ err_message error));
                        ("details",
                         MediaHandler.or_else (err_details error) (JObj []))]).
    set (data := obj_set "_requestId" (requestId action)
                   (obj_set "_originalActionType" (JStr (actionType action))
                      (spread reply))).
    exists pre, "mcp_action_error", data.
    destruct (Hfinish (world (sendResponse now id action "mcp_action_error"
                               reply s1)) "mcp_action_error" data) as [He Hs].
    { rewrite sendResponse_world, Hpre, emits_app. reflexivity. }
    split; [exact He|]. split; [by right|].
    split; [|split; [|exact Hs]]; apply response_tags.
Qed.

(** C5, as stated, fails: the action is handled without an exception and one
    [mcp_action_error] is handed to the broadcaster, but no session is
    registered for the client, so nothing at all is written to it. *)
Lemma action_reply_not_delivered :
  snd Scenarios.ping_handled = Normal tt
  /\ length (emitted (world (fst Scenarios.ping_handled))) = 1%nat
  /\ sessions (world (fst Scenarios.ping_handled)) = ∅
  /\ sent_to "c1" (world (fst Scenarios.ping_handled)) = [].
Proof. vm_compute. repeat split; reflexivity. Qed.

End McpMessageHandlerFacts.

(** ** Contracts of the protocol-session manager *)

Module ManagerContracts.
Import BaileysSessionManager BaileysSessionManagerFacts.

(** X1. The invariant of the module holds in every state of every run from the
    empty state: each tenant has at most one entry, every entry points to an
    allocated session object of that tenant, which wraps its own socket,
    keeps its credentials in the directory derived from the tenant id, and
    has a retry count between 0 and [MAX_RETRIES]. *)
Theorem reachable_wf (cwd : string) (lo : Z) (events : list (Z * Event)) :
  wf cwd (run cwd lo events initial).
Proof. apply wf_run, wf_initial. Qed.

Lemma retryCount_up_only_on_restart_witness :
  restart_close Scenarios.loggedOut
    (ConnectionUpdate None 0%nat connection_open) = false
  /\ quiet Runs.t1_retrying
       (step Scenarios.cwd Scenarios.loggedOut 12000
          (ConnectionUpdate None 0%nat connection_open) Runs.t1_retrying).
Proof.
  split; [reflexivity|].
  apply (retryCount_up_only_on_restart Scenarios.cwd Scenarios.loggedOut 12000
           (ConnectionUpdate None 0%nat connection_open) Runs.t1_retrying).
  reflexivity.
Defined.

Lemma open_resets_retryCount_witness :
  objs Runs.t1_retrying !! 0%nat = Some Runs.t1_retrying_cell
  /\ retryCount (session Runs.t1_retrying_cell) = 1
  /\ (retryCount <$>
        deref 0 (on_connection_update Scenarios.loggedOut 12000 None 0%nat
                   connection_open Runs.t1_retrying)) = Some 0.
Proof.
  assert (H : objs Runs.t1_retrying !! 0%nat = Some Runs.t1_retrying_cell)
    by (vm_compute; reflexivity).
  split; [exact H|]. split; [reflexivity|].
  apply (open_resets_retryCount Scenarios.loggedOut 12000 None 0%nat
           Runs.t1_retrying_cell 0%nat Runs.t1_retrying_cell Runs.t1_retrying H);
    [vm_compute; reflexivity | exact H].
Defined.

Lemma timer_resets_retryCount_witness :
  Scenarios.retryCount_of "t1" Runs.t1_retrying = Some 1
  /\ JsMap.get "t1"
       (baileysSessions
          (fire_timer Scenarios.cwd 13000 Scenarios.created Runs.t1_retrying))
     = Some 1%nat
  /\ (retryCount <$>
        deref 1 (fire_timer Scenarios.cwd 13000 Scenarios.created
                   Runs.t1_retrying)) = Some 0.
Proof.
  split; [vm_compute; reflexivity|].
  apply (timer_resets_retryCount Scenarios.cwd 13000 Scenarios.created
           {| t_mcpSessionId := "t1"; t_eventCallbacks := 7%nat;
              t_currentSession := 0%nat |} [] Runs.t1_retrying);
    [vm_compute; reflexivity | reflexivity | reflexivity].
Defined.

(** How [removeBaileysSession] ends: it returns with the entry deleted, or
    it throws with the map as it was; the session objects are never
    touched. *)
Lemma removeBaileysSession_cases rmError id del st :
  let r := removeBaileysSession rmError id del st in
  objs (fst r) = objs st
  /\ timers (fst r) = timers st
  /\ calls (fst r) = calls st
  /\ ((snd r = Normal tt
       /\ baileysSessions (fst r) = JsMap.delete id (baileysSessions st))
      \/ ((exists e, snd r = Throw e)
          /\ baileysSessions (fst r) = baileysSessions st
          /\ fs (fst r) = fs st)).
Proof.
  intros r. subst r. unfold removeBaileysSession.
  destruct (JsMap.get id (baileysSessions st)) as [ref|] eqn:Hget.
  - destruct (objs st !! ref) as [c|]; [|simpl; eauto 10].
    destruct (WA.logoutError (sock c)); [destruct (WA.endError (sock c))|];
      try (simpl; eauto 10);
      (destruct del; [destruct rmError|]; simpl; auto 10).
  - simpl. repeat split; try done. left. split; [done|].
    clear -Hget. induction (baileysSessions st) as [|[k v] m IH]; [done|].
    simpl in *. destruct (String.eqb id k); [done|]. by rewrite <- IH.
Qed.

(** X7. When [removeBaileysSession] throws (the graceful [logout] and the
    fallback [end] both failed), nothing was removed: the tenant's entry is
    still in the map and the credential directories are as they were, also
    when deletion of the credentials was asked for. *)
Theorem remove_throws_keeps_entry (rmError : option string) (id : string)
    (del : bool) (st st' : State) (e : JsError) :
  removeBaileysSession rmError id del st = (st', Throw e) ->
  baileysSessions st' = baileysSessions st
  /\ fs st' = fs st
  /\ objs st' = objs st.
Proof.
  intros H.
  destruct (removeBaileysSession_cases rmError id del st)
    as (Hobjs & _ & _ & [[Hn _]|(_ & Hmap & Hfs)]);
    rewrite H in *; simpl in *; [discriminate Hn|done].
Qed.

Lemma remove_throws_keeps_entry_witness :
  removeBaileysSession None "A" true Scenarios.two_tenants
  = (libcall (end_ 0) (libcall (logout 0) Scenarios.two_tenants),
     Throw (Error "socket already destroyed"))
  /\ JsMap.has "A"
       (baileysSessions (libcall (end_ 0) (libcall (logout 0) Scenarios.two_tenants)))
     = true.
Proof.
  assert (H : removeBaileysSession None "A" true Scenarios.two_tenants
              = (libcall (end_ 0) (libcall (logout 0) Scenarios.two_tenants),
                 Throw (Error "socket already destroyed")))
    by (vm_compute; reflexivity).
  split; [exact H|].
  destruct (remove_throws_keeps_entry None "A" true Scenarios.two_tenants _ _ H)
    as (Hmap & _).
  rewrite Hmap. vm_compute. reflexivity.
Defined.

(** X8. Removing one tenant leaves every other tenant's entry in the map and
    every session object as it was. *)
Theorem remove_other_tenants (rmError : option string) (id id' : string)
    (del : bool) (st : State) :
  id <> id' ->
  JsMap.get id' (baileysSessions (fst (removeBaileysSession rmError id del st)))
  = JsMap.get id' (baileysSessions st)
  /\ objs (fst (removeBaileysSession rmError id del st)) = objs st.
Proof.
  intros Hne.
  destruct (removeBaileysSession_cases rmError id del st)
    as (Hobjs & _ & _ & [[_ Hmap]|(_ & Hmap & _)]); rewrite Hmap;
    split; try done.
  by apply JsMapFacts.get_delete_ne.
Qed.

Lemma remove_other_tenants_witness :
  "B" <> "A"
  /\ JsMap.get "A"
       (baileysSessions
          (fst (removeBaileysSession None "B" true Scenarios.two_tenants)))
     = Some 0%nat.
Proof.
  assert (H : "B" <> "A") by discriminate.
  split; [exact H|].
  destruct (remove_other_tenants None "B" "A" true Scenarios.two_tenants H)
    as [Hget _].
  rewrite Hget. vm_compute. reflexivity.
Defined.

Lemma removeBaileysSession_keeps_fs id st :
  fs (fst (removeBaileysSession None id false st)) = fs st.
Proof.
  unfold removeBaileysSession.
  destruct (JsMap.get id (baileysSessions st)) as [ref|]; [|done].
  destruct (objs st !! ref) as [c|]; [|done].
  by destruct (WA.logoutError (sock c)); [destruct (WA.endError (sock c))|].
Qed.

Lemma sweep_safe now maxIdle entries st :
  NoDup (map fst entries) ->
  (forall id ref, JsMap.get id entries = Some ref ->
                  JsMap.get id (baileysSessions st) = Some ref) ->
  let st' := fst (sweep now maxIdle entries st) in
  fs st' = fs st
  /\ objs st' = objs st
  /\ forall id,
       JsMap.get id (baileysSessions st') = JsMap.get id (baileysSessions st)
       \/ (stale now maxIdle entries (objs st) id = true
           /\ JsMap.get id (baileysSessions st') = None).
Proof.
  revert st. induction entries as [|[id0 ref0] rest IH]; intros st Hnd Hin st'.
  - subst st'. simpl. auto.
  - apply NoDup_cons in Hnd as [Hfresh Hnd].
    pose proof (JsMapFacts.get_not_key id0 rest Hfresh) as Hrest0.
    assert (Hhead : JsMap.get id0 ((id0, ref0) :: rest) = Some ref0)
      by (simpl; by rewrite String.eqb_refl).
    assert (Htail : forall id ref, JsMap.get id rest = Some ref ->
                      id <> id0
                      /\ JsMap.get id ((id0, ref0) :: rest) = Some ref).
    { intros id ref Hg. assert (id <> id0) by congruence. split; [done|].
      simpl. destruct (String.eqb id id0) eqn:E; [|done].
      apply String.eqb_eq in E. congruence. }
    assert (Hstale : forall id, id <> id0 ->
                       stale now maxIdle ((id0, ref0) :: rest) (objs st) id
                       = stale now maxIdle rest (objs st) id).
    { intros id Hne. unfold stale; simpl.
      destruct (String.eqb id id0) eqn:E; [|done].
      apply String.eqb_eq in E. congruence. }
    assert (Hskip :
              let st'' := fst (sweep now maxIdle rest st) in
              fs st'' = fs st /\ objs st'' = objs st
              /\ forall id,
                   JsMap.get id (baileysSessions st'')
                   = JsMap.get id (baileysSessions st)
                   \/ (stale now maxIdle ((id0, ref0) :: rest) (objs st) id = true
                       /\ JsMap.get id (baileysSessions st'') = None)).
    { destruct (IH st Hnd) as (Hfs & Hobjs & Hfinal).
      - intros id ref Hg. destruct (Htail id ref Hg) as [_ Hg']. by apply Hin.
      - split; [done|]. split; [done|]. intros id.
        destruct (Hfinal id) as [?|[Hst Hnone]]; [by left|].
        destruct (decide (id = id0)) as [->|Hne].
        + unfold stale in Hst. by rewrite Hrest0 in Hst.
        + right. by rewrite Hstale. }
    subst st'. cbn [sweep]. rewrite (Hin _ _ Hhead).
    destruct (objs st !! ref0) as [c|] eqn:Hc; [|exact Hskip].
    destruct (now - lastActivityTime (session c) >? maxIdle) eqn:Hidle;
      [|exact Hskip].
    clear Hskip.
    assert (Hstale0 : stale now maxIdle ((id0, ref0) :: rest) (objs st) id0 = true)
      by (unfold stale; by rewrite Hhead, Hc).
    pose proof (removeBaileysSession_keeps_fs id0 st) as Hfs1.
    destruct (removeBaileysSession_cases None id0 false st)
      as (Hobjs1 & _ & _ & Hcase).
    destruct (removeBaileysSession None id0 false st) as [st1 res].
    simpl in Hfs1, Hobjs1, Hcase.
    destruct Hcase as [[-> Hmap1]|([e ->] & Hmap1 & _)].
    + destruct (IH st1 Hnd) as (Hfs & Hobjs & Hfinal).
      { intros id ref Hg. destruct (Htail id ref Hg) as [Hne Hg'].
        rewrite Hmap1, JsMapFacts.get_delete_ne by done. by apply Hin. }
      split; [congruence|]. split; [congruence|]. intros id.
      destruct (decide (id = id0)) as [->|Hne].
      * right. split; [done|].
        destruct (Hfinal id0) as [Heq|[_ Hnone]]; [|done].
        by rewrite Heq, Hmap1, JsMapFacts.get_delete_eq.
      * rewrite Hstale by done. rewrite Hobjs1 in Hfinal.
        destruct (Hfinal id) as [Heq|?]; [left|by right].
        by rewrite Heq, Hmap1, JsMapFacts.get_delete_ne.
    + simpl. rewrite Hmap1. auto.
Qed.

(** X6. Whatever fails during a sweep, [cleanupInactiveBaileysSessions] never
    removes an entry that is not idle for longer than the threshold, never
    modifies a session object, and never deletes or changes a credential
    directory. *)
Theorem sweep_safety (now maxIdleTimeMs : Z) (st : State) :
  NoDup (map fst (baileysSessions st)) ->
  let st' := fst (cleanupInactiveBaileysSessions now maxIdleTimeMs st) in
  fs st' = fs st
  /\ objs st' = objs st
  /\ forall id,
       JsMap.get id (baileysSessions st') = JsMap.get id (baileysSessions st)
       \/ (stale now maxIdleTimeMs (baileysSessions st) (objs st) id = true
           /\ JsMap.get id (baileysSessions st') = None).
Proof.
  intros Hnd. by apply sweep_safe.
Qed.

Lemma sweep_safety_witness :
  NoDup (map fst (baileysSessions Scenarios.two_tenants))
  /\ fs (fst (cleanupInactiveBaileysSessions 1000 1800000 Scenarios.two_tenants))
     = fs Scenarios.two_tenants
  /\ JsMap.get "B"
       (baileysSessions
          (fst (cleanupInactiveBaileysSessions 1000 1800000 Scenarios.two_tenants)))
     = Some 1%nat.
Proof.
  assert (Hnd : NoDup (map fst (baileysSessions Scenarios.two_tenants))).
  { vm_compute. constructor.
    - intros H. apply elem_of_cons in H as [H|H]; [discriminate H|].
      by apply not_elem_of_nil in H.
    - constructor; [apply not_elem_of_nil | constructor]. }
  destruct (sweep_safety 1000 1800000 Scenarios.two_tenants Hnd)
    as (Hfs & _ & Hkeep).
  split; [exact Hnd|]. split; [exact Hfs|].
  destruct (Hkeep "B") as [Heq|[Hstale _]].
  - rewrite Heq. vm_compute. reflexivity.
  - vm_compute in Hstale. discriminate Hstale.
Defined.

Lemma getOrCreate_throws cwd now o id cb opts st st' e :
  getOrCreateBaileysSession cwd now o id cb opts st = (st', Throw e) ->
  baileysSessions st' = baileysSessions st
  /\ objs st' = objs st
  /\ next st' = next st
  /\ timers st' = timers st
  /\ calls st' = calls st.
Proof.
  unfold getOrCreateBaileysSession.
  destruct (JsMap.get id (baileysSessions st)) as [ref|].
  - destruct (objs st !! ref) as [c|]; [intros [= _ ?]; discriminate|].
    by intros [= <- _].
  - destruct (authError o); [by intros [= <- _]|].
    destruct (socketError o); [|intros [= _ ?]; discriminate].
    intros [= <- _]. simpl. by destruct (fs st !! _).
Qed.

(** X9. A creation that fails (the credential load or the socket factory
    throws) stores nothing: the map, the session objects, the pending timers
    and the callback history are as before the call. *)
Theorem getOrCreate_failure_stores_nothing (cwd : string) (now : Z) (o : Creation)
    (id : string) (cb : nat) (opts : json) (st st' : State) (e : JsError) :
  getOrCreateBaileysSession cwd now o id cb opts st = (st', Throw e) ->
  baileysSessions st' = baileysSessions st
  /\ objs st' = objs st
  /\ next st' = next st
  /\ timers st' = timers st
  /\ calls st' = calls st.
Proof. apply getOrCreate_throws. Qed.

Lemma getOrCreate_failure_stores_nothing_witness :
  getOrCreateBaileysSession Scenarios.cwd 20000 Runs.no_credentials "t2" 9%nat
    JUndefined Scenarios.t1_created
  = (libcall (useMultiFileAuthState "/app/.baileys_auth_state/session_t2")
       Scenarios.t1_created,
     Throw (Error "EACCES: permission denied"))
  /\ baileysSessions
       (libcall (useMultiFileAuthState "/app/.baileys_auth_state/session_t2")
          Scenarios.t1_created)
     = baileysSessions Scenarios.t1_created.
Proof.
  assert (H : getOrCreateBaileysSession Scenarios.cwd 20000 Runs.no_credentials
                "t2" 9%nat JUndefined Scenarios.t1_created
              = (libcall
                   (useMultiFileAuthState "/app/.baileys_auth_state/session_t2")
                   Scenarios.t1_created,
                 Throw (Error "EACCES: permission denied")))
    by (vm_compute; reflexivity).
  split; [exact H|].
  by destruct (getOrCreate_failure_stores_nothing _ _ _ _ _ _ _ _ _ H).
Defined.

(** X10. A close that is neither a logout nor a restart request gets no
    remediation: [onDisconnected] is called once (after [onQR], if the update
    carries a code) and the map, the credential directories, the timers and
    the library are left alone. *)
Theorem other_close_is_only_reported (lo now : Z) (rmError : option string)
    (h : nat) (closure : Cell) (update : WA.ConnectionUpdate) (st : State) :
  objs st !! h = Some closure ->
  WA.connection update = Some "close" ->
  isLoggedOut lo (WA.lastDisconnect update) = false ->
  isRestartRequired (WA.lastDisconnect update) = false ->
  let st' := on_connection_update lo now rmError h update st in
  baileysSessions st' = baileysSessions st
  /\ fs st' = fs st
  /\ timers st' = timers st
  /\ lib st' = lib st
  /\ calls st'
     = calls st
       ++ match WA.qr update with
          | Some q => if truthy_str q then [onQR (eventCallbacks closure) q] else []
          | None => []
          end
       ++ [onDisconnected (eventCallbacks closure)
             (reason_of (WA.lastDisconnect update))
             (mcpSessionId (session closure))].
Proof.
  intros Hobj Hconn Hlo Hrr st'. subst st'. unfold on_connection_update.
  rewrite Hobj, Hconn. simpl. rewrite Hlo, Hrr.
  destruct (WA.qr update) as [q|]; [destruct (truthy_str q)|]; simpl;
    by rewrite <- ?app_assoc.
Qed.

Lemma other_close_is_only_reported_witness :
  objs Scenarios.t1_created !! 0%nat = Some Scenarios.t1_cell
  /\ isLoggedOut Scenarios.loggedOut (WA.lastDisconnect Runs.connection_closed)
     = false
  /\ isRestartRequired (WA.lastDisconnect Runs.connection_closed) = false
  /\ JsMap.get "t1"
       (baileysSessions
          (on_connection_update Scenarios.loggedOut 9000 None 0%nat
             Runs.connection_closed Scenarios.t1_created)) = Some 0%nat
  /\ timers (on_connection_update Scenarios.loggedOut 9000 None 0%nat
               Runs.connection_closed Scenarios.t1_created) = [].
Proof.
  assert (H1 : objs Scenarios.t1_created !! 0%nat = Some Scenarios.t1_cell)
    by (vm_compute; reflexivity).
  assert (H2 : isLoggedOut Scenarios.loggedOut
                 (WA.lastDisconnect Runs.connection_closed) = false)
    by (vm_compute; reflexivity).
  assert (H3 : isRestartRequired (WA.lastDisconnect Runs.connection_closed)
               = false) by (vm_compute; reflexivity).
  destruct (other_close_is_only_reported Scenarios.loggedOut 9000 None 0%nat
              Scenarios.t1_cell Runs.connection_closed Scenarios.t1_created
              H1 eq_refl H2 H3) as (Hmap & _ & Htimers & _).
  split; [exact H1|]. split; [exact H2|]. split; [exact H3|].
  split; [rewrite Hmap | rewrite Htimers]; vm_compute; reflexivity.
Defined.

End ManagerContracts.

(** ** Contracts of the action handler *)

Module ActionContracts.
Import McpSessionManager McpEventEmitter McpMessageHandler McpEventEmitterFacts.
Import McpMessageHandlerFacts.

Lemma emit_emitted now id ev data s :
  emitted (world (emit now id ev data s))
  = emitted (world s) ++ [(id, ev, data)].
Proof. apply sendEventToClient_emitted. Qed.

Lemma sendResponse_emitted now id action ev data s :
  emitted (world (sendResponse now id action ev data s))
  = emitted (world s)
    ++ [(id, ev,
         JObj (obj_set "_requestId" (requestId action)
                 (obj_set "_originalActionType" (JStr (actionType action))
                    (spread data))))].
Proof. apply sendEventToClient_emitted. Qed.

Lemma success_data_id text mid jid action :
  obj_get "baileysMessageId"
    (obj_set "_requestId" (requestId action)
       (obj_set "_originalActionType" (JStr (actionType action))
          (spread (success_data text mid jid)))) = mid.
Proof. by rewrite !obj_get_set_ne. Qed.

(** What [sendTextMessage] returns: the message [socket.sendMessage]
    resolved with, and then no event; or [undefined] after one
    [baileys_error]. *)
Lemma sendTextMessage_outcome now io id jid text s :
  let r := sendTextMessage now io id jid text s in
  manager (fst r) = fst (BaileysSessionManager.getBaileysSocket now id (manager s))
  /\ ((emitted (world (fst r)) = emitted (world s)
       /\ sendMessage io = Normal (snd r)
       /\ is_Some (snd (BaileysSessionManager.getBaileysSocket now id (manager s)))
       /\ (nullish (snd r) = true \/ exists mid, key_id (snd r) = Normal mid))
      \/ (snd r = JUndefined
          /\ exists d, emitted (world (fst r))
                       = emitted (world s) ++ [(id, "baileys_error", d)])).
Proof.
  assert (Hfail : forall m1 d,
            manager (emit now id "baileys_error" d
                       {| world := world s; manager := m1 |}) = m1
            /\ ((emitted (world (emit now id "baileys_error" d
                                   {| world := world s; manager := m1 |}))
                 = emitted (world s)
                 /\ sendMessage io = Normal JUndefined
                 /\ is_Some (snd (BaileysSessionManager.getBaileysSocket now id
                                    (manager s)))
                 /\ (nullish JUndefined = true
                     \/ exists mid, key_id JUndefined = Normal mid))
                \/ (JUndefined = JUndefined
                    /\ exists d', emitted (world (emit now id "baileys_error" d
                                    {| world := world s; manager := m1 |}))
                                  = emitted (world s)
                                    ++ [(id, "baileys_error", d')]))).
  { intros m1 d. split; [done|]. right. split; [done|]. exists d.
    exact (emit_emitted now id "baileys_error" d
             {| world := world s; manager := m1 |}). }
  unfold sendTextMessage.
  destruct (BaileysSessionManager.getBaileysSocket now id (manager s))
    as [m1 socket]. cbn [fst snd].
  destruct socket as [h|]; [|apply Hfail].
  destruct (jid_includes_at jid) as [[]|]; [|apply Hfail|apply Hfail].
  destruct (sendMessage io) as [sent|]; [|apply Hfail].
  destruct (nullish sent) eqn:Hn.
  - split; [done|]. left. eauto 10.
  - destruct (key_id sent) as [mid|] eqn:Hk; [|apply Hfail].
    split; [done|]. left. eauto 10.
Qed.

Lemma truthy_not_undefined v : truthy v = true -> v <> JUndefined.
Proof. by intros H ->. Qed.

(** The events of [try_action], and what a normal return says about the
    send. *)
Lemma try_action_outcome now io id action s :
  let r := try_action now io id action s in
  match snd r with
  | Normal _ =>
      exists sent mid data,
        sendMessage io = Normal sent /\ truthy sent = true
        /\ key_id sent = Normal mid
        /\ is_Some (snd (BaileysSessionManager.getBaileysSocket now id (manager s)))
        /\ emitted (world (fst r))
           = emitted (world s) ++ [(id, "mcp_action_success", JObj data)]
        /\ obj_get "baileysMessageId" data = mid
  | Throw _ =>
      emitted (world (fst r)) = emitted (world s)
      \/ (actionType action = "SEND_TEXT_MESSAGE"
          /\ exists d, emitted (world (fst r))
                       = emitted (world s) ++ [(id, "baileys_error", d)])
  end.
Proof.
  unfold try_action.
  destruct (String.eqb (actionType action) "SEND_TEXT_MESSAGE") eqn:Htext.
  - apply String.eqb_eq in Htext.
    destruct (prop "text" (payload action)) as [| | | |text| |];
      try (cbn [fst snd]; by left).
    destruct (negb (truthy (prop "recipientJid" (payload action))));
      [cbn [fst snd]; by left|].
    pose proof (sendTextMessage_outcome now io id
                  (prop "recipientJid" (payload action)) text s) as Hout.
    destruct (sendTextMessage now io id (prop "recipientJid" (payload action))
                text s) as [s1 sentMsg].
    cbn [fst snd] in Hout. destruct Hout as [_ Hout].
    destruct (truthy sentMsg) eqn:Htruthy.
    + destruct Hout as [(He & Hsend & Hsock & Hkey)|[-> _]]; [|done].
      destruct (key_id sentMsg) as [mid|] eqn:Hk; cbn [fst snd].
      * exists sentMsg, mid. eexists. repeat split; try done.
        -- rewrite sendResponse_emitted, He. reflexivity.
        -- apply success_data_id.
      * left. exact He.
    + cbn [fst snd]. destruct Hout as [(He & _)|[_ Hd]]; [by left | by right].
  - destruct (String.eqb (actionType action) "SEND_IMAGE_MESSAGE");
      [|cbn [fst snd]; by left].
    destruct (negb (truthy (prop "recipientJid" (payload action)))
              || negb (truthy (prop "mediaSource" (payload action))));
      [cbn [fst snd]; by left|].
    match goal with
    | |- context [match ?src with Normal _ => _ | Throw _ => _ end] =>
        destruct src as [mediaBufferSource|]; [|cbn [fst snd]; by left]
    end.
    destruct (prepareMediaForSending io mediaBufferSource "image" _ _ _);
      [|cbn [fst snd]; by left].
    destruct (BaileysSessionManager.getBaileysSocket now id (manager s))
      as [m1 socket]. cbn [fst snd].
    destruct socket as [h|]; [|cbn [fst snd]; by left].
    destruct (sendMessage io) as [sentImageMsg|]; [|cbn [fst snd]; by left].
    destruct (truthy sentImageMsg) eqn:Htruthy; [|cbn [fst snd]; by left].
    destruct (key_id sentImageMsg) as [mid|] eqn:Hk; [|cbn [fst snd]; by left].
    cbn [fst snd]. exists sentImageMsg, mid. eexists. repeat split; try done.
    + rewrite sendResponse_emitted. reflexivity.
    + apply success_data_id.
Qed.

(** X11. The events one action hands to the broadcaster are one of three
    shapes: a single [mcp_action_success]; a single [mcp_action_error]; or,
    for [SEND_TEXT_MESSAGE] only, one [baileys_error] followed by one
    [mcp_action_error] (a failed text send is reported twice). *)
Theorem handleMcpClientAction_events (now : Z) (io : ActionIO) (id : string)
    (action : McpClientAction) (s : Sys) :
  let new := fun events =>
    emitted (world (fst (handleMcpClientAction now io id action s)))
    = emitted (world s) ++ events in
  exists d,
    new [(id, "mcp_action_success", d)]
    \/ new [(id, "mcp_action_error", d)]
    \/ (actionType action = "SEND_TEXT_MESSAGE"
        /\ exists d1, new [(id, "baileys_error", d1); (id, "mcp_action_error", d)]).
Proof.
  intros new. subst new. unfold handleMcpClientAction.
  pose proof (try_action_outcome now io id action s) as Hout.
  destruct (try_action now io id action s) as [s1 [u|error]]; cbn [fst snd] in Hout.
  - destruct Hout as (sent & mid & data & _ & _ & _ & _ & He & _).
    exists (JObj data). by left.
  - eexists. cbn [fst snd]. rewrite sendResponse_emitted.
    destruct Hout as [->|(Htext & d1 & ->)].
    + right. left. reflexivity.
    + right. right. split; [done|]. exists d1. by rewrite <- app_assoc.
Qed.

(** X12. No false success: when the last event of an action is
    [mcp_action_success], the tenant has a protocol session,
    [socket.sendMessage] resolved with a truthy message, and the
    [baileysMessageId] of the reply is the [key.id] of that message. *)
Theorem success_reply_implies_sent (now : Z) (io : ActionIO) (id : string)
    (action : McpClientAction) (s : Sys) (data : list (string * json)) :
  last (emitted (world (fst (handleMcpClientAction now io id action s))))
  = Some (id, "mcp_action_success", JObj data) ->
  exists sent,
    sendMessage io = Normal sent
    /\ truthy sent = true
    /\ key_id sent = Normal (obj_get "baileysMessageId" data)
    /\ is_Some (snd (BaileysSessionManager.getBaileysSocket now id (manager s))).
Proof.
  unfold handleMcpClientAction.
  pose proof (try_action_outcome now io id action s) as Hout.
  destruct (try_action now io id action s) as [s1 [u|error]]; cbn [fst snd] in Hout.
  - destruct Hout as (sent & mid & data' & Hsend & Htruthy & Hk & Hsock & He & Hid).
    cbn [fst snd]. rewrite He, last_snoc. intros [= <-].
    exists sent. by rewrite Hid.
  - cbn [fst snd]. rewrite sendResponse_emitted, last_snoc. intros [= Hev].
Qed.

Lemma success_reply_implies_sent_witness :
  exists sent,
    sendMessage Runs.accepting = Normal sent
    /\ truthy sent = true
    /\ key_id sent = Normal (JStr "3EB0A1").
Proof.
  assert (H : last (emitted (world (fst (handleMcpClientAction 1000 Runs.accepting
                                           "c1" Runs.hello Runs.c1_online))))
              = Some ("c1", "mcp_action_success", JObj Runs.hello_reply))
    by (vm_compute; reflexivity).
  destruct (success_reply_implies_sent _ _ _ _ _ _ H)
    as (sent & Hsend & Htruthy & Hkey & _).
  exists sent. split; [exact Hsend|]. split; [exact Htruthy|]. exact Hkey.
Defined.

(** X13. An action whose payload names no recipient is refused before
    anything is done for it: the tenant's protocol session is not even looked
    up (so it does not count as activity), and the one event handed to the
    broadcaster is an [mcp_action_error]. *)
Theorem action_without_recipient (now : Z) (io : ActionIO) (id : string)
    (action : McpClientAction) (s : Sys) :
  truthy (prop "recipientJid" (payload action)) = false ->
  let r := handleMcpClientAction now io id action s in
  manager (fst r) = manager s
  /\ exists d,
       emitted (world (fst r)) = emitted (world s) ++ [(id, "mcp_action_error", d)].
Proof.
  intros Hjid r. subst r. unfold handleMcpClientAction.
  assert (Htry : exists e, try_action now io id action s = (s, Throw e)).
  { unfold try_action. rewrite Hjid.
    destruct (String.eqb (actionType action) "SEND_TEXT_MESSAGE").
    - destruct (prop "text" (payload action)); eauto.
    - destruct (String.eqb (actionType action) "SEND_IMAGE_MESSAGE"); eauto. }
  destruct Htry as [e ->]. cbn [fst snd]. split; [done|].
  eexists. apply sendResponse_emitted.
Qed.

Lemma action_without_recipient_witness :
  truthy (prop "recipientJid" (payload Runs.hello_to_nobody)) = false
  /\ manager (fst (handleMcpClientAction 1000 Runs.accepting "c1"
                     Runs.hello_to_nobody Runs.c1_online))
     = manager Runs.c1_online
  /\ exists d,
       emitted (world (fst (handleMcpClientAction 1000 Runs.accepting "c1"
                              Runs.hello_to_nobody Runs.c1_online)))
       = emitted (world Runs.c1_online) ++ [("c1", "mcp_action_error", d)].
Proof.
  split; [reflexivity|].
  exact (action_without_recipient 1000 Runs.accepting "c1" Runs.hello_to_nobody
           Runs.c1_online eq_refl).
Defined.

End ActionContracts.

(** ** Contracts of the media handler *)

Module MediaContracts.
Import MediaHandler.

Lemma media_fields_is_media io message :
  Adapter.is_media message = bool_decide (is_Some (media_fields io message)).
Proof.
  unfold Adapter.is_media, media_fields.
  destruct (truthy (sub "imageMessage" message)); [done|].
  destruct (truthy (sub "videoMessage" message)); [done|].
  destruct (truthy (sub "audioMessage" message)); [done|].
  destruct (truthy (sub "documentMessage" message)); [done|].
  by destruct (truthy (sub "stickerMessage" message)).
Qed.

(** X14. [downloadAndProcessMedia] returns [null] exactly for a message
    with none of the five media sub-messages.  Otherwise the result carries
    either an [error] and then neither content nor path, or no error and
    then exactly one of the two: the stored file's path when
    [storeTemporarily] is set, the buffer when it is not. *)
Theorem downloadAndProcessMedia_outcome (io : MediaIO) (message : WA.WAMessage)
    (storeTemporarily : bool) :
  match downloadAndProcessMedia io message storeTemporarily with
  | None => Adapter.is_media message = false
  | Some info =>
      Adapter.is_media message = true
      /\ match error info with
         | Some _ => data info = None /\ filePath info = None
         | None =>
             if storeTemporarily
             then data info = None /\ is_Some (filePath info)
             else is_Some (data info) /\ filePath info = None
         end
  end.
Proof.
  rewrite (media_fields_is_media io). unfold downloadAndProcessMedia.
  destruct (media_fields io message) as [[[[[messageType mediaKey] url] caption]
                                           originalFileName]|]; [|done].
  destruct (negb (truthy mediaKey) || negb (truthy url)); [done|].
  unfold fetch_and_store.
  destruct (download io); [|done|done].
  destruct storeTemporarily; [|by eauto].
  destruct originalFileName; try done.
  destruct (writeFileError io); [done|]. by eauto.
Qed.

End MediaContracts.

(** ** Contracts of the push-session registry and of the event-stream route *)

Module RegistryContracts.
Import McpSessionManager McpEventEmitter McpSessionRegistry HttpStreamServer.

Lemma removeSession_sessions sessionId r :
  sessions (world (removeSession sessionId r))
  = delete sessionId (sessions (world r)).
Proof.
  unfold removeSession.
  destruct (sessions (world r) !! sessionId) as [s|] eqn:Hs.
  - by destruct (negb (closed (connection s))).
  - by rewrite delete_id.
Qed.

Lemma removeSession_ended sessionId r :
  ended (removeSession sessionId r)
  = ended r ++ (if streaming (world r) sessionId then [sessionId] else []).
Proof.
  unfold removeSession, streaming.
  destruct (sessions (world r) !! sessionId) as [s|]; simpl.
  - destruct (negb (closed (connection s))); simpl; by rewrite ?app_nil_r.
  - by rewrite app_nil_r.
Qed.

(** X15. [removeSession] drops the entry of the id and nothing else, and
    ends its stream exactly when the id is registered with a stream that is
    not closed.  A second call for the same id changes nothing: the several
    handlers that remove a session on disconnect end its stream at most
    once. *)
Theorem removeSession_once (sessionId : string) (r : Registry) :
  sessions (world (removeSession sessionId r))
  = delete sessionId (sessions (world r))
  /\ ended (removeSession sessionId r)
     = ended r ++ (if streaming (world r) sessionId then [sessionId] else [])
  /\ removeSession sessionId (removeSession sessionId r)
     = removeSession sessionId r.
Proof.
  split; [apply removeSession_sessions|]. split; [apply removeSession_ended|].
  unfold removeSession at 1.
  by rewrite removeSession_sessions, lookup_delete_eq.
Qed.

Lemma cleanup_step now maxIdle sessionId (r : Registry) :
  let r' :=
    match sessions (world r) !! sessionId with
    | Some session =>
        if now - lastSeen session >? maxIdle
        then removeSession sessionId r else r
    | None => r
    end in
  sessions (world r')
  = (if stale now maxIdle (world r) sessionId
     then delete sessionId (sessions (world r)) else sessions (world r))
  /\ ended r'
     = ended r
       ++ (if stale now maxIdle (world r) sessionId
              && streaming (world r) sessionId
           then [sessionId] else []).
Proof.
  intros r'. subst r'. unfold stale.
  destruct (sessions (world r) !! sessionId) as [s|] eqn:Hs;
    [|by rewrite app_nil_r].
  destruct (now - lastSeen s >? maxIdle); [|by rewrite app_nil_r].
  by rewrite removeSession_sessions, removeSession_ended.
Qed.

Lemma cleanupStaleSessions_fold now maxIdle order (r : Registry) :
  NoDup order ->
  let r' := cleanupStaleSessions now maxIdle order r in
  (forall sessionId,
     sessions (world r') !! sessionId
     = if bool_decide (sessionId ∈ order) && stale now maxIdle (world r) sessionId
       then None else sessions (world r) !! sessionId)
  /\ ended r'
     = ended r
       ++ List.filter (fun sessionId => stale now maxIdle (world r) sessionId
                                        && streaming (world r) sessionId) order.
Proof.
  revert r. induction order as [|id0 rest IH]; intros r Hnd r'.
  - subst r'. simpl. split; [done|by rewrite app_nil_r].
  - apply NoDup_cons in Hnd as [Hfresh Hnd]. subst r'.
    unfold cleanupStaleSessions. cbn [foldl].
    destruct (cleanup_step now maxIdle id0 r) as [Hs He].
    set (r1 := match sessions (world r) !! id0 with
               | Some session =>
                   if now - lastSeen session >? maxIdle
                   then removeSession id0 r else r
               | None => r
               end) in *.
    fold (cleanupStaleSessions now maxIdle rest r1).
    assert (Hother : forall k, k <> id0 ->
                       sessions (world r1) !! k = sessions (world r) !! k).
    { intros k Hk. rewrite Hs.
      destruct (stale now maxIdle (world r) id0); [|done].
      by rewrite lookup_delete_ne. }
    assert (Hrest : forall k, k ∈ rest ->
                      stale now maxIdle (world r1) k = stale now maxIdle (world r) k
                      /\ streaming (world r1) k = streaming (world r) k).
    { intros k Hk. assert (k <> id0) by (intros ->; done).
      unfold stale, streaming. by rewrite Hother. }
    destruct (IH r1 Hnd) as [IHs IHe]. split.
    + intros k. rewrite IHs.
      destruct (decide (k = id0)) as [->|Hne].
      * rewrite (bool_decide_eq_false_2 (id0 ∈ rest)) by done.
        rewrite (bool_decide_eq_true_2 (id0 ∈ id0 :: rest)) by apply list_elem_of_here.
        simpl. rewrite Hs.
        destruct (stale now maxIdle (world r) id0); [|done].
        apply lookup_delete_eq.
      * rewrite Hother by done.
        destruct (decide (k ∈ rest)) as [Hin|Hnin].
        -- rewrite (bool_decide_eq_true_2 (k ∈ rest)) by done.
           rewrite (bool_decide_eq_true_2 (k ∈ id0 :: rest))
             by (by apply list_elem_of_further).
           by destruct (Hrest k Hin) as [-> _].
        -- rewrite (bool_decide_eq_false_2 (k ∈ rest)) by done.
           rewrite (bool_decide_eq_false_2 (k ∈ id0 :: rest)); [done|].
           intros Hin. apply elem_of_cons in Hin as [?|?]; done.
    + rewrite IHe, He, <- app_assoc. f_equal. cbn [List.filter].
      assert (Hf : List.filter (fun k => stale now maxIdle (world r1) k
                                         && streaming (world r1) k) rest
                   = List.filter (fun k => stale now maxIdle (world r) k
                                           && streaming (world r) k) rest).
      { apply List.filter_ext_in. intros k Hk.
        apply list_elem_of_In in Hk. by destruct (Hrest k Hk) as [-> ->]. }
      rewrite Hf.
      by destruct (stale now maxIdle (world r) id0 && streaming (world r) id0).
Qed.

(** X16. [cleanupStaleSessions] removes exactly the sessions that have
    been idle for longer than the threshold and leaves every other entry as it
    was; of the removed ones it ends, in iteration order, the streams that are
    not closed. *)
Theorem cleanupStaleSessions_spec (now maxIdleTimeMs : Z) (order : list string)
    (r : Registry) :
  NoDup order ->
  (forall sessionId, is_Some (sessions (world r) !! sessionId) -> sessionId ∈ order) ->
  let r' := cleanupStaleSessions now maxIdleTimeMs order r in
  sessions (world r')
  = filter (fun kv => now - lastSeen kv.2 <= maxIdleTimeMs) (sessions (world r))
  /\ ended r'
     = ended r
       ++ List.filter (fun sessionId =>
                         stale now maxIdleTimeMs (world r) sessionId
                         && streaming (world r) sessionId) order.
Proof.
  intros Hnd Hcover r'.
  destruct (cleanupStaleSessions_fold now maxIdleTimeMs order r Hnd) as [Hs He].
  split; [|exact He].
  apply map_eq. intros k. subst r'. rewrite Hs. unfold stale.
  destruct (sessions (world r) !! k) as [s|] eqn:Hk.
  - rewrite (bool_decide_eq_true_2 (k ∈ order)) by (apply Hcover; eauto).
    simpl. destruct (now - lastSeen s >? maxIdleTimeMs) eqn:Hidle.
    + symmetry. apply map_lookup_filter_None. right. intros s' Hs'. simpl.
      assert (s' = s) by congruence. subst s'. lia.
    + symmetry. apply map_lookup_filter_Some. split; [done|]. simpl. lia.
  - rewrite andb_false_r. symmetry. apply map_lookup_filter_None. by left.
Qed.

Lemma cleanupStaleSessions_spec_witness :
  NoDup ["c1"]
  /\ ended (cleanupStaleSessions 700000 600000 ["c1"] Runs.one_registered) = ["c1"]
  /\ sessions (world (cleanupStaleSessions 700000 600000 ["c1"] Runs.one_registered))
       !! "c1" = None.
Proof.
  assert (Hnd : NoDup ["c1"]) by apply NoDup_singleton.
  assert (Hcover : forall sessionId,
            is_Some (sessions (world Runs.one_registered) !! sessionId) ->
            sessionId ∈ ["c1"]).
  { intros k [x Hk]. unfold Runs.one_registered, Scenarios.one_client in Hk.
    cbn [world sessions] in Hk. apply lookup_singleton_Some in Hk as [<- _].
    apply list_elem_of_here. }
  destruct (cleanupStaleSessions_spec 700000 600000 ["c1"] Runs.one_registered
              Hnd Hcover) as [Hs He].
  split; [exact Hnd|]. split; [rewrite He; vm_compute; reflexivity|].
  rewrite Hs. apply map_lookup_filter_None. right. intros s' Hs'.
  unfold Runs.one_registered, Scenarios.one_client in Hs'.
  cbn [world sessions] in Hs'.
  apply lookup_singleton_Some in Hs' as [_ <-]. simpl. lia.
Defined.

Lemma sendEventToClient_lastSeen now sessionId eventType data w s :
  sessions w !! sessionId = Some s ->
  exists s',
    sessions (fst (sendEventToClient now sessionId eventType data w)) !! sessionId
    = Some s'
    /\ lastSeen s' = now.
Proof.
  intros Hs. unfold sendEventToClient, getSession. simpl. rewrite Hs. simpl.
  destruct (closed (connection s) || destroyed (connection s)); simpl.
  - rewrite lookup_insert_eq. eauto.
  - unfold write. simpl. destruct (writeError (connection s)); simpl.
    + rewrite lookup_insert_eq. eauto.
    + rewrite lookup_insert_eq. eauto.
Qed.

(** X17. Addressing an event to a registered session counts as activity,
    whether or not anything could be written: after [sendEventToClient] at
    [now], no run of [cleanupStaleSessions] up to [now + maxIdleTimeMs]
    removes the session, even one whose stream is closed. *)
Theorem events_keep_session_alive (now now' maxIdleTimeMs : Z)
    (sessionId eventType : string) (data : json) (order ended : list string)
    (w : World) (s : McpSession) :
  sessions w !! sessionId = Some s ->
  now' - now <= maxIdleTimeMs ->
  NoDup order ->
  let r' :=
    cleanupStaleSessions now' maxIdleTimeMs order
      {| world := fst (sendEventToClient now sessionId eventType data w);
         ended := ended |} in
  exists s', sessions (world r') !! sessionId = Some s' /\ lastSeen s' = now.
Proof.
  intros Hs Hle Hnd r'.
  destruct (sendEventToClient_lastSeen now sessionId eventType data w s Hs)
    as (s' & Hs' & Hseen).
  exists s'. split; [|done]. subst r'.
  destruct (cleanupStaleSessions_fold now' maxIdleTimeMs order
              {| world := fst (sendEventToClient now sessionId eventType data w);
                 ended := ended |} Hnd) as [Hlookup _].
  rewrite Hlookup. unfold stale. cbn [world]. rewrite Hs', Hseen.
  replace (now' - now >? maxIdleTimeMs) with false by lia.
  by rewrite andb_false_r.
Qed.

Lemma events_keep_session_alive_witness :
  snd (sendEventToClient 500000 "c1" "baileys_connected" (JObj []) Runs.gone_client)
  = Normal false
  /\ exists s',
       sessions
         (world (cleanupStaleSessions 900000 600000 ["c1"]
                   {| world := fst (sendEventToClient 500000 "c1" "baileys_connected"
                                      (JObj []) Runs.gone_client);
                      ended := [] |})) !! "c1" = Some s'
       /\ lastSeen s' = 500000.
Proof.
  split; [vm_compute; reflexivity|].
  apply (events_keep_session_alive 500000 900000 600000 "c1" "baileys_connected"
           (JObj []) ["c1"] [] Runs.gone_client
           {| id := "c1"; connection := Runs.closed_stream; lastSeen := 0 |}).
  - vm_compute; reflexivity.
  - lia.
  - apply NoDup_singleton.
Defined.

(** What the route has done before it creates the new session. *)
Lemma on_get_events_cleared now pathname (r : Registry) :
  let r1 :=
    match McpMessageHandler.split "/" pathname !! 2%nat with
    | Some sessionId =>
        if truthy_str sessionId then
          let '(w1, existingSession) := getSession now sessionId (world r) in
          let r2 := set_world w1 r in
          match existingSession with
          | Some existingSession =>
              let r3 :=
                if negb (closed (connection existingSession))
                then end_ sessionId r2 else r2 in
              removeSession sessionId r3
          | None => r2
          end
        else r
    | None => r
    end in
  sessions (world r1)
  = match requested pathname with
    | Some old => delete old (sessions (world r))
    | None => sessions (world r)
    end
  /\ ended r1
     = ended r
       ++ match requested pathname with
          | Some old => if streaming (world r) old then [old; old] else []
          | None => []
          end.
Proof.
  intros r1. subst r1. unfold requested.
  destruct (McpMessageHandler.split "/" pathname !! 2%nat) as [old|];
    [|by rewrite app_nil_r].
  destruct (truthy_str old); [|by rewrite app_nil_r].
  unfold getSession, streaming.
  destruct (sessions (world r) !! old) as [s|] eqn:Hs; cbn [fst snd].
  - rewrite removeSession_sessions, removeSession_ended. unfold streaming.
    cbn [touch connection].
    destruct (closed (connection s)) eqn:Hc;
      cbn [negb world ended end_ set_world sessions set_sessions];
      rewrite lookup_insert_eq; cbn [connection touch]; rewrite Hc;
      cbn [negb]; rewrite delete_insert_eq.
    + by rewrite app_nil_r.
    + by rewrite <- app_assoc.
  - cbn [set_world world ended]. by rewrite delete_id, app_nil_r.
Qed.

(** X18. Every [GET /events] whose first write goes through registers the
    new stream under the freshly drawn id, with the [session_established]
    frame carrying that id as the first thing written to it.  An id named in
    the path is never reused: its entry, if any, is dropped, and its stream,
    if not closed, is ended (twice: once by the route, once by
    [removeSession]).  All other entries are left as they were. *)
Theorem on_get_events_registers (now : Z) (uuid pathname : string)
    (res : ServerResponse) (r : Registry) :
  writeError res = None ->
  let out := on_get_events now uuid pathname res r in
  snd out = Normal tt
  /\ sessions (world (fst out))
     = <[uuid := {| id := uuid; connection := greeted uuid res; lastSeen := now |}]>
         (match requested pathname with
          | Some old => delete old (sessions (world r))
          | None => sessions (world r)
          end)
  /\ ended (fst out)
     = ended r
       ++ match requested pathname with
          | Some old => if streaming (world r) old then [old; old] else []
          | None => []
          end.
Proof.
  intros Hw out. subst out. unfold on_get_events.
  destruct (on_get_events_cleared now pathname r) as [Hs He].
  match goal with
  | |- context [createSession now uuid res ?x] => set (r1 := x) in *
  end.
  unfold createSession, write. rewrite Hw. cbn [fst snd].
  split; [done|]. split; [|exact He].
  cbn [world set_world sessions set_sessions].
  rewrite alter_insert_eq, Hs. unfold greeted, set_connection. simpl.
  by rewrite Hw.
Qed.

Lemma on_get_events_registers_witness :
  sessions (world (fst (on_get_events 5000 "c2" "/events/c1" Scenarios.open_stream
                          Runs.one_registered)))
  = {[ "c2" := {| id := "c2"; connection := greeted "c2" Scenarios.open_stream;
                  lastSeen := 5000 |} ]}
  /\ ended (fst (on_get_events 5000 "c2" "/events/c1" Scenarios.open_stream
                   Runs.one_registered)) = ["c1"; "c1"].
Proof.
  destruct (on_get_events_registers 5000 "c2" "/events/c1" Scenarios.open_stream
              Runs.one_registered eq_refl) as (_ & Hs & He).
  split.
  - rewrite Hs. vm_compute requested. cbn [Runs.one_registered world
      Scenarios.one_client sessions].
    by rewrite delete_singleton_eq.
  - rewrite He. vm_compute. reflexivity.
Defined.

(** X19. Asking for [/events/<id>] does not resume session [<id>]: unless
    the fresh id happens to be the same, [<id>] is unregistered afterwards
    (whether or not it was registered, and whether or not the first write
    went through), so an event still addressed to it is not delivered. *)
Theorem reconnect_drops_old_id (now now' : Z) (uuid pathname old eventType : string)
    (data : json) (res : ServerResponse) (r : Registry) :
  requested pathname = Some old ->
  old <> uuid ->
  let r' := fst (on_get_events now uuid pathname res r) in
  sessions (world r') !! old = None
  /\ snd (sendEventToClient now' old eventType data (world r')) = Normal false.
Proof.
  intros Hreq Hne r'.
  assert (Hnone : sessions (world r') !! old = None).
  { subst r'. unfold on_get_events.
    destruct (on_get_events_cleared now pathname r) as [Hs _].
    match goal with
    | |- context [createSession now uuid res ?x] => set (r1 := x) in *
    end.
    rewrite Hreq in Hs.
    unfold createSession.
    destruct (write res (session_established uuid)); cbn [fst snd];
      cbn [world set_world sessions set_sessions].
    - rewrite lookup_alter_ne, lookup_insert_ne, Hs by done.
      apply lookup_delete_eq.
    - rewrite lookup_insert_ne, Hs by done. apply lookup_delete_eq. }
  split; [done|].
  unfold sendEventToClient, getSession. simpl. by rewrite Hnone.
Qed.

Lemma reconnect_drops_old_id_witness :
  requested "/events/c1" = Some "c1"
  /\ snd (sendEventToClient 6000 "c1" "baileys_qr_update" (JObj [])
            (world (fst (on_get_events 5000 "c2" "/events/c1" Scenarios.open_stream
                           Runs.one_registered))))
     = Normal false.
Proof.
  assert (Hreq : requested "/events/c1" = Some "c1") by (vm_compute; reflexivity).
  assert (Hne : "c1" <> "c2") by discriminate.
  split; [exact Hreq|].
  by destruct (reconnect_drops_old_id 5000 6000 "c2" "/events/c1" "c1"
                 "baileys_qr_update" (JObj []) Scenarios.open_stream
                 Runs.one_registered Hreq Hne).
Defined.

End RegistryContracts.

(** ** Contracts of the core module and of the main application *)

Module CoreContracts.
Import McpSessionManager McpEventEmitter McpEventEmitterFacts.
Import BaileysSessionManager BaileysSessionManagerFacts ManagerContracts.
Import BaileysCore MainApp.

Lemma dispatch_emitted lo now owners cs w :
  emitted (dispatch lo now owners cs w) = emitted w ++ omap (relayed lo owners) cs.
Proof.
  revert w. induction cs as [|c cs IH]; intros w.
  - by rewrite app_nil_r.
  - change (dispatch lo now owners (c :: cs) w)
      with (dispatch lo now owners cs (run_callback lo now owners c w)).
    rewrite IH. unfold run_callback.
    change (omap (relayed lo owners) (c :: cs))
      with (match relayed lo owners c with
            | Some y => y :: omap (relayed lo owners) cs
            | None => omap (relayed lo owners) cs
            end).
    destruct (relayed lo owners c) as [[[sessionId eventType] data]|]; [|done].
    by rewrite sendEventToClient_emitted, <- app_assoc.
Qed.

Lemma omap_one {A B} (f : A -> option B) (x : A) :
  omap f [x] = match f x with Some y => [y] | None => [] end.
Proof. reflexivity. Qed.

Lemma relayed_messages lo owners cb owner id (l : list WA.WAMessage) :
  owners !! cb = Some owner ->
  omap (relayed lo owners) (map (fun msg => onMessage cb msg id) l)
  = map (fun msg => (id, "baileys_new_message",
                     JObj [("message", Adapter.json_of_message msg)])) l.
Proof.
  intros Hown. induction l as [|msg l IH]; [done|].
  cbn [map]. rewrite <- IH.
  change (omap (relayed lo owners) (?x :: ?l))
    with (match relayed lo owners x with
          | Some y => y :: omap (relayed lo owners) l
          | None => omap (relayed lo owners) l
          end).
  cbn [relayed]. by rewrite Hown.
Qed.

Lemma invoked_app before after new :
  calls after = calls before ++ new -> invoked before after = new.
Proof. intros H. unfold invoked. rewrite H. apply drop_app_length. Qed.

(** The callbacks of a close. *)
Lemma close_calls lo now rmError h closure update st :
  objs st !! h = Some closure ->
  WA.connection update = Some "close" ->
  calls (on_connection_update lo now rmError h update st)
  = calls st
    ++ match WA.qr update with
       | Some q => if truthy_str q then [onQR (eventCallbacks closure) q] else []
       | None => []
       end
    ++ [onDisconnected (eventCallbacks closure)
          (reason_of (WA.lastDisconnect update))
          (mcpSessionId (session closure))].
Proof.
  intros Hobj Hconn. unfold on_connection_update. rewrite Hobj, Hconn.
  cbn [String.eqb Ascii.eqb Bool.eqb].
  match goal with
  | |- context [call (onDisconnected _ _ _) ?x] => set (st2 := x)
  end.
  assert (H2 : calls st2
               = calls st
                 ++ match WA.qr update with
                    | Some q =>
                        if truthy_str q then [onQR (eventCallbacks closure) q] else []
                    | None => []
                    end).
  { subst st2. destruct (WA.qr update) as [q|]; [destruct (truthy_str q)|];
      simpl; by rewrite ?app_nil_r. }
  clearbody st2.
  set (st3 := call _ st2).
  assert (H3 : calls st3 = calls st2 ++ [onDisconnected (eventCallbacks closure)
                                           (reason_of (WA.lastDisconnect update))
                                           (mcpSessionId (session closure))])
    by done.
  clearbody st3. rewrite app_assoc, <- H2, <- H3.
  destruct (isLoggedOut lo (WA.lastDisconnect update)).
  - destruct (JsMap.get _ (baileysSessions st3)) as [ref|]; [|done].
    by destruct (objs st3 !! ref).
  - destruct (isRestartRequired (WA.lastDisconnect update)); [|done].
    destruct (JsMap.get _ _) as [cur|]; [|done].
    destruct (objs st3 !! cur) as [currentSession|]; [|done].
    by destruct (retryCount (session currentSession) <? MAX_RETRIES).
Qed.

(** X20. What the client is told about a close.  The [loggedOut] flag of
    the [baileys_disconnected] event is [lastDisconnect.reason ===
    DisconnectReason.loggedOut] and its [reason] is [String(reason ||
    'Unknown')]: both read [lastDisconnect.reason] alone, not the status code
    by which the manager decides to delete the credentials.  A code carried
    by the same update is sent first, as [baileys_qr_update]. *)
Theorem close_is_relayed (cwd : string) (lo now : Z) (rmError : option string)
    (h : nat) (closure : Cell) (owner : string) (update : WA.ConnectionUpdate)
    (c : Core) :
  objs (manager c) !! h = Some closure ->
  owners c !! eventCallbacks closure = Some owner ->
  WA.connection update = Some "close" ->
  let reason := reason_of (WA.lastDisconnect update) in
  emitted (world (manager_event cwd lo now (ConnectionUpdate rmError h update) c))
  = emitted (world c)
    ++ match WA.qr update with
       | Some q =>
           if truthy_str q
           then [(owner, "baileys_qr_update", JObj [("qr", JStr q)])] else []
       | None => []
       end
    ++ [(mcpSessionId (session closure), "baileys_disconnected",
         JObj [("reason",
                JStr (McpMessageHandler.to_string
                        (MediaHandler.or_else reason (JStr "Unknown"))));
               ("loggedOut", JBool (is_loggedOut lo reason))])].
Proof.
  intros Hobj Hown Hconn reason. unfold manager_event. cbn [world step].
  rewrite dispatch_emitted.
  rewrite (invoked_app _ _ _ (close_calls lo now rmError h closure update
                                (manager c) Hobj Hconn)).
  rewrite omap_app. f_equal. f_equal.
  - destruct (WA.qr update) as [q|]; [destruct (truthy_str q)|]; [|done|done].
    rewrite omap_one. cbn [relayed]. by rewrite Hown.
  - rewrite omap_one. cbn [relayed]. by rewrite Hown.
Qed.

Lemma close_is_relayed_witness :
  objs (BaileysCore.manager Runs.c1_paired) !! 0%nat = Some Runs.c1_cell
  /\ fs (BaileysCore.manager Runs.c1_paired)
       !! "/app/.baileys_auth_state/session_c1" = Some (Some 42%nat)
  /\ fs (BaileysCore.manager Runs.c1_logged_out)
       !! "/app/.baileys_auth_state/session_c1" = None
  /\ emitted (world Runs.c1_logged_out) = emitted (world Runs.c1_logging_out)
  /\ emitted (world Runs.c1_logging_out)
     = [("c1", "baileys_disconnected",
         JObj [("reason", JStr "Unknown"); ("loggedOut", JBool false)])].
Proof.
  assert (Hobj : objs (BaileysCore.manager Runs.c1_paired) !! 0%nat
                 = Some Runs.c1_cell) by (vm_compute; reflexivity).
  assert (Hown : owners Runs.c1_paired !! eventCallbacks Runs.c1_cell = Some "c1")
    by (vm_compute; reflexivity).
  pose proof (close_is_relayed Scenarios.cwd Scenarios.loggedOut 5000 None 0%nat
                Runs.c1_cell "c1" (Scenarios.close_with 401) Runs.c1_paired
                Hobj Hown eq_refl) as Hrelay.
  split; [exact Hobj|]. split; [vm_compute; reflexivity|].
  split; [vm_compute; reflexivity|]. split; [vm_compute; reflexivity|].
  exact Hrelay.
Defined.

(** X21. The core's [onMessage] relays each message the manager forwards
    as it came from the library: the client is sent one [baileys_new_message]
    per message of the batch that has content and is not self-sent, in batch
    order, with the raw message under [message] (no envelope, no media
    download). *)
Theorem messages_are_relayed_raw (cwd : string) (lo now : Z) (h : nat)
    (closure : Cell) (owner : string) (m : WA.MessagesUpsert) (c : Core) :
  objs (manager c) !! h = Some closure ->
  owners c !! eventCallbacks closure = Some owner ->
  emitted (world (manager_event cwd lo now (MessagesUpsert h m) c))
  = emitted (world c)
    ++ map (fun msg => (mcpSessionId (session closure), "baileys_new_message",
                        JObj [("message", Adapter.json_of_message msg)]))
         (List.filter wanted (default [] (WA.messages m))).
Proof.
  intros Hobj Hown. unfold manager_event. cbn [world step].
  rewrite dispatch_emitted. f_equal.
  assert (Hcalls : calls (on_messages_upsert h m (manager c))
                   = calls (manager c)
                     ++ map (fun msg => onMessage (eventCallbacks closure) msg
                                          (mcpSessionId (session closure)))
                          (List.filter wanted (default [] (WA.messages m)))).
  { unfold on_messages_upsert. rewrite Hobj.
    destruct (WA.messages m) as [msgs|]; [|by rewrite app_nil_r].
    destruct msgs as [|msg msgs]; [by rewrite app_nil_r|].
    cbn [length Nat.ltb Nat.leb default]. apply foldl_forward. }
  rewrite (invoked_app _ _ _ Hcalls).
  by apply relayed_messages with owner.
Qed.

Lemma messages_are_relayed_raw_witness :
  emitted (world (manager_event Scenarios.cwd Scenarios.loggedOut 2000
                    (MessagesUpsert 0%nat
                       {| WA.messages := Some [Scenarios.image_message];
                          WA.type := JStr "notify" |}) Runs.c1_paired))
  = [("c1", "baileys_new_message",
      JObj [("message", Adapter.json_of_message Scenarios.image_message)])].
Proof.
  assert (Hobj : objs (BaileysCore.manager Runs.c1_paired) !! 0%nat
                 = Some Runs.c1_cell) by (vm_compute; reflexivity).
  assert (Hown : owners Runs.c1_paired !! eventCallbacks Runs.c1_cell = Some "c1")
    by (vm_compute; reflexivity).
  exact (messages_are_relayed_raw Scenarios.cwd Scenarios.loggedOut 2000 0%nat
           Runs.c1_cell "c1"
           {| WA.messages := Some [Scenarios.image_message];
              WA.type := JStr "notify" |} Runs.c1_paired Hobj Hown).
Defined.

Lemma initialize_throws cwd lo now o id (c c' : Core) e :
  initializeBaileysForMcpSession cwd lo now o id c = (c', Throw e) ->
  exists cause,
    baileysSessions (manager c') = baileysSessions (manager c)
    /\ objs (manager c') = objs (manager c)
    /\ emitted (world c')
       = emitted (world c)
         ++ [(id, "baileys_error",
              JObj [("message", JStr ("Failed to initialize Baileys: " +:+ cause));
                    ("isInitializationError", JBool true)])]
    /\ err_message e
       = "Baileys initialization failed for MCP session " +:+ id +:+ ": " +:+ cause.
Proof.
  unfold initializeBaileysForMcpSession.
  destruct (getOrCreateBaileysSession cwd now o id (length (owners c)) JUndefined
              (manager c)) as [m1 [sock|error]] eqn:Hcreate; [discriminate|].
  intros [= <- <-]. exists (err_message error).
  destruct (getOrCreate_throws _ _ _ _ _ _ _ _ _ Hcreate)
    as (Hmap & Hobjs & _ & _ & Hcalls).
  cbn [manager world]. split; [done|]. split; [done|]. split; [|done].
  rewrite sendEventToClient_emitted, dispatch_emitted.
  unfold invoked. rewrite Hcalls, drop_all. by rewrite app_nil_r.
Qed.

(** X22. When [initializeBaileysForMcpSession] throws, no protocol session
    has been stored for the tenant, the client has been sent one
    [baileys_error] flagged [isInitializationError], and the error thrown
    names the tenant and repeats the cause. *)
Theorem initialize_failure (cwd : string) (lo now : Z) (o : Creation)
    (id : string) (c c' : Core) (e : JsError) :
  initializeBaileysForMcpSession cwd lo now o id c = (c', Throw e) ->
  exists cause,
    baileysSessions (manager c') = baileysSessions (manager c)
    /\ objs (manager c') = objs (manager c)
    /\ emitted (world c')
       = emitted (world c)
         ++ [(id, "baileys_error",
              JObj [("message", JStr ("Failed to initialize Baileys: " +:+ cause));
                    ("isInitializationError", JBool true)])]
    /\ err_message e
       = "Baileys initialization failed for MCP session " +:+ id +:+ ": " +:+ cause.
Proof. apply initialize_throws. Qed.

Lemma initialize_failure_witness :
  exists cause,
    emitted (world (fst (initializeBaileysForMcpSession Scenarios.cwd
                           Scenarios.loggedOut 0 Runs.no_credentials "c1"
                           Runs.c1_connected)))
    = [("c1", "baileys_error",
        JObj [("message", JStr ("Failed to initialize Baileys: " +:+ cause));
              ("isInitializationError", JBool true)])]
    /\ cause = "EACCES: permission denied".
Proof.
  assert (Hinit : initializeBaileysForMcpSession Scenarios.cwd Scenarios.loggedOut
                    0 Runs.no_credentials "c1" Runs.c1_connected
                  = (fst (initializeBaileysForMcpSession Scenarios.cwd
                            Scenarios.loggedOut 0 Runs.no_credentials "c1"
                            Runs.c1_connected),
                     Throw (Error ("Baileys initialization failed for MCP session "
                                   +:+ "c1: EACCES: permission denied"))))
    by (vm_compute; reflexivity).
  destruct (initialize_failure _ _ _ _ _ _ _ _ Hinit) as (cause & _ & _ & He & Hm).
  exists cause. split; [exact He|].
  vm_compute in Hm. by injection Hm as <-.
Defined.


Lemma closes_spec rmError id del st :
  snd (removeBaileysSession rmError id del st) = Normal tt <-> closes st id = true.
Proof.
  unfold removeBaileysSession, closes.
  destruct (JsMap.get id (baileysSessions st)) as [ref|]; [|done].
  destruct (objs st !! ref) as [c|]; [|done].
  destruct (WA.logoutError (sock c)); [destruct (WA.endError (sock c))|]; done.
Qed.

(** One turn of the shutdown loop. *)
Lemma shutdown_turn clock id (c : Core) :
  let c' :=
    match JsMap.get id (baileysSessions (manager c)) with
    | Some _ => disconnectBaileysForMcpSession (clock id) None id false c
    | None => c
    end in
  fs (manager c') = fs (manager c)
  /\ objs (manager c') = objs (manager c)
  /\ baileysSessions (manager c')
     = (if closes (manager c) id
        then JsMap.delete id (baileysSessions (manager c))
        else baileysSessions (manager c))
  /\ exists data,
       emitted (world c')
       = emitted (world c)
         ++ (if JsMap.has id (baileysSessions (manager c))
             then [(id, if closes (manager c) id
                        then "baileys_disconnected" else "baileys_error", data)]
             else []).
Proof.
  intros c'. subst c'. unfold JsMap.has.
  destruct (JsMap.get id (baileysSessions (manager c))) as [ref|] eqn:Hget.
  - unfold disconnectBaileysForMcpSession.
    pose proof (removeBaileysSession_keeps_fs id (manager c)) as Hfs.
    pose proof (closes_spec None id false (manager c)) as Hcl.
    destruct (removeBaileysSession_cases None id false (manager c))
      as (Hobjs & _ & _ & Hcase).
    destruct (removeBaileysSession None id false (manager c)) as [m1 result].
    cbn [fst snd] in Hfs, Hcl, Hobjs, Hcase.
    destruct Hcase as [[-> Hmap]|([e ->] & Hmap & _)]; cbn [manager world].
    + rewrite (proj1 Hcl eq_refl).
      split; [done|]. split; [done|]. split; [done|].
      eexists. apply sendEventToClient_emitted.
    + destruct (closes (manager c) id);
        [discriminate (proj2 Hcl eq_refl)|].
      split; [done|]. split; [done|]. split; [done|].
      eexists. apply sendEventToClient_emitted.
  - assert (Hcl : closes (manager c) id = true) by (unfold closes; by rewrite Hget).
    rewrite Hcl. split; [done|]. split; [done|]. split.
    + clear -Hget. induction (baileysSessions (manager c)) as [|[k v] m IH];
        [done|].
      simpl in *. destruct (String.eqb id k); [done|]. by rewrite <- IH.
    + exists JNull. by rewrite app_nil_r.
Qed.

Lemma get_key {V} id (m : list (string * V)) :
  id ∈ map fst m -> is_Some (JsMap.get id m).
Proof.
  induction m as [|[k v] m IH]; simpl.
  - intros H. by apply not_elem_of_nil in H.
  - intros H. destruct (String.eqb id k) eqn:E; [eauto|].
    apply elem_of_cons in H as [->|H]; [by rewrite String.eqb_refl in E|auto].
Qed.

Lemma shutdown_loop clock ids (c : Core) :
  NoDup ids ->
  let c' :=
    foldl (fun acc mcpSessionId =>
             match JsMap.get mcpSessionId (baileysSessions (manager acc)) with
             | Some _ =>
                 disconnectBaileysForMcpSession (clock mcpSessionId) None
                   mcpSessionId false acc
             | None => acc
             end) c ids in
  fs (manager c') = fs (manager c)
  /\ objs (manager c') = objs (manager c)
  /\ (forall id,
        JsMap.get id (baileysSessions (manager c'))
        = if bool_decide (id ∈ ids) && closes (manager c) id
          then None else JsMap.get id (baileysSessions (manager c)))
  /\ exists events,
       emitted (world c') = emitted (world c) ++ events
       /\ tags events
          = map (farewell (manager c))
              (List.filter (fun id => JsMap.has id (baileysSessions (manager c)))
                 ids).
Proof.
  revert c. induction ids as [|id0 rest IH]; intros c Hnd c'.
  - subst c'. simpl. split; [done|]. split; [done|]. split; [done|].
    exists []. by rewrite app_nil_r.
  - apply NoDup_cons in Hnd as [Hfresh Hnd]. subst c'. cbn [foldl].
    destruct (shutdown_turn clock id0 c) as (Hfs1 & Hobjs1 & Hmap1 & data & He1).
    set (c1 := match JsMap.get id0 (baileysSessions (manager c)) with
               | Some _ => disconnectBaileysForMcpSession (clock id0) None id0 false c
               | None => c
               end) in *.
    assert (Hother : forall k, k <> id0 ->
              JsMap.get k (baileysSessions (manager c1))
              = JsMap.get k (baileysSessions (manager c))).
    { intros k Hk. rewrite Hmap1. destruct (closes (manager c) id0); [|done].
      by rewrite JsMapFacts.get_delete_ne. }
    assert (Hrest : forall k, k ∈ rest ->
              closes (manager c1) k = closes (manager c) k
              /\ JsMap.has k (baileysSessions (manager c1))
                 = JsMap.has k (baileysSessions (manager c))).
    { intros k Hk. assert (k <> id0) by (intros ->; done).
      unfold closes, JsMap.has. by rewrite Hother, Hobjs1. }
    destruct (IH c1 Hnd) as (Hfs & Hobjs & Hget & events & He & Htags).
    split; [congruence|]. split; [congruence|]. split.
    + intros k. rewrite Hget. destruct (decide (k = id0)) as [->|Hne].
      * rewrite (bool_decide_eq_false_2 (id0 ∈ rest)) by done.
        rewrite (bool_decide_eq_true_2 (id0 ∈ id0 :: rest))
          by apply list_elem_of_here.
        simpl. rewrite Hmap1. destruct (closes (manager c) id0); [|done].
        apply JsMapFacts.get_delete_eq.
      * rewrite Hother by done.
        destruct (decide (k ∈ rest)) as [Hin|Hnin].
        -- rewrite (bool_decide_eq_true_2 (k ∈ rest)) by done.
           rewrite (bool_decide_eq_true_2 (k ∈ id0 :: rest))
             by (by apply list_elem_of_further).
           by destruct (Hrest k Hin) as [-> _].
        -- rewrite (bool_decide_eq_false_2 (k ∈ rest)) by done.
           rewrite (bool_decide_eq_false_2 (k ∈ id0 :: rest)); [done|].
           intros Hin. apply elem_of_cons in Hin as [?|?]; done.
    + eexists. split; [rewrite He, He1, <- app_assoc; reflexivity|].
      unfold tags in *. rewrite map_app, Htags. cbn [List.filter].
      assert (Hf : map (farewell (manager c1))
                     (List.filter (fun id => JsMap.has id (baileysSessions (manager c1)))
                        rest)
                   = map (farewell (manager c))
                       (List.filter (fun id => JsMap.has id (baileysSessions (manager c)))
                          rest)).
      { rewrite (List.filter_ext_in
                   (fun id => JsMap.has id (baileysSessions (manager c1)))
                   (fun id => JsMap.has id (baileysSessions (manager c)))).
        - apply map_ext_in. intros k Hk. apply filter_In in Hk as [Hk _].
          apply list_elem_of_In in Hk. unfold farewell.
          by destruct (Hrest k Hk) as [-> _].
        - intros k Hk. apply list_elem_of_In in Hk.
          by destruct (Hrest k Hk) as [_ ->]. }
      rewrite Hf.
      by destruct (JsMap.has id0 (baileysSessions (manager c))).
Qed.

(** X24. The shutdown handler visits every tenant, whatever happens to
    the others (unlike the idle sweep, it does not stop at a socket that
    cannot be closed): afterwards exactly the tenants whose socket could not
    be closed are still in the map, no credential directory has been touched,
    and each tenant's client has been addressed one event, in map order:
    [baileys_disconnected], or [baileys_error] for a socket that could not be
    closed. *)
Theorem shutdown_visits_every_tenant (clock : string -> Z) (c : Core) :
  NoDup (map fst (baileysSessions (manager c))) ->
  let c' := shutdown clock c in
  fs (manager c') = fs (manager c)
  /\ objs (manager c') = objs (manager c)
  /\ (forall id,
        JsMap.get id (baileysSessions (manager c'))
        = if closes (manager c) id
          then None else JsMap.get id (baileysSessions (manager c)))
  /\ exists events,
       emitted (world c') = emitted (world c) ++ events
       /\ tags events
          = map (farewell (manager c)) (map fst (baileysSessions (manager c))).
Proof.
  intros Hnd c'.
  destruct (shutdown_loop clock (map fst (baileysSessions (manager c))) c Hnd)
    as (Hfs & Hobjs & Hget & events & He & Htags).
  split; [exact Hfs|]. split; [exact Hobjs|]. split.
  - intros id. subst c'. unfold shutdown. rewrite Hget.
    destruct (decide (id ∈ map fst (baileysSessions (manager c)))) as [Hin|Hnin].
    + by rewrite (bool_decide_eq_true_2 _ Hin).
    + rewrite (bool_decide_eq_false_2 _ Hnin). simpl.
      rewrite (JsMapFacts.get_not_key _ _ Hnin).
      by destruct (closes (manager c) id).
  - exists events. split; [exact He|]. rewrite Htags. f_equal.
    apply forallb_filter_id. apply forallb_forall. intros id Hin.
    apply list_elem_of_In in Hin. unfold JsMap.has.
    by destruct (get_key id _ Hin) as [ref ->].
Qed.

Lemma shutdown_visits_every_tenant_witness :
  NoDup (map fst (baileysSessions (manager Runs.two_tenant_core)))
  /\ JsMap.get "A" (baileysSessions (manager (shutdown (fun _ => 9000)
                                                Runs.two_tenant_core)))
     = Some 0%nat
  /\ JsMap.get "B" (baileysSessions (manager (shutdown (fun _ => 9000)
                                                Runs.two_tenant_core)))
     = None
  /\ tags (emitted (world (shutdown (fun _ => 9000) Runs.two_tenant_core)))
     = [("A", "baileys_error"); ("B", "baileys_disconnected")].
Proof.
  assert (Hnd : NoDup (map fst (baileysSessions (manager Runs.two_tenant_core)))).
  { vm_compute. constructor.
    - intros H. apply elem_of_cons in H as [H|H]; [discriminate H|].
      by apply not_elem_of_nil in H.
    - constructor; [apply not_elem_of_nil | constructor]. }
  destruct (shutdown_visits_every_tenant (fun _ => 9000) Runs.two_tenant_core Hnd)
    as (_ & _ & Hget & events & He & Htags).
  split; [exact Hnd|]. split; [rewrite Hget; vm_compute; reflexivity|].
  split; [rewrite Hget; vm_compute; reflexivity|].
  rewrite He. exact Htags.
Defined.

(** X25. [POST /mcp/session/init] is gated by the push-session registry:
    for an id with no registered stream it answers 404 and changes nothing;
    for a registered id it answers 200, and then the tenant has a protocol
    session, or 500, and then the map of protocol sessions is as before. *)
Theorem session_init_gate (cwd : string) (lo now : Z) (o : Creation)
    (id : string) (c : Core) :
  truthy_str id = true ->
  let out := session_init cwd lo now o (Some id) c in
  match sessions (world c) !! id with
  | None => out = (c, 404)
  | Some _ =>
      (snd out = 200
       /\ JsMap.has id (baileysSessions (manager (fst out))) = true)
      \/ (snd out = 500
          /\ baileysSessions (manager (fst out)) = baileysSessions (manager c))
  end.
Proof.
  intros Hid out. subst out. unfold session_init. rewrite Hid.
  unfold getSession.
  destruct (sessions (world c) !! id) as [s|]; [|by destruct c].
  match goal with
  | |- context [initializeBaileysForMcpSession cwd lo now o id ?x] => set (c1 := x)
  end.
  destruct (initializeBaileysForMcpSession cwd lo now o id c1)
    as [c2 [u|e]] eqn:Hinit; cbn [fst snd].
  - left. split; [done|].
    unfold initializeBaileysForMcpSession in Hinit.
    destruct (getOrCreateBaileysSession cwd now o id (length (owners c1)) JUndefined
                (manager c1)) as [m1 [h|error]] eqn:Hcreate; [|discriminate].
    injection Hinit as <-. cbn [manager].
    destruct (getOrCreate_returns_entry _ _ _ _ _ _ _ _ _ Hcreate)
      as (ref & cell & Hget & _).
    unfold JsMap.has. by rewrite Hget.
  - right. split; [done|].
    by destruct (initialize_throws _ _ _ _ _ _ _ _ Hinit) as (cause & -> & _).
Qed.

Lemma session_init_gate_witness :
  session_init Scenarios.cwd Scenarios.loggedOut 0 Scenarios.created (Some "c9")
    Runs.c1_connected
  = (Runs.c1_connected, 404).
Proof.
  exact (session_init_gate Scenarios.cwd Scenarios.loggedOut 0 Scenarios.created
           "c9" Runs.c1_connected eq_refl).
Defined.

End CoreContracts.

(** ** The frames of the event stream *)

Module FramingFacts.
Import McpEventEmitter Framing.

Lemma no_break_app a b : no_break (a +:+ b) = no_break a && no_break b.
Proof.
  induction a as [|c a IH]; [done|]. simpl. rewrite IH. by rewrite !andb_assoc.
Qed.

Lemma escape_char_no_break c : no_break (escape_char c) = true.
Proof. by destruct c as [[] [] [] [] [] [] [] []]. Qed.

Lemma escape_no_break s : no_break (escape s) = true.
Proof.
  induction s as [|c s IH]; [done|]. simpl.
  by rewrite no_break_app, escape_char_no_break, IH.
Qed.

Lemma quote_no_break s : no_break (quote s) = true.
Proof. unfold quote. by rewrite !no_break_app, escape_no_break. Qed.

Lemma pretty_N_char_no_break x s :
  no_break (String (pretty_N_char x) s) = no_break s.
Proof.
  unfold pretty_N_char.
  destruct x as [|p]; [done|].
  do 4 (try destruct p as [p|p|]; try done).
Qed.

Lemma pretty_N_go_no_break x s :
  no_break s = true -> no_break (pretty_N_go x s) = true.
Proof.
  revert s. induction (N.lt_wf_0 x) as [x _ IH]. intros s Hs.
  destruct (decide (x = 0%N)) as [->|Hx]; [by rewrite pretty_N_go_0|].
  rewrite pretty_N_go_step by lia. apply IH.
  - apply N.div_lt; lia.
  - by rewrite pretty_N_char_no_break.
Qed.

Lemma pretty_Z_no_break (n : Z) : no_break (pretty n) = true.
Proof.
  unfold pretty, pretty_Z.
  destruct n as [|p|p]; [done| |].
  - unfold pretty, pretty_positive, pretty, pretty_N.
    destruct (decide _); [done|]. by apply pretty_N_go_no_break.
  - rewrite no_break_app. simpl.
    unfold pretty, pretty_positive, pretty, pretty_N.
    destruct (decide _); [done|]. by apply pretty_N_go_no_break.
Qed.

Lemma join_comma_no_break l :
  forallb no_break l = true -> no_break (join_comma l) = true.
Proof.
  induction l as [|x l IH]; [done|]. simpl. intros [Hx Hl]%andb_prop.
  destruct l as [|y l]; [done|].
  rewrite !no_break_app, Hx. simpl. by apply IH.
Qed.

Lemma stringify_no_break (j : json) :
  match stringify j with
  | Some s => no_break s = true
  | None => True
  end.
Proof.
  revert j. fix IHj 1. intros j.
  destruct j as [| |b|n|s|items|fields]; simpl.
  - exact I.
  - reflexivity.
  - by destruct b.
  - apply pretty_Z_no_break.
  - apply quote_no_break.
  - rewrite !no_break_app. simpl. rewrite andb_true_r.
    apply join_comma_no_break.
    induction items as [|x items IH]; [done|]. simpl.
    rewrite IH, andb_true_r.
    pose proof (IHj x) as Hx.
    by destruct (stringify x).
  - rewrite !no_break_app. simpl. rewrite andb_true_r.
    apply join_comma_no_break.
    induction fields as [|[k v] fields IH]; [done|]. simpl.
    pose proof (IHj v) as Hv.
    destruct (stringify v) as [s|]; [|exact IH]. simpl.
    by rewrite !no_break_app, escape_no_break, Hv, IH.
Qed.

(** X26. Whatever the payload (texts with line breaks included), the
    frame [sendEventToClient] builds is the optional [event:] line followed by
    one [data:] line and an empty line: the serialised payload contains
    neither LF nor CR, so a payload can neither end the frame early nor start
    a second event. *)
Theorem data_line_is_one_line (eventType : string) (data : json) :
  exists body,
    eventString eventType data
    = (if truthy_str eventType
       then "event: " +:+ eventType +:+ newline else EmptyString)
      +:+ "data: " +:+ body +:+ newline +:+ newline
    /\ no_break body = true.
Proof.
  exists (stringify_text data). split; [reflexivity|].
  unfold stringify_text. pose proof (stringify_no_break data) as H.
  by destruct (stringify data).
Qed.

End FramingFacts.

(** ** Isolation of tenants *)

Module TenancyFacts.
Import BaileysSessionManager BaileysSessionManagerFacts ManagerContracts Tenancy.

Section Isolation.
Variable cwd : string.
Variable lo : Z.
Variable id : string.
Variable ref : nat.

Lemma untouched_refl st : untouched id ref st st.
Proof. done. Qed.

Lemma untouched_trans st1 st2 st3 :
  untouched id ref st1 st2 -> untouched id ref st2 st3 -> untouched id ref st1 st3.
Proof. intros [Hm1 Ho1] [Hm2 Ho2]. split; congruence. Qed.

Lemma untouched_same st st' :
  baileysSessions st' = baileysSessions st -> objs st' = objs st ->
  untouched id ref st st'.
Proof. intros Hm Ho. split; congruence. Qed.

Lemma untouched_assign r f st :
  r <> ref -> untouched id ref st (assign r f st).
Proof.
  intros Hne. split; [done|]. rewrite lookup_assign.
  by destruct (decide (r = ref)).
Qed.

Lemma untouched_set k v st :
  k <> id ->
  untouched id ref st (set_baileysSessions (JsMap.set k v (baileysSessions st)) st).
Proof. intros Hne. split; [|done]. by apply JsMapFacts.get_set_ne. Qed.

Lemma untouched_delete k st :
  k <> id ->
  untouched id ref st (set_baileysSessions (JsMap.delete k (baileysSessions st)) st).
Proof. intros Hne. split; [|done]. by apply JsMapFacts.get_delete_ne. Qed.

Lemma untouched_remove rmError k del st :
  k <> id -> untouched id ref st (fst (removeBaileysSession rmError k del st)).
Proof.
  intros Hne.
  destruct (removeBaileysSession_cases rmError k del st)
    as (Hobjs & _ & _ & [[_ Hmap]|(_ & Hmap & _)]); split; rewrite ?Hmap, ?Hobjs;
    try done.
  by apply JsMapFacts.get_delete_ne.
Qed.

(** The session objects of another tenant are not the object [ref]. *)
Lemma other_object st k r :
  wf cwd st ->
  JsMap.get id (baileysSessions st) = Some ref ->
  k <> id ->
  JsMap.get k (baileysSessions st) = Some r ->
  r <> ref.
Proof.
  intros Hwf Hid Hne Hk ->.
  destruct (wf_map cwd st Hwf _ _ Hid) as (c & Hc & Hidc).
  destruct (wf_map cwd st Hwf _ _ Hk) as (c' & Hc' & Hkc).
  congruence.
Qed.

Lemma untouched_getOrCreate now o k cb opts st :
  k <> id ->
  (forall r, JsMap.get k (baileysSessions st) = Some r -> r <> ref) ->
  (ref < next st)%nat ->
  untouched id ref st (fst (getOrCreateBaileysSession cwd now o k cb opts st)).
Proof.
  intros Hne Hother Hlt. unfold getOrCreateBaileysSession.
  destruct (JsMap.get k (baileysSessions st)) as [r|] eqn:Hget.
  - destruct (objs st !! r) as [c|]; [|done]. cbn [fst].
    apply (untouched_trans _ (assign r (set_lastActivityTime now) st));
      [apply untouched_assign; by apply Hother|].
    apply untouched_same;
      (destruct (qrCode (session c)) as [q|]; [|done]);
      by destruct (truthy_str q && ws_not_open (sock c)).
  - destruct (authError o); [by apply untouched_same|].
    destruct (socketError o).
    + apply untouched_same; simpl; by destruct (fs st !! _).
    + split; simpl.
      * rewrite JsMapFacts.get_set_ne by done. by destruct (fs st !! _).
      * destruct (fs st !! _); simpl; rewrite lookup_insert_ne; try done; lia.
Qed.

Lemma untouched_on_connection_update now rmError h closure update st :
  wf cwd st ->
  JsMap.get id (baileysSessions st) = Some ref ->
  objs st !! h = Some closure ->
  mcpSessionId (session closure) <> id ->
  untouched id ref st (on_connection_update lo now rmError h update st).
Proof.
  intros Hwf Hid Hobj Hne.
  assert (Hh : h <> ref).
  { intros ->. destruct (wf_map cwd st Hwf _ _ Hid) as (c & Hc & Hidc).
    congruence. }
  assert (Hcur : forall st0 cur,
            baileysSessions st0 = baileysSessions st ->
            JsMap.get (mcpSessionId (session closure)) (baileysSessions st0)
            = Some cur -> cur <> ref).
  { intros st0 cur Hm Hget. rewrite Hm in Hget.
    by apply (other_object st (mcpSessionId (session closure))). }
  unfold on_connection_update. rewrite Hobj.
  set (st1 := assign h (set_lastActivityTime now) st).
  assert (H1 : untouched id ref st st1 /\ baileysSessions st1 = baileysSessions st)
    by (split; [by apply untouched_assign|done]).
  match goal with
  | |- context [match WA.qr update with Some _ => _ | None => _ end] =>
      set (st2 := match WA.qr update with Some _ => _ | None => _ end)
  end.
  assert (H2 : untouched id ref st st2 /\ baileysSessions st2 = baileysSessions st).
  { subst st2. destruct (WA.qr update) as [q|]; [|done].
    destruct (truthy_str q); [|done]. split; [|done].
    apply (untouched_trans _ st1); [apply H1|].
    apply (untouched_trans _ (assign h (set_qrCode (Some q)) st1));
      [by apply untouched_assign | by apply untouched_same]. }
  clearbody st2. clear H1. clearbody st1. clear st1. destruct H2 as [H2 Hm2].
  destruct (WA.connection update) as [conn|]; [|done].
  destruct (String.eqb conn "close").
  - set (st3 := call _ st2).
    assert (H3 : untouched id ref st st3 /\ baileysSessions st3 = baileysSessions st)
      by (split; [apply (untouched_trans _ st2); [done|by apply untouched_same]
                 |done]).
    clearbody st3. destruct H3 as [H3 Hm3].
    destruct (isLoggedOut lo (WA.lastDisconnect update)).
    + apply (untouched_trans _ st3); [done|].
      destruct (JsMap.get _ (baileysSessions st3)) as [cur|]; [|done].
      by destruct (objs st3 !! cur).
    + destruct (isRestartRequired (WA.lastDisconnect update)); [|done].
      destruct (JsMap.get _ (baileysSessions st3)) as [cur|] eqn:Hget; [|done].
      destruct (objs st3 !! cur) as [currentSession|]; [|done].
      destruct (retryCount (session currentSession) <? MAX_RETRIES); [|done].
      apply (untouched_trans _ st3); [done|].
      apply (untouched_trans _ (assign cur (set_retryCount
                                              (retryCount (session currentSession) + 1))
                                  st3));
        [apply untouched_assign; by apply (Hcur st3)|].
      split; [|done]. simpl. by apply JsMapFacts.get_set_ne.
  - destruct (String.eqb conn "open"); [|done].
    match goal with
    | |- context [assign h (set_qrCode None) ?x] => set (st3 := x)
    end.
    assert (H3 : untouched id ref st st3 /\ baileysSessions st3 = baileysSessions st).
    { subst st3.
      destruct (JsMap.get _ (baileysSessions st2)) as [cur|] eqn:Hget; [|done].
      split.
      - apply (untouched_trans _ st2); [done|].
        apply (untouched_trans _ (assign cur (set_retryCount 0) st2));
          [apply untouched_assign; by apply (Hcur st2)|].
        split; [|done]. simpl. by apply JsMapFacts.get_set_ne.
      - simpl. rewrite JsMapFacts.get_set_id; done. }
    clearbody st3. destruct H3 as [H3 Hm3].
    set (st4 := assign h (set_qrCode None) st3).
    assert (H4 : untouched id ref st st4 /\ baileysSessions st4 = baileysSessions st)
      by (split; [apply (untouched_trans _ st3); [done|by apply untouched_assign]
                 |done]).
    clearbody st4. destruct H4 as [H4 Hm4].
    apply (untouched_trans _ st4); [done|].
    destruct (JsMap.get _ (baileysSessions st4)) as [r|] eqn:Hget;
      [|by apply untouched_same].
    apply (untouched_trans _ (assign r (set_qrCode None) st4));
      [apply untouched_assign; by apply (Hcur st4) | by apply untouched_same].
Qed.

(** X27. Tenants are isolated from each other: an operation or event that
    is about another tenant (a call naming another tenant, an event of
    another tenant's socket, another tenant's retry timer, the removal that
    another tenant's logout started) leaves a tenant's map entry and its
    session object exactly as they were.  Only the sweep, which is about
    every tenant, is excepted. *)
Theorem tenant_isolation (now : Z) (e : Event) (st : State) :
  wf cwd st ->
  about e st id = false ->
  JsMap.get id (baileysSessions st) = Some ref ->
  untouched id ref st (step cwd lo now e st).
Proof.
  intros Hwf Habout Hid.
  assert (Hlt : (ref < next st)%nat).
  { destruct (wf_map cwd st Hwf _ _ Hid) as (c & Hc & _).
    by destruct (wf_alloc cwd st Hwf _ _ Hc). }
  destruct e as [o k cb opts|k|rmError k del|maxIdle|rmError h update|h m|h c|o|n];
    cbn [step about] in *.
  - apply String.eqb_neq in Habout.
    apply untouched_getOrCreate; [done| |done].
    intros r Hr. by apply (other_object st k).
  - apply String.eqb_neq in Habout. unfold getBaileysSocket.
    destruct (JsMap.get k (baileysSessions st)) as [r|] eqn:Hget; [|done].
    destruct (objs st !! r); [|done].
    apply untouched_assign. by apply (other_object st k).
  - apply String.eqb_neq in Habout. by apply untouched_remove.
  - discriminate Habout.
  - destruct (objs st !! h) as [closure|] eqn:Hobj.
    + apply String.eqb_neq in Habout.
      by apply (untouched_on_connection_update now rmError h closure).
    + unfold on_connection_update. by rewrite Hobj.
  - destruct (on_messages_upsert_frame h m st) as (Ho & _ & Hm).
    by apply untouched_same.
  - unfold on_creds_update. by destruct (objs st !! h).
  - unfold fire_timer. destruct (timers st) as [|t rest]; [done|].
    apply String.eqb_neq in Habout.
    match goal with
    | |- context [getOrCreateBaileysSession cwd now o _ _ _ ?x] => set (st2 := x)
    end.
    apply (untouched_trans _ st2).
    + split; [|done]. simpl. by apply JsMapFacts.get_delete_ne.
    + apply untouched_getOrCreate; [done| |done].
      intros r Hr. simpl in Hr. by rewrite JsMapFacts.get_delete_eq in Hr.
  - destruct (removals st !! n) as [r|] eqn:Hr;
      [|unfold resume_removal; by rewrite Hr].
    apply String.eqb_neq in Habout.
    destruct (resume_removal_frame n st) as (Ho & _ & _ & _ & [Hm|(r' & Hr' & Hm)]).
    + by apply untouched_same.
    + split; [|by rewrite Ho]. rewrite Hm.
      apply JsMapFacts.get_delete_ne. congruence.
Qed.

End Isolation.

Lemma tenant_isolation_witness :
  wf Scenarios.cwd Scenarios.two_tenants
  /\ untouched "B" 1%nat Scenarios.two_tenants
       (step Scenarios.cwd Scenarios.loggedOut 7000
          (ConnectionUpdate None 0%nat (Scenarios.close_with 401))
          Scenarios.two_tenants).
Proof.
  assert (Hwf : wf Scenarios.cwd Scenarios.two_tenants).
  { apply (wf_run Scenarios.cwd Scenarios.loggedOut
             [(0, GetOrCreate {| authError := None; socketError := None;
                                 newSocket := Scenarios.stubborn |}
                    "A" 1%nat JUndefined);
              (0, GetOrCreate Scenarios.created "B" 2%nat JUndefined)] initial).
    apply wf_initial. }
  split; [exact Hwf|].
  apply (tenant_isolation Scenarios.cwd Scenarios.loggedOut "B" 1%nat 7000
           (ConnectionUpdate None 0%nat (Scenarios.close_with 401))
           Scenarios.two_tenants Hwf); vm_compute; reflexivity.
Defined.

End TenancyFacts.
